(** * BLHeli32GKE: commutation, governor and housekeeping core

    A shallow embedding of the C transliteration of BLHeli kept in
    [src/BLHeli32GKE.c], for the build the file selects itself:
    [MODE == MULTI_MODE], [DAMPED_MODE_ENABLE] and
    [HIGH_DRIVER_PRECHG_TIME] not set.

    The firmware keeps its whole state in global [int32] variables, a
    flag struct [F], the parameter struct [P], the function pointer
    [DPTR] and the pins of the power stage.  The model keeps the same
    shape: a store indexed by the variable names, a store of flags, a
    store of parameters, and the sequence of commands sent to the
    ESC-specific pin macros. *)

From Stdlib Require Import ZArith List Bool Lia.
Import ListNotations.
Local Open Scope Z_scope.

(** ** Machine integers *)

(** [int32] arithmetic, with the two's complement wrap written out. *)
Definition wrap32 (z : Z) : Z := (z + 2 ^ 31) mod 2 ^ 32 - 2 ^ 31.

(** C truth value of a comparison. *)
Definition Zbool (b : bool) : Z := if b then 1 else 0.

(** C test of an integer used as a condition. *)
Definition truthy (z : Z) : bool := negb (z =? 0).

(** ** Global variables *)

(** The [int32] globals the modelled routines touch. *)
Inductive var : Set :=
| Temp1 | Temp3 | Temp7 | Temp8 | A | TL1
| Requested_Pwm | Governor_Req_Pwm | Current_Pwm | Current_Pwm_Limited
| runState
| Startup_Rot_Cnt | Startup_Ok_Cnt | Demag_Detected_Metric
| Comm_Period4x | Comm_Phase | Comparator_Read_Cnt
| Gov_Target | Gov_Integral | Gov_Integral_X | Gov_Proportional | Gov_Active
| Wt_Comm
| New_Rcp | Rcp_Stop_Cnt | Rcp_Timeout_Cnt | Auto_Bailout_Armed
| Pwm_Limit | Pwm_Limit_Spoolup | Pwm_Limit_Low_Rpm | Pwm_Spoolup_Beg
| Pwm_Motor_Idle
| Spoolup_Limit_Cnt | Spoolup_Limit_Skip.

(** The bits of [Flags F] the modelled routines touch. *)
Inductive flag : Set :=
| PWM_ON | MOTOR_SPINNING | DEMAG_CUT_POWER | DEMAG_DETECTED
| STARTUP_PHASE | INITIAL_RUN_PHASE | DIR_CHANGE_BRAKE
| PGM_PWMOFF_DAMPED | PGM_DIR_REV | PGM_RCP_PWM_POL | PGM_PWM_HIGH_FREQ
| T3_PENDING | RCP_PPM.

(** The fields of [struct Params P]. *)
Inductive param : Set :=
| FW_Main_Revision | FW_Sub_Revision | Layout_Revision
| Gov_I_Gain | Gov_P_Gain | Gov_Mode | Low_Voltage_Lim | Motor_Gain
| Motor_Idle | Startup_Pwr | Pwm_Freq | Direction | Input_Pol
| Initialized | Enable_TX_Program | Main_Rearm_Start | Gov_Setup_Target
| Startup_Rpm | Startup_Accel | Volt_Comp | Comm_Timing | Damping_Force
| Gov_Range | Startup_Method | Ppm_Min_Throttle | Ppm_Max_Throttle
| Beep_Strength | Beacon_Strength | Beacon_Delay | Throttle_Rate
| Demag_Comp | BEC_Voltage_High | Ppm_Center_Throttle | Main_Spoolup_Time
| Temp_Prot_Enable | Dummy
| Name (i : nat).

Definition var_eq_dec (x y : var) : {x = y} + {x <> y}.
Proof. decide equality. Defined.

Definition flag_eq_dec (x y : flag) : {x = y} + {x <> y}.
Proof. decide equality. Defined.

Definition param_eq_dec (x y : param) : {x = y} + {x <> y}.
Proof. decide equality. apply Nat.eq_dec. Defined.

Arguments var_eq_dec !x !y.
Arguments flag_eq_dec !x !y.
Arguments param_eq_dec !x !y.

(** [enum { run1, run2, run3, run4, run5, run6 }] *)
Definition run1 : Z := 0.
Definition run2 : Z := 1.
Definition run3 : Z := 2.
Definition run4 : Z := 3.
Definition run5 : Z := 4.
Definition run6 : Z := 5.

(** ** The power stage *)

Inductive leg : Set := LegA | LegB | LegC.

(** On this ESC the p-channel FET is the high side switch of a leg and
    the n-channel FET the low side one. *)
Inductive side : Set := pFET | nFET.

Definition opposite (sd : side) : side :=
  match sd with pFET => nFET | nFET => pFET end.

Definition leg_eqb (a b : leg) : bool :=
  match a, b with
  | LegA, LegA | LegB, LegB | LegC, LegC => true
  | _, _ => false
  end.

Definition side_eqb (a b : side) : bool :=
  match a, b with
  | pFET, pFET | nFET, nFET => true
  | _, _ => false
  end.

(** What the core sends to the ESC-specific externals.  In the source
    these are empty functions standing for the pin macros of the
    commented-out [escincludes] file; the model records each call. *)
Inductive Cmd : Set :=
| Fet (l : leg) (sd : side) (on : bool)
| AllFets (sd : side) (on : bool)
| FetDelay (iterations : nat)
| SetCompPhase (l : leg)
| RpmOut (on : bool)
| Delay1uS (us : Z).

(** The routines [DPTR] can point to. *)
Inductive FETFuncPtr : Set :=
| NULL
| pwm_cnfet_apBnFET_off_ptr | pwm_bnfet_apBnFET_off_ptr | pwm_bBnFET_off_ptr
| pwm_bnfet_cpBnFET_off_ptr | pwm_anfet_cpBnFET_off_ptr | pwm_aBnFET_off_ptr
| pwm_anfet_bpBnFET_off_ptr | pwm_cnfet_bpBnFET_off_ptr | pwm_cBnFET_off_ptr.

(** ** Program state *)

Record State : Type := mkState {
  mem : var -> Z;
  F : flag -> bool;
  P : param -> Z;
  DPTR : FETFuncPtr;
  port : list Cmd
}.

Definition get (x : var) (s : State) : Z := mem s x.

Definition set (x : var) (v : Z) (s : State) : State :=
  mkState (fun y => if var_eq_dec x y then v else mem s y)
          (F s) (P s) (DPTR s) (port s).

Definition setF (f : flag) (b : bool) (s : State) : State :=
  mkState (mem s) (fun g => if flag_eq_dec f g then b else F s g)
          (P s) (DPTR s) (port s).

Definition setP (p : param) (v : Z) (s : State) : State :=
  mkState (mem s) (F s) (fun q => if param_eq_dec p q then v else P s q)
          (DPTR s) (port s).

Definition setDPTR (d : FETFuncPtr) (s : State) : State :=
  mkState (mem s) (F s) (P s) d (port s).

Definition emit (c : Cmd) (s : State) : State :=
  mkState (mem s) (F s) (P s) (DPTR s) (port s ++ [c]).

Notation "s '.[' x ']'" := (get x s)
  (at level 1, left associativity, format "s .[ x ]").
Notation "s '.[' x '<-' v ']'" := (set x v s)
  (at level 1, left associativity, format "s .[ x  <-  v ]").

(** Result of running a routine that may execute an undefined operation
    or spin forever. *)
Inductive outcome (T : Type) : Type :=
| Returns (t : T)
| Undefined
| Diverges.
Arguments Returns {T} t.
Arguments Undefined {T}.
Arguments Diverges {T}.

Definition bind {T U} (o : outcome T) (k : T -> outcome U) : outcome U :=
  match o with
  | Returns t => k t
  | Undefined => Undefined
  | Diverges => Diverges
  end.

(** ** ESC specific externals *)

(** [#define FET_DELAY(d) {int32 n=d; while(n-->0){}}]: the loop body
    runs once for every value of [n] from [d] down to 1, and not at all
    when [d <= 0]. *)
Definition FET_DELAY (d : Z) (s : State) : State :=
  emit (FetDelay (Z.to_nat d)) s.

Definition NFETON_DELAY : Z := 0.
Definition PFETON_DELAY : Z := 0.

Definition All_nFETs_on := emit (AllFets nFET true).
Definition All_nFETs_off := emit (AllFets nFET false).
Definition All_pFETs_on := emit (AllFets pFET true).
Definition All_pFETs_off := emit (AllFets pFET false).

Definition AnFET_on := emit (Fet LegA nFET true).
Definition AnFET_off := emit (Fet LegA nFET false).
Definition ApFET_on := emit (Fet LegA pFET true).
Definition ApFET_off := emit (Fet LegA pFET false).

Definition BnFET_on := emit (Fet LegB nFET true).
Definition BnFET_off := emit (Fet LegB nFET false).
Definition BpFET_on := emit (Fet LegB pFET true).
Definition BpFET_off := emit (Fet LegB pFET false).

Definition CnFET_on := emit (Fet LegC nFET true).
Definition CnFET_off := emit (Fet LegC nFET false).
Definition CpFET_on := emit (Fet LegC pFET true).
Definition CpFET_off := emit (Fet LegC pFET false).

Definition Set_Comp_Phase_A := emit (SetCompPhase LegA).
Definition Set_Comp_Phase_B := emit (SetCompPhase LegB).
Definition Set_Comp_Phase_C := emit (SetCompPhase LegC).

(** [Set_RPM_Out] and [Clear_RPM_Out] are empty in the source too. *)
Definition Set_RPM_Out := emit (RpmOut true).
Definition Clear_RPM_Out := emit (RpmOut false).

(** ** Timer0 interrupt: pwm on/off routines *)

(** The body of [t0_int_pwm_on_exit] is commented out as a whole. *)
Definition t0_int_pwm_on_exit (s : State) : State := s.

Definition t0_int_pwm_off_exit (s : State) : State :=
  s.[TL1 <- 0].

(** As transliterated the two [jb ACC.n] dispatches are commented out,
    so the routine always ends by turning the C pfet on. *)
Definition t0_int_pwm_off_damped (s : State) : State :=
  let s := All_nFETs_off s in
  let s := FET_DELAY PFETON_DELAY s in
  let s := s.[A <- s.[Comm_Phase]] in
  let s := s.[A <- wrap32 (s.[A] - 1)] in
  let s := CpFET_on s in
  t0_int_pwm_off_exit s.

Definition t0_int_pwm_off_comm_3_4 (s : State) : State :=
  let s := BpFET_on s in
  t0_int_pwm_off_exit s.

Definition t0_int_pwm_off_comm_5_6 (s : State) : State :=
  let s := ApFET_on s in
  t0_int_pwm_off_exit s.

Definition t0_int_pwm_off_exit_nfets_off (s : State) : State :=
  let s := s.[TL1 <- 0] in
  All_nFETs_off s.

Definition switch_power_off (s : State) : State :=
  let s := All_nFETs_off s in
  All_pFETs_off s.

Definition pwm_noBnFET_off (s : State) : State :=
  t0_int_pwm_on_exit s.

Definition pwm_aBnFET_off (s : State) : State :=
  let s := AnFET_on s in
  let s := BnFET_off s in
  t0_int_pwm_on_exit s.

Definition pwm_bBnFET_off (s : State) : State :=
  let s := BnFET_on s in
  let s := CnFET_off s in
  t0_int_pwm_on_exit s.

Definition pwm_cBnFET_off (s : State) : State :=
  let s := CnFET_on s in
  let s := AnFET_off s in
  t0_int_pwm_on_exit s.

Definition pwm_anfet_bpBnFET_off (s : State) : State :=
  let s := ApFET_off s in
  let s := CpFET_off s in
  let s := FET_DELAY NFETON_DELAY s in
  let s := AnFET_on s in
  let s := BnFET_off s in
  t0_int_pwm_on_exit s.

Definition pwm_anfet_cpBnFET_off (s : State) : State :=
  let s := ApFET_off s in
  let s := BpFET_off s in
  let s := FET_DELAY NFETON_DELAY s in
  let s := AnFET_on s in
  let s := BnFET_off s in
  t0_int_pwm_on_exit s.

Definition pwm_bnfet_cpBnFET_off (s : State) : State :=
  let s := BpFET_off s in
  let s := ApFET_off s in
  let s := FET_DELAY NFETON_DELAY s in
  let s := BnFET_on s in
  let s := CnFET_off s in
  t0_int_pwm_on_exit s.

Definition pwm_bnfet_apBnFET_off (s : State) : State :=
  let s := BpFET_off s in
  let s := CpFET_off s in
  let s := FET_DELAY NFETON_DELAY s in
  let s := BnFET_on s in
  let s := CnFET_off s in
  t0_int_pwm_on_exit s.

Definition pwm_cnfet_apBnFET_off (s : State) : State :=
  let s := CpFET_off s in
  let s := BpFET_off s in
  let s := FET_DELAY NFETON_DELAY s in
  let s := CnFET_on s in
  let s := AnFET_off s in
  t0_int_pwm_on_exit s.

Definition pwm_cnfet_bpBnFET_off (s : State) : State :=
  let s := CpFET_off s in
  let s := ApFET_off s in
  let s := FET_DELAY NFETON_DELAY s in
  let s := CnFET_on s in
  let s := AnFET_off s in
  t0_int_pwm_on_exit s.

(** [t0_int_pwm_on_exit_pfets_off] only loads [A]; its dispatch is
    commented out. *)
Definition t0_int_pwm_on_exit_pfets_off (s : State) : State :=
  s.[A <- s.[Comm_Phase]].

Definition t0_int_pfets_off_comm_1_6 (s : State) : State :=
  let s := ApFET_off s in
  let s := CpFET_off s in
  t0_int_pwm_on_exit s.

Definition t0_int_pfets_off_comm_4_5_6 (s : State) : State :=
  let s := ApFET_off s in
  let s := BpFET_off s in
  t0_int_pwm_on_exit s.

Definition t0_int_pfets_off_comm_2_3 (s : State) : State :=
  let s := BpFET_off s in
  let s := CpFET_off s in
  t0_int_pwm_on_exit s.

(** The routine a [DPTR] value stands for ([jmp @A+DPTR]). *)
Definition call_DPTR (d : FETFuncPtr) : State -> State :=
  match d with
  | NULL => fun s => s
  | pwm_cnfet_apBnFET_off_ptr => pwm_cnfet_apBnFET_off
  | pwm_bnfet_apBnFET_off_ptr => pwm_bnfet_apBnFET_off
  | pwm_bBnFET_off_ptr => pwm_bBnFET_off
  | pwm_bnfet_cpBnFET_off_ptr => pwm_bnfet_cpBnFET_off
  | pwm_anfet_cpBnFET_off_ptr => pwm_anfet_cpBnFET_off
  | pwm_aBnFET_off_ptr => pwm_aBnFET_off
  | pwm_anfet_bpBnFET_off_ptr => pwm_anfet_bpBnFET_off
  | pwm_cnfet_bpBnFET_off_ptr => pwm_cnfet_bpBnFET_off
  | pwm_cBnFET_off_ptr => pwm_cBnFET_off
  end.

(** ** Constant definitions for multi *)

Definition RCP_STOP : Z := 1.
Definition RCP_STOP_LIMIT : Z := 250.
Definition PWM_START : Z := 50.

(** ** Helpers declared outside the file *)

(** Modelled from the spec: the macro [Limit1] comes from [UAVX.h],
    which is not among the sources.  The spec has the governor terms
    "each clamped to a signed range", so [Limit1 x l] clamps [x] to
    [-l .. l]. *)
Definition Limit1 (x l : Z) : Z :=
  if x <? - l then - l else if x >? l then l else x.

(** Modelled from the spec: the macro [Limit] comes from [UAVX.h] too;
    [Limit x lo hi] clamps [x] to [lo .. hi]. *)
Definition Limit (x lo hi : Z) : Z :=
  if x <? lo then lo else if x >? hi then hi else x.

(** Modelled from the spec: the type [Flags] is declared in [UAVX.h],
    which is not among the sources.  The spec speaks of flags only as
    set or cleared, so a flag is a boolean, and an [int32] stored into
    one reads back as set exactly when it is not zero. *)
Definition flag_of_int32 (v : Z) : bool := truthy v.

(** ** Governor (multi) *)

Definition calc_governor_int_error (s : State) : State := s.

Definition governor_deactivate (s : State) : State :=
  let s := s.[Current_Pwm <- s.[Requested_Pwm]] in
  let s := s.[Gov_Integral_X <- 0] in
  let s := s.[Gov_Integral <- 0] in
  let s := s.[Gov_Target <- 0] in
  s.[Gov_Active <- Zbool false].

(** The division is the only operation of the core that C leaves
    undefined: [51000L / Requested_Pwm] with a zero divisor. *)
Definition governor_activate (s : State) : outcome State :=
  let s := s.[Gov_Active <- Zbool (negb (P s Gov_Mode =? 0))] in
  let s := s.[Governor_Req_Pwm <- s.[Requested_Pwm]] in
  if s.[Requested_Pwm] =? 0 then Undefined
  else Returns s.[Comm_Period4x <- wrap32 (Z.quot 51000 s.[Requested_Pwm] * 2)].

Definition calc_governor_target (s : State) : outcome State :=
  if truthy (P s Gov_Mode) then governor_activate s
  else if s.[New_Rcp] <? RCP_STOP then Returns (governor_deactivate s)
  else Returns s.

Definition calc_governor_prop_error (s : State) : State :=
  if truthy s.[Gov_Active] then
    let s := s.[Gov_Proportional <- wrap32 (s.[Governor_Req_Pwm] - s.[Gov_Target])] in
    let s := s.[Gov_Integral_X <- wrap32 (s.[Gov_Integral_X] + s.[Gov_Proportional])] in
    let s := s.[Gov_Integral_X <- Limit1 s.[Gov_Integral_X] 127] in
    s.[Current_Pwm <- Limit1 s.[Current_Pwm] s.[Pwm_Limit]]
  else s.

Definition calc_governor_prop_correction (s : State) : State :=
  if truthy s.[Gov_Active] then
    let s := s.[Gov_Proportional <-
                 Z.quot (wrap32 (P s Gov_P_Gain * s.[Gov_Proportional])) 16] in
    s.[Gov_Proportional <- Limit1 s.[Gov_Proportional] 127]
  else s.

Definition calc_governor_int_correction (s : State) : State :=
  if truthy s.[Gov_Active] then
    let s := s.[Gov_Integral <-
                 Z.quot (wrap32 (P s Gov_I_Gain * s.[Gov_Integral])) 16] in
    s.[Gov_Integral <- Limit1 s.[Gov_Integral] 127]
  else s.

(** ** Routines whose body is empty or wholly commented out *)

Definition set_pwm_limit_low_rpm (s : State) : State := s.
Definition start_adc_conversion (s : State) : State := s.
Definition check_temp_voltage_and_limit_power (s : State) : State := s.
Definition calc_next_comm_timing (s : State) : State := s.
Definition wait_advance_timing (s : State) : State := s.
Definition calc_new_wait_times (s : State) : State := s.
Definition wait_before_zc_scan (s : State) : State := s.
Definition comp_wait_on_comp_able_not_timed_out (s : State) : State := s.
Definition evaluate_comparator_integrity (s : State) : State := s.
Definition wait_for_comm (s : State) : State := s.

(** ** Startup pwm and timings *)

Definition set_startup_pwm (s : State) : State :=
  let s := s.[Requested_Pwm <- wrap32 (P s Startup_Pwr * PWM_START)] in
  let s := s.[Requested_Pwm <- Limit s.[Requested_Pwm] 0 s.[Pwm_Limit]] in
  let s := s.[Pwm_Spoolup_Beg <- s.[Requested_Pwm]] in
  let s := s.[Current_Pwm_Limited <- s.[Requested_Pwm]] in
  s.[Current_Pwm <- s.[Requested_Pwm]].

Definition initialize_all_timings (s : State) : State :=
  s.[Comm_Period4x <- 0x7F00].

(** ** Comparator waits *)

Definition wait_for_comp_out_low (s : State) : State :=
  let s := setF DEMAG_DETECTED true s in
  s.[Comparator_Read_Cnt <- 0].

Definition wait_for_comp_out_high (s : State) : State :=
  let s := setF DEMAG_DETECTED true s in
  s.[Comparator_Read_Cnt <- 0].

(** Lines 3062-3078: the number of comparator readings.  [Temp1] is the
    number of OK readings required, [Temp3] the number of fast
    consecutive readings. *)
Definition set_comparator_readings (s : State) : State :=
  let s := s.[Temp1 <- 1] in
  let s := s.[Temp3 <- 2] in
  if s.[Comm_Period4x] >? 0x0500 then
    let s := s.[Temp1 <- 2] in
    if s.[Comm_Period4x] >? 0x0a00 then
      let s := s.[Temp1 <- 3] in
      if s.[Comm_Period4x] >? 0x0f00 then s.[Temp3 <- 3] else s
    else s
  else
    let s := s.[Temp1 <- 30] in
    s.[Temp3 <- 1].

(** The loop that follows calls an empty routine, so nothing it tests
    changes: it is left at once or never. *)
Definition wait_for_comp_out_not_timed_out (s : State) : outcome State :=
  let s := set_comparator_readings s in
  if F s T3_PENDING && (s.[Comparator_Read_Cnt] =? 0) then Diverges
  else Returns s.

Definition setup_comm_wait (s : State) : State :=
  emit (Delay1uS s.[Wt_Comm]) s.

(** ** Commutation routines *)

Definition comm_exit (s : State) : State :=
  let s :=
    if F s DIR_CHANGE_BRAKE then
      let s := switch_power_off s in
      let s := FET_DELAY NFETON_DELAY s in
      let s := FET_DELAY NFETON_DELAY s in
      All_pFETs_on s
    else s in
  setF DEMAG_CUT_POWER false s.

Definition comm1comm2 (s : State) : State :=
  let s := Set_RPM_Out s in
  let s := All_pFETs_off s in
  let s :=
    if negb (F s PGM_PWMOFF_DAMPED) then
      let s := setDPTR pwm_cnfet_apBnFET_off_ptr s in
      FET_DELAY NFETON_DELAY s
    else s in
  let s := ApFET_on s in
  let s := Set_Comp_Phase_B s in
  let s := s.[Comm_Phase <- 2] in
  comm_exit s.

Definition comm2comm3 (s : State) : State :=
  let s := Clear_RPM_Out s in
  let s := CnFET_off s in
  let s :=
    if negb (F s PGM_PWMOFF_DAMPED) then
      let s := setDPTR pwm_bnfet_apBnFET_off_ptr s in
      let s := BpFET_off s in
      let s := CpFET_off s in
      FET_DELAY NFETON_DELAY s
    else setDPTR pwm_bBnFET_off_ptr s in
  let s := if negb (F s PWM_ON) then BnFET_on s else s in
  let s := Set_Comp_Phase_C s in
  let s := s.[Comm_Phase <- 3] in
  comm_exit s.

Definition comm3comm4 (s : State) : State :=
  let s := All_pFETs_off s in
  let s :=
    if F s PGM_PWMOFF_DAMPED then
      let s := setDPTR pwm_bnfet_cpBnFET_off_ptr s in
      FET_DELAY NFETON_DELAY s
    else s in
  let s := CpFET_on s in
  let s := Set_Comp_Phase_A s in
  let s := s.[Comm_Phase <- 4] in
  comm_exit s.

Definition comm4comm5 (s : State) : State :=
  let s := BnFET_off s in
  let s :=
    if F s PGM_PWMOFF_DAMPED then
      let s := setDPTR pwm_anfet_cpBnFET_off_ptr s in
      let s := ApFET_off s in
      let s := BpFET_off s in
      FET_DELAY NFETON_DELAY s
    else
      let s := setDPTR pwm_aBnFET_off_ptr s in
      if F s PWM_ON then AnFET_on s else s in
  let s := Set_Comp_Phase_B s in
  let s := s.[Comm_Phase <- 5] in
  comm_exit s.

Definition comm5comm6 (s : State) : State :=
  let s := All_pFETs_off s in
  let s :=
    if F s PGM_PWMOFF_DAMPED then
      let s := setDPTR pwm_anfet_bpBnFET_off_ptr s in
      FET_DELAY NFETON_DELAY s
    else s in
  let s := BpFET_on s in
  let s := Set_Comp_Phase_C s in
  let s := s.[Comm_Phase <- 6] in
  comm_exit s.

Definition comm6comm1 (s : State) : State :=
  let s := AnFET_off s in
  let s :=
    if F s PGM_PWMOFF_DAMPED then
      let s := setDPTR pwm_cnfet_bpBnFET_off_ptr s in
      let s := ApFET_off s in
      let s := CpFET_off s in
      FET_DELAY NFETON_DELAY s
    else setDPTR pwm_cBnFET_off_ptr s in
  let s := if F s PWM_ON then CnFET_on s else s in
  let s := Set_Comp_Phase_A s in
  let s := s.[Comm_Phase <- 1] in
  comm_exit s.

(** ** Decode parameters *)

(** The last test is written [if (P.Pwm_Freq = 3)]: an assignment,
    whose value 3 is then tested. *)
Definition decode_parameters (s : State) : State :=
  let s := s.[Temp8 <- P s Pwm_Freq] in
  let s := setF PGM_PWMOFF_DAMPED false s in
  let s :=
    if P s Direction =? 3 then s
    else
      let s := setF PGM_DIR_REV false s in
      setF PGM_DIR_REV true s in
  let s := setF PGM_RCP_PWM_POL false s in
  let s := setF PGM_RCP_PWM_POL (flag_of_int32 (P s Input_Pol)) s in
  let s := setP Pwm_Freq 3 s in
  if truthy (P s Pwm_Freq) then setF PGM_PWM_HIGH_FREQ false s
  else setF PGM_PWM_HIGH_FREQ true s.

(** ** Start entry point *)

Definition init_start (s : State) : State :=
  let s := switch_power_off s in
  let s := s.[Current_Pwm_Limited <- 0] in
  let s := s.[Current_Pwm <- 0] in
  let s := s.[Governor_Req_Pwm <- 0] in
  let s := s.[Requested_Pwm <- 0] in
  let s := s.[Gov_Integral_X <- 0] in
  let s := s.[Gov_Integral <- 0] in
  let s := s.[Gov_Target <- 0] in
  let s := s.[Gov_Active <- Zbool false] in
  let s := s.[Demag_Detected_Metric <- Zbool false] in
  let s := initialize_all_timings s in
  let s := check_temp_voltage_and_limit_power s in
  (* Set up start operating conditions *)
  let s := s.[Temp1 <- P s Pwm_Freq] in
  let s := s.[A <- s.[Temp1]] in
  let s := s.[Temp7 <- s.[A]] in
  let s := setP Pwm_Freq 2 s in
  let s := decode_parameters s in
  let s := s.[Temp1 <- P s Pwm_Freq] in
  let s := s.[A <- s.[Temp7]] in
  let s := s.[Temp1 <- s.[Temp7]] in
  (* Set max allowed power *)
  let s := s.[Pwm_Limit <- 0xff] in
  let s := s.[Pwm_Limit <- s.[Requested_Pwm]] in
  let s := s.[Pwm_Limit_Spoolup <- s.[Requested_Pwm]] in
  let s := s.[Pwm_Limit_Low_Rpm <- s.[Requested_Pwm]] in
  let s := s.[Requested_Pwm <- 1] in
  let s := s.[Current_Pwm <- 1] in
  let s := s.[Current_Pwm_Limited <- 1] in
  let s := s.[Spoolup_Limit_Cnt <- s.[Auto_Bailout_Armed]] in
  let s := s.[Spoolup_Limit_Skip <- 1] in
  (* Begin startup sequence *)
  let s := setF MOTOR_SPINNING true s in
  let s := setF STARTUP_PHASE true s in
  let s := s.[Startup_Ok_Cnt <- 0] in
  let s := comm5comm6 s in
  let s := comm6comm1 s in
  let s := initialize_all_timings s in
  let s := calc_next_comm_timing s in
  let s := calc_new_wait_times s in
  s.[runState <- run1].

(** ** Housekeeping state machine *)

(** The local [enum] of [DoHousekeeping]. *)
Inductive startState : Set :=
| validate_setpoint_start
| initialState
| damped_transition
| initial_run_phase_done
| run6_check_speed
| wait_for_power_on
| jmp_wait_for_power_on
| run_to_next_state_main
| init_no_signal
| direct_start_check_setpoint
| direct_start_check_rcp
| run6_check_rcp_stop_count
| run6_check_setpoint_timeout
| run6_check_rcp_timeout
| normal_run_check_startup_rot
| run_to_wait_for_power_on
| normal_run_checks
| run6_check_setpoint_stop_count
| finished_startup.

Definition startState_eqb (a b : startState) : bool :=
  match a, b with
  | validate_setpoint_start, validate_setpoint_start
  | initialState, initialState
  | damped_transition, damped_transition
  | initial_run_phase_done, initial_run_phase_done
  | run6_check_speed, run6_check_speed
  | wait_for_power_on, wait_for_power_on
  | jmp_wait_for_power_on, jmp_wait_for_power_on
  | run_to_next_state_main, run_to_next_state_main
  | init_no_signal, init_no_signal
  | direct_start_check_setpoint, direct_start_check_setpoint
  | direct_start_check_rcp, direct_start_check_rcp
  | run6_check_rcp_stop_count, run6_check_rcp_stop_count
  | run6_check_setpoint_timeout, run6_check_setpoint_timeout
  | run6_check_rcp_timeout, run6_check_rcp_timeout
  | normal_run_check_startup_rot, normal_run_check_startup_rot
  | run_to_wait_for_power_on, run_to_wait_for_power_on
  | normal_run_checks, normal_run_checks
  | run6_check_setpoint_stop_count, run6_check_setpoint_stop_count
  | finished_startup, finished_startup => true
  | _, _ => false
  end.

(** One pass through the [switch (startState)] of the do/while loop:
    the state and the value of [startState] after it.  A value with no
    [case] leaves both as they are (the switch has no [default]). *)
Definition DoHousekeeping_switch (s : State) (st : startState)
  : State * startState :=
  match st with
  | direct_start_check_rcp =>
      if s.[New_Rcp] >? RCP_STOP then (s, run_to_wait_for_power_on)
      else
        (* [startState == normal_run_checks;] compares and drops the result *)
        (s.[runState <- run1], st)
  | normal_run_checks =>
      if F s DIR_CHANGE_BRAKE || F s INITIAL_RUN_PHASE then
        (s, initial_run_phase_done)
      else if s.[Startup_Rot_Cnt] >? 0 then
        (s, normal_run_check_startup_rot)
      else
        let s := setF INITIAL_RUN_PHASE false s in
        let s := s.[Pwm_Limit <- 0xFF] in
        (s, damped_transition)
  | normal_run_check_startup_rot =>
      if s.[New_Rcp] <? s.[Startup_Rot_Cnt] then (s, run_to_wait_for_power_on)
      else (s.[runState <- run1], finished_startup)
  | initial_run_phase_done =>
      let s :=
        if s.[Rcp_Stop_Cnt] =? 0 then
          let s := s.[Pwm_Limit_Spoolup <- s.[Pwm_Spoolup_Beg]] in
          let s := s.[Spoolup_Limit_Cnt <- s.[Auto_Bailout_Armed]] in
          s.[Spoolup_Limit_Skip <- 1]
        else s in
      (s, run6_check_rcp_stop_count)
  | run6_check_rcp_stop_count =>
      if s.[Rcp_Stop_Cnt] >? RCP_STOP_LIMIT then (s, run_to_wait_for_power_on)
      else (s, run6_check_rcp_timeout)
  | run6_check_rcp_timeout =>
      if negb (F s RCP_PPM) then (s, run6_check_speed)
      else if s.[Rcp_Timeout_Cnt] =? 0 then (s, run_to_wait_for_power_on)
      else (s, st)
  | run6_check_speed =>
      let s :=
        if F s DIR_CHANGE_BRAKE then s.[Temp1 <- 0x6000]
        else s.[Temp1 <- 0xf000] in
      if s.[Comm_Period4x] >? s.[Temp1] then (s, run_to_wait_for_power_on)
      else (s.[runState <- run1], finished_startup)
  | run_to_wait_for_power_on =>
      let s := switch_power_off s in
      let s := s.[Pwm_Motor_Idle <- 0] in
      let s := s.[Current_Pwm_Limited <- 0] in
      let s := s.[Current_Pwm <- 0] in
      let s := s.[Governor_Req_Pwm <- 0] in
      let s := s.[Requested_Pwm <- 0] in
      let s := setF MOTOR_SPINNING false s in
      let s := emit (Delay1uS 1000) s in
      let s := switch_power_off s in
      (* tail or multi; the chosen value is overwritten by the fall
         through into [case jmp_wait_for_power_on] *)
      let st :=
        if negb (F s RCP_PPM) then jmp_wait_for_power_on
        else if s.[Rcp_Timeout_Cnt] =? 0 then init_no_signal
        else jmp_wait_for_power_on in
      (s, wait_for_power_on)
  | jmp_wait_for_power_on => (s, wait_for_power_on)
  | finished_startup => (s, st)
  | _ => (s, st)
  end.

(** The do/while loop, entered with [startState] equal to [st]; [None]
    when [fuel] passes were not enough to leave it. *)
Fixpoint DoHousekeeping_loop (fuel : nat) (s : State) (st : startState)
  : option State :=
  match fuel with
  | O => None
  | S fuel =>
      let '(s, st) := DoHousekeeping_switch s st in
      if startState_eqb st finished_startup then Some s
      else DoHousekeeping_loop fuel s st
  end.

(** [uint8 startState = initialState;] and then the loop. *)
Definition DoHousekeeping (fuel : nat) (s : State) : option State :=
  DoHousekeeping_loop fuel s initialState.

(** ** Run entry point *)

(** The [switch (runState)] of the main commutation loop; no case
    matches a value outside [run1 .. run6]. *)
Definition main_switch (s : State) : outcome State :=
  if s.[runState] =? run1 then
    let s := wait_for_comp_out_high s in
    bind (calc_governor_target s) (fun s =>
    let s := wait_for_comm s in
    let s := comm1comm2 s in
    Returns s.[runState <- wrap32 (s.[runState] + 1)])
  else if s.[runState] =? run2 then
    let s := wait_for_comp_out_low s in
    let s := calc_governor_prop_error s in
    let s := set_pwm_limit_low_rpm s in
    let s := wait_for_comm s in
    let s := comm2comm3 s in
    Returns s.[runState <- wrap32 (s.[runState] + 1)]
  else if s.[runState] =? run3 then
    let s := wait_for_comp_out_high s in
    let s := calc_governor_int_error s in
    let s := wait_for_comm s in
    let s := comm3comm4 s in
    Returns s.[runState <- wrap32 (s.[runState] + 1)]
  else if s.[runState] =? run4 then
    let s := wait_for_comp_out_low s in
    let s := evaluate_comparator_integrity s in
    let s := setup_comm_wait s in
    let s := calc_governor_prop_correction s in
    let s := wait_for_comm s in
    let s := comm4comm5 s in
    Returns s.[runState <- wrap32 (s.[runState] + 1)]
  else if s.[runState] =? run5 then
    let s := wait_for_comp_out_high s in
    let s := calc_governor_int_correction s in
    let s := wait_for_comm s in
    let s := comm5comm6 s in
    Returns s.[runState <- wrap32 (s.[runState] + 1)]
  else if s.[runState] =? run6 then
    let s := wait_for_comp_out_low s in
    let s := start_adc_conversion s in
    let s := evaluate_comparator_integrity s in
    let s := setup_comm_wait s in
    let s := check_temp_voltage_and_limit_power s in
    let s := wait_for_comm s in
    let s := comm6comm1 s in
    Returns s.[runState <- run1]
  else Returns s.

(** One turn of [while (true)] in [main]: [Diverges] stands for a
    housekeeping loop that [fuel] passes do not leave. *)
Definition main_loop_body (fuel : nat) (s : State) : outcome State :=
  let s := evaluate_comparator_integrity s in
  let s := setup_comm_wait s in
  bind (main_switch s) (fun s =>
  let s := calc_next_comm_timing s in
  let s := wait_advance_timing s in
  let s := calc_new_wait_times s in
  let s := wait_before_zc_scan s in
  match DoHousekeeping fuel s with
  | Some s => Returns s
  | None => Diverges
  end).

(** [main] up to the commutation loop. *)
Definition main_entry (s : State) : State :=
  let s := switch_power_off s in
  let s := decode_parameters s in
  init_start s.

(** ** Set default parameters (multi) *)

Definition EEPROM_FW_MAIN_REVISION : Z := 13.
Definition EEPROM_FW_SUB_REVISION : Z := 2.
Definition EEPROM_LAYOUT_REVISION : Z := 19.

Definition DEFAULT_PGM_MULTI_P_GAIN : Z := 9.
Definition DEFAULT_PGM_MULTI_I_GAIN : Z := 9.
(** [1=HiRange 2=MidRange 3=LoRange 4=Off] *)
Definition DEFAULT_PGM_MULTI_GOVERNOR_MODE : Z := 4.
Definition DEFAULT_PGM_MULTI_GAIN : Z := 3.
Definition DEFAULT_PGM_MULTI_LOW_VOLTAGE_LIM : Z := 1.
Definition DEFAULT_PGM_MULTI_COMM_TIMING : Z := 3.
(** [1=High 2=Low] *)
Definition DEFAULT_PGM_MULTI_PWM_FREQ : Z := 1.
Definition DEFAULT_PGM_MULTI_DEMAG_COMP : Z := 2.
Definition DEFAULT_PGM_MULTI_DIRECTION : Z := 1.
Definition DEFAULT_PGM_MULTI_RCP_PWM_POL : Z := 1.
Definition DEFAULT_PGM_MULTI_BEEP_STRENGTH : Z := 40.
Definition DEFAULT_PGM_MULTI_BEACON_STRENGTH : Z := 80.
Definition DEFAULT_PGM_MULTI_BEACON_DELAY : Z := 4.
Definition DEFAULT_PGM_MULTI_STARTUP_PWR : Z := 0.
Definition DEFAULT_PGM_ENABLE_TX_PROGRAM : Z := 1.
Definition DEFAULT_PGM_PPM_MIN_THROTTLE : Z := 37.
Definition DEFAULT_PGM_PPM_MAX_THROTTLE : Z := 208.
Definition DEFAULT_PGM_PPM_CENTER_THROTTLE : Z := 122.
Definition DEFAULT_PGM_BEC_VOLTAGE_HIGH : Z := 0.
Definition DEFAULT_PGM_ENABLE_TEMP_PROT : Z := 1.

Definition set_default_parameters (s : State) : State :=
  let s := setP FW_Main_Revision EEPROM_FW_MAIN_REVISION s in
  let s := setP FW_Sub_Revision EEPROM_FW_SUB_REVISION s in
  let s := setP Layout_Revision EEPROM_LAYOUT_REVISION s in
  let s := setP Gov_P_Gain DEFAULT_PGM_MULTI_P_GAIN s in
  let s := setP Gov_I_Gain DEFAULT_PGM_MULTI_I_GAIN s in
  let s := setP Gov_Mode DEFAULT_PGM_MULTI_GOVERNOR_MODE s in
  let s := setP Low_Voltage_Lim DEFAULT_PGM_MULTI_LOW_VOLTAGE_LIM s in
  let s := setP Motor_Gain DEFAULT_PGM_MULTI_GAIN s in
  let s := setP Motor_Idle 0xff s in
  let s := setP Startup_Pwr DEFAULT_PGM_MULTI_STARTUP_PWR s in
  let s := setP Pwm_Freq DEFAULT_PGM_MULTI_PWM_FREQ s in
  let s := setP Direction DEFAULT_PGM_MULTI_DIRECTION s in
  let s := setP Input_Pol DEFAULT_PGM_MULTI_RCP_PWM_POL s in
  let s := setP Initialized 0xAA55 s in
  let s := setP Enable_TX_Program DEFAULT_PGM_ENABLE_TX_PROGRAM s in
  let s := setP Main_Rearm_Start 0xff s in
  let s := setP Gov_Setup_Target 0xff s in
  let s := setP Startup_Rpm 0xff s in
  let s := setP Startup_Accel 0xff s in
  let s := setP Volt_Comp 0xff s in
  let s := setP Comm_Timing DEFAULT_PGM_MULTI_COMM_TIMING s in
  let s := setP Damping_Force 0xff s in
  let s := setP Gov_Range 0xff s in
  let s := setP Startup_Method 0xff s in
  let s := setP Ppm_Min_Throttle DEFAULT_PGM_PPM_MIN_THROTTLE s in
  let s := setP Ppm_Max_Throttle DEFAULT_PGM_PPM_MAX_THROTTLE s in
  let s := setP Beep_Strength DEFAULT_PGM_MULTI_BEEP_STRENGTH s in
  let s := setP Beacon_Strength DEFAULT_PGM_MULTI_BEACON_STRENGTH s in
  let s := setP Beacon_Delay DEFAULT_PGM_MULTI_BEACON_DELAY s in
  let s := setP Throttle_Rate 0xff s in
  let s := setP Demag_Comp DEFAULT_PGM_MULTI_DEMAG_COMP s in
  let s := setP BEC_Voltage_High DEFAULT_PGM_BEC_VOLTAGE_HIGH s in
  let s := setP Ppm_Center_Throttle DEFAULT_PGM_PPM_CENTER_THROTTLE s in
  let s := setP Main_Spoolup_Time 0xff s in
  let s := setP Temp_Prot_Enable DEFAULT_PGM_ENABLE_TEMP_PROT s in
  setP Dummy 0xffff s.

(** ** States used as concrete inputs *)

(** The globals as C initialises them: everything zero,
    [runState = run1], [DPTR = NULL], nothing sent to the pins yet. *)
Definition power_on_state : State :=
  mkState (fun _ => 0) (fun _ => false) (fun _ => 0) NULL [].

(** The parameters of a freshly programmed multi ESC. *)
Definition default_state : State := set_default_parameters power_on_state.

(** ** Reading the pin commands *)

Definition fet_levels := leg -> side -> bool.

(** Level of each switch after one command. *)
Definition fet_after (lv : fet_levels) (c : Cmd) : fet_levels :=
  match c with
  | Fet l sd on =>
      fun l' sd' => if leg_eqb l l' && side_eqb sd sd' then on else lv l' sd'
  | AllFets sd on =>
      fun l' sd' => if side_eqb sd sd' then on else lv l' sd'
  | _ => lv
  end.

(** Level of each switch after a command sequence, from levels [lv]. *)
Definition fets_after (lv : fet_levels) (cs : list Cmd) : fet_levels :=
  fold_left fet_after cs lv.

(** The commands a routine sends when run from [s]. *)
Definition issued (f : State -> State) (s : State) : list Cmd :=
  port (f (mkState (mem s) (F s) (P s) (DPTR s) [])).

(** A switch commanded on after the other switch of its leg was
    commanded off, with what lay between the two commands: the number
    of [FET_DELAY] calls and the loop iterations they ran in total. *)
Record handover : Set := mkHandover {
  on_leg : leg;
  on_side : side;
  delay_calls : nat;
  delay_iterations : nat
}.

(** For every switch commanded off and not on again since: the
    [FET_DELAY] calls and iterations seen since that command. *)
Definition since_off := leg -> side -> option (nat * nat).

Definition mark (l : leg) (sd : side) (v : option (nat * nat)) (w : since_off)
  : since_off :=
  fun l' sd' => if leg_eqb l l' && side_eqb sd sd' then v else w l' sd'.

Definition mark_all (sd : side) (v : option (nat * nat)) (w : since_off)
  : since_off :=
  fun l' sd' => if side_eqb sd sd' then v else w l' sd'.

Definition delayed (n : nat) (w : since_off) : since_off :=
  fun l sd =>
    match w l sd with
    | Some (calls, its) => Some (S calls, (its + n)%nat)
    | None => None
    end.

Definition turn_on (l : leg) (sd : side) (w : since_off) : list handover :=
  match w l (opposite sd) with
  | Some (calls, its) => [mkHandover l sd calls its]
  | None => []
  end.

Fixpoint handovers_from (w : since_off) (cs : list Cmd) : list handover :=
  match cs with
  | [] => []
  | Fet l sd false :: cs => handovers_from (mark l sd (Some (0, 0)%nat) w) cs
  | Fet l sd true :: cs => turn_on l sd w ++ handovers_from (mark l sd None w) cs
  | AllFets sd false :: cs => handovers_from (mark_all sd (Some (0, 0)%nat) w) cs
  | AllFets sd true :: cs =>
      turn_on LegA sd w ++ turn_on LegB sd w ++ turn_on LegC sd w
      ++ handovers_from (mark_all sd None w) cs
  | FetDelay n :: cs => handovers_from (delayed n w) cs
  | _ :: cs => handovers_from w cs
  end.

(** The handovers inside one command sequence. *)
Definition handovers (cs : list Cmd) : list handover :=
  handovers_from (fun _ _ => None) cs.

(** The commutation routine that enters a phase. *)
Definition comm_into (phase : Z) : State -> State :=
  if phase =? 1 then comm6comm1
  else if phase =? 2 then comm1comm2
  else if phase =? 3 then comm2comm3
  else if phase =? 4 then comm3comm4
  else if phase =? 5 then comm4comm5
  else comm5comm6.

(** Entering a phase and then running the pwm on cycle it installs. *)
Definition enter_phase (phase : Z) (s : State) : State :=
  let s := comm_into phase s in
  call_DPTR (DPTR s) s.

(** The routines that switch FETs for a phase: the six commutation
    routines, the pwm on routines [DPTR] selects among and the damped
    pwm off routines. *)
Definition phase_switching_routines : list (State -> State) :=
  [comm1comm2; comm2comm3; comm3comm4; comm4comm5; comm5comm6; comm6comm1;
   pwm_noBnFET_off; pwm_aBnFET_off; pwm_bBnFET_off; pwm_cBnFET_off;
   pwm_anfet_bpBnFET_off; pwm_anfet_cpBnFET_off; pwm_bnfet_cpBnFET_off;
   pwm_bnfet_apBnFET_off; pwm_cnfet_apBnFET_off; pwm_cnfet_bpBnFET_off;
   t0_int_pwm_off_damped; t0_int_pwm_off_comm_3_4; t0_int_pwm_off_comm_5_6].

(** A handover with no dead time: at least one [FET_DELAY] call lies
    between the two commands, and the calls ran no iteration at all. *)
Definition no_dead_time (h : handover) : Prop :=
  (1 <= delay_calls h)%nat /\ delay_iterations h = 0%nat.

(** The variables that say where the commutation and the governor
    stand. *)
Definition control_var (x : var) : Prop :=
  x = runState \/ x = Comm_Phase \/ x = Gov_Active.

(** ** States the program can be in *)

(** The steps of the program: the routines [main] runs, one case of
    the housekeeping switch, and the pwm interrupt routines. *)
Inductive step : State -> State -> Prop :=
| step_init_start s : step s (init_start s)
| step_decode_parameters s : step s (decode_parameters s)
| step_main_switch s s' : main_switch s = Returns s' -> step s s'
| step_housekeeping s st : step s (fst (DoHousekeeping_switch s st))
| step_setup_comm_wait s : step s (setup_comm_wait s)
| step_switch_power_off s : step s (switch_power_off s)
| step_pwm_on s : step s (call_DPTR (DPTR s) s)
| step_pwm_off_damped s : step s (t0_int_pwm_off_damped s).

(** Execution starts with [runState = run1], as its initialiser says;
    nothing is assumed about the other globals. *)
Inductive reachable : State -> Prop :=
| reachable_power_on s : s.[runState] = run1 -> reachable s
| reachable_step s s' : reachable s -> step s s' -> reachable s'.

(** The motor-off case of the housekeeping switch. *)
Definition motor_off (s : State) : State :=
  fst (DoHousekeeping_switch s run_to_wait_for_power_on).

(** The state [main] enters its loop with on a freshly programmed ESC,
    up to the [switch], and the state the first turn of the [switch]
    leaves. *)
Definition first_turn_entry : State :=
  setup_comm_wait (evaluate_comparator_integrity (main_entry default_state)).

Definition first_turn_exit : State :=
  match main_switch first_turn_entry with
  | Returns t => t
  | _ => first_turn_entry
  end.

(** ** Reading the pin commands: switches on, comparator, shorted legs *)

(** The switches a command sequence commands on, in order. *)
Definition switched_on (cs : list Cmd) : list (leg * side) :=
  flat_map (fun c =>
              match c with
              | Fet l sd true => [(l, sd)]
              | AllFets sd true => [(LegA, sd); (LegB, sd); (LegC, sd)]
              | _ => []
              end) cs.


(** Both switches of some leg are on. *)
Definition leg_shorted (lv : fet_levels) : bool :=
  (lv LegA pFET && lv LegA nFET)
  || (lv LegB pFET && lv LegB nFET)
  || (lv LegC pFET && lv LegC nFET).

(** Some leg has both switches on after one of the commands of [cs],
    run from the levels [lv]. *)
Fixpoint shorted_during (lv : fet_levels) (cs : list Cmd) : bool :=
  match cs with
  | [] => false
  | c :: cs => leg_shorted (fet_after lv c) || shorted_during (fet_after lv c) cs
  end.

(** ** Runs *)

(** The body of the loop in [main] up to the call of [DoHousekeeping]:
    one turn of the commutation loop. *)
Definition main_turn (s : State) : outcome State :=
  let s := evaluate_comparator_integrity s in
  let s := setup_comm_wait s in
  bind (main_switch s) (fun s =>
  let s := calc_next_comm_timing s in
  let s := wait_advance_timing s in
  let s := calc_new_wait_times s in
  let s := wait_before_zc_scan s in
  Returns s).

(** [n] turns of the commutation loop taken one after the other, that
    is, the loop of [main] with the call of [DoHousekeeping] left
    out. *)
Fixpoint main_turns (n : nat) (s : State) : outcome State :=
  match n with
  | O => Returns s
  | S n => bind (main_turn s) (main_turns n)
  end.

(** [n] passes through the [switch] of the housekeeping loop, whatever
    the loop condition says. *)
Fixpoint DoHousekeeping_passes (n : nat) (s : State) (st : startState)
  : State * startState :=
  match n with
  | O => (s, st)
  | S n =>
      let '(s, st) := DoHousekeeping_switch s st in
      DoHousekeeping_passes n s st
  end.

(** Any number of steps of the program. *)
Inductive steps : State -> State -> Prop :=
| steps_refl s : steps s s
| steps_step s t u : steps s t -> step t u -> steps s u.

(** The flags that are read by the steps of the program and set by
    none of them. *)
Definition never_set : list flag :=
  [PWM_ON; DEMAG_CUT_POWER; INITIAL_RUN_PHASE; DIR_CHANGE_BRAKE;
   PGM_PWMOFF_DAMPED; PGM_PWM_HIGH_FREQ; RCP_PPM].

(** The values of [startState] from which the housekeeping loop can not
    reach [finished_startup]: those with no [case], the motor-off cases
    and [direct_start_check_rcp]. *)
Definition dead_end (st : startState) : bool :=
  match st with
  | finished_startup | normal_run_checks | normal_run_check_startup_rot
  | initial_run_phase_done | run6_check_rcp_stop_count
  | run6_check_rcp_timeout | run6_check_speed => false
  | _ => true
  end.

(** The speed limit of the [run6_check_speed] case. *)
Definition run6_speed_limit (s : State) : Z :=
  if F s DIR_CHANGE_BRAKE then 0x6000 else 0xf000.

(** The levels the commutation loop leaves on the bridge when it comes
    to [runState] [k] in non-damped mode without brake, [pwm_on] being
    the value of [F.PWM_ON]. *)
Definition bridge_at (pwm_on : bool) (k : Z) : fet_levels :=
  fun l sd =>
    match l, sd with
    | LegA, pFET => (k =? 1) || (k =? 2)
    | LegB, pFET => (k =? 0) || (k =? 5)
    | LegC, pFET => (k =? 3) || (k =? 4)
    | LegA, nFET => pwm_on && ((k =? 4) || (k =? 5))
    | LegB, nFET => negb pwm_on && ((k =? 2) || (k =? 3))
    | LegC, nFET => pwm_on && ((k =? 0) || (k =? 1))
    end.

(** ** Where the housekeeping loop ends up *)




(** ** The pwm on routine a commutation installs *)

(** [DPTR] after the commutation into [phase]: [damped] is
    [F.PGM_PWMOFF_DAMPED] and [old] the value of [DPTR] before. *)
Definition DPTR_entering (phase : Z) (damped : bool) (old : FETFuncPtr)
  : FETFuncPtr :=
  if phase =? 1 then
    if damped then pwm_cnfet_bpBnFET_off_ptr else pwm_cBnFET_off_ptr
  else if phase =? 2 then
    if damped then old else pwm_cnfet_apBnFET_off_ptr
  else if phase =? 3 then
    if damped then pwm_bBnFET_off_ptr else pwm_bnfet_apBnFET_off_ptr
  else if phase =? 4 then
    if damped then pwm_bnfet_cpBnFET_off_ptr else old
  else if phase =? 5 then
    if damped then pwm_anfet_cpBnFET_off_ptr else pwm_aBnFET_off_ptr
  else
    if damped then pwm_anfet_bpBnFET_off_ptr else old.

(** * Properties *)

(** ** The store *)

Lemma get_set (x y : var) (v : Z) (s : State) :
  (s.[x <- v]).[y] = if var_eq_dec x y then v else s.[y].
Proof. reflexivity. Qed.

Lemma get_set_same (x : var) (v : Z) (s : State) : (s.[x <- v]).[x] = v.
Proof.
  rewrite get_set. destruct (var_eq_dec x x); [reflexivity | contradiction].
Qed.

Lemma get_set_other (x y : var) (v : Z) (s : State) :
  x <> y -> (s.[x <- v]).[y] = s.[y].
Proof.
  intros Hxy. rewrite get_set.
  destruct (var_eq_dec x y); [contradiction | reflexivity].
Qed.

Lemma get_setF (f : flag) (b : bool) (x : var) (s : State) :
  (setF f b s).[x] = s.[x].
Proof. reflexivity. Qed.

Lemma get_setP (p : param) (v : Z) (x : var) (s : State) :
  (setP p v s).[x] = s.[x].
Proof. reflexivity. Qed.

Lemma get_setDPTR (d : FETFuncPtr) (x : var) (s : State) :
  (setDPTR d s).[x] = s.[x].
Proof. reflexivity. Qed.

Lemma get_emit (c : Cmd) (x : var) (s : State) : (emit c s).[x] = s.[x].
Proof. reflexivity. Qed.





Lemma F_set (x : var) (v : Z) (s : State) : F s.[x <- v] = F s.
Proof. reflexivity. Qed.

Lemma F_setP (p : param) (v : Z) (s : State) : F (setP p v s) = F s.
Proof. reflexivity. Qed.

Lemma F_setDPTR (d : FETFuncPtr) (s : State) : F (setDPTR d s) = F s.
Proof. reflexivity. Qed.

Lemma F_emit (c : Cmd) (s : State) : F (emit c s) = F s.
Proof. reflexivity. Qed.

Lemma F_setF_other (f g : flag) (b : bool) (s : State) :
  f <> g -> F (setF f b s) g = F s g.
Proof.
  intros Hfg. cbn [F setF].
  destruct (flag_eq_dec f g); [contradiction | reflexivity].
Qed.


Lemma truthy_true (z : Z) : truthy z = true <-> z <> 0.
Proof.
  unfold truthy. destruct (Z.eqb_spec z 0); cbn; split; intros; congruence.
Qed.

Lemma Returns_inj {T : Type} (a b : T) : Returns a = Returns b -> a = b.
Proof. intros H. injection H. auto. Qed.

(** Names the states a routine passes through, first to last, so that
    a proof can follow the routine line by line. *)
Ltac name_lets :=
  repeat lazymatch goal with
  | |- context G [let x := ?e in @?b x] =>
      let y := fresh "s" in
      pose (y := e);
      let g := context G [b y] in
      change g; cbv beta
  end.

(** Projections of the state through the pin commands and the routines
    with an empty body. *)
Ltac store_simpl :=
  cbn [mem F P DPTR port get set setF setP setDPTR emit FET_DELAY
       All_nFETs_on All_nFETs_off All_pFETs_on All_pFETs_off
       AnFET_on AnFET_off ApFET_on ApFET_off
       BnFET_on BnFET_off BpFET_on BpFET_off
       CnFET_on CnFET_off CpFET_on CpFET_off
       Set_Comp_Phase_A Set_Comp_Phase_B Set_Comp_Phase_C
       Set_RPM_Out Clear_RPM_Out switch_power_off
       initialize_all_timings check_temp_voltage_and_limit_power
       calc_next_comm_timing calc_new_wait_times wait_advance_timing
       wait_before_zc_scan evaluate_comparator_integrity wait_for_comm
       set_pwm_limit_low_rpm start_adc_conversion calc_governor_int_error
       setup_comm_wait wait_for_comp_out_high wait_for_comp_out_low
       t0_int_pwm_on_exit t0_int_pwm_off_exit].

Ltac flag_cases :=
  repeat match goal with
         | |- context [if ?c then _ else _] => destruct c
         end.

(** ** What the routines leave alone *)

Lemma comm_exit_frame (s : State) :
  mem (comm_exit s) = mem s /\ P (comm_exit s) = P s
  /\ (forall f, f <> DEMAG_CUT_POWER -> F (comm_exit s) f = F s f).
Proof.
  unfold comm_exit.
  destruct (F s DIR_CHANGE_BRAKE); (split; [| split]); try reflexivity;
    intros f Hf; rewrite F_setF_other by congruence; reflexivity.
Qed.

Ltac comm_frame :=
  intros s; cbv zeta;
  match goal with |- context [comm_exit ?t] =>
    destruct (comm_exit_frame t) as (Hm & Hp & Hf); rewrite Hm, Hp;
    split; [| split; [| intros f Hne; rewrite (Hf f Hne)]]; clear Hm Hp Hf
  end;
  store_simpl; flag_cases; reflexivity.

Lemma comm1comm2_frame : forall s,
  mem (comm1comm2 s) = mem s.[Comm_Phase <- 2] /\ P (comm1comm2 s) = P s
  /\ (forall f, f <> DEMAG_CUT_POWER -> F (comm1comm2 s) f = F s f).
Proof. unfold comm1comm2. comm_frame. Qed.

Lemma comm2comm3_frame : forall s,
  mem (comm2comm3 s) = mem s.[Comm_Phase <- 3] /\ P (comm2comm3 s) = P s
  /\ (forall f, f <> DEMAG_CUT_POWER -> F (comm2comm3 s) f = F s f).
Proof. unfold comm2comm3. comm_frame. Qed.

Lemma comm3comm4_frame : forall s,
  mem (comm3comm4 s) = mem s.[Comm_Phase <- 4] /\ P (comm3comm4 s) = P s
  /\ (forall f, f <> DEMAG_CUT_POWER -> F (comm3comm4 s) f = F s f).
Proof. unfold comm3comm4. comm_frame. Qed.

Lemma comm4comm5_frame : forall s,
  mem (comm4comm5 s) = mem s.[Comm_Phase <- 5] /\ P (comm4comm5 s) = P s
  /\ (forall f, f <> DEMAG_CUT_POWER -> F (comm4comm5 s) f = F s f).
Proof. unfold comm4comm5. comm_frame. Qed.

Lemma comm5comm6_frame : forall s,
  mem (comm5comm6 s) = mem s.[Comm_Phase <- 6] /\ P (comm5comm6 s) = P s
  /\ (forall f, f <> DEMAG_CUT_POWER -> F (comm5comm6 s) f = F s f).
Proof. unfold comm5comm6. comm_frame. Qed.

Lemma comm6comm1_frame : forall s,
  mem (comm6comm1 s) = mem s.[Comm_Phase <- 1] /\ P (comm6comm1 s) = P s
  /\ (forall f, f <> DEMAG_CUT_POWER -> F (comm6comm1 s) f = F s f).
Proof. unfold comm6comm1. comm_frame. Qed.

Lemma get_comm1comm2 (x : var) (s : State) :
  (comm1comm2 s).[x] = (s.[Comm_Phase <- 2]).[x].
Proof. unfold get. rewrite (proj1 (comm1comm2_frame s)). reflexivity. Qed.

Lemma get_comm2comm3 (x : var) (s : State) :
  (comm2comm3 s).[x] = (s.[Comm_Phase <- 3]).[x].
Proof. unfold get. rewrite (proj1 (comm2comm3_frame s)). reflexivity. Qed.

Lemma get_comm3comm4 (x : var) (s : State) :
  (comm3comm4 s).[x] = (s.[Comm_Phase <- 4]).[x].
Proof. unfold get. rewrite (proj1 (comm3comm4_frame s)). reflexivity. Qed.

Lemma get_comm4comm5 (x : var) (s : State) :
  (comm4comm5 s).[x] = (s.[Comm_Phase <- 5]).[x].
Proof. unfold get. rewrite (proj1 (comm4comm5_frame s)). reflexivity. Qed.

Lemma get_comm5comm6 (x : var) (s : State) :
  (comm5comm6 s).[x] = (s.[Comm_Phase <- 6]).[x].
Proof. unfold get. rewrite (proj1 (comm5comm6_frame s)). reflexivity. Qed.

Lemma get_comm6comm1 (x : var) (s : State) :
  (comm6comm1 s).[x] = (s.[Comm_Phase <- 1]).[x].
Proof. unfold get. rewrite (proj1 (comm6comm1_frame s)). reflexivity. Qed.

(** The governor routines write no control variable, no flag and no
    field of [P]. *)
Lemma calc_governor_prop_error_frame (s : State) :
  (forall x, control_var x -> (calc_governor_prop_error s).[x] = s.[x])
  /\ P (calc_governor_prop_error s) = P s
  /\ F (calc_governor_prop_error s) = F s.
Proof.
  unfold calc_governor_prop_error, control_var.
  destruct (truthy _); (split; [| split]); try reflexivity;
    intros x [-> | [-> | ->]]; reflexivity.
Qed.

Lemma calc_governor_prop_correction_frame (s : State) :
  (forall x, control_var x -> (calc_governor_prop_correction s).[x] = s.[x])
  /\ P (calc_governor_prop_correction s) = P s
  /\ F (calc_governor_prop_correction s) = F s.
Proof.
  unfold calc_governor_prop_correction, control_var.
  destruct (truthy _); (split; [| split]); try reflexivity;
    intros x [-> | [-> | ->]]; reflexivity.
Qed.

Lemma calc_governor_int_correction_frame (s : State) :
  (forall x, control_var x -> (calc_governor_int_correction s).[x] = s.[x])
  /\ P (calc_governor_int_correction s) = P s
  /\ F (calc_governor_int_correction s) = F s.
Proof.
  unfold calc_governor_int_correction, control_var.
  destruct (truthy _); (split; [| split]); try reflexivity;
    intros x [-> | [-> | ->]]; reflexivity.
Qed.

(** What [calc_governor_target] can have done when it returns. *)
Lemma calc_governor_target_cases (s s' : State) :
  calc_governor_target s = Returns s' ->
  (s'.[Gov_Active] = 1
   /\ s' = (s.[Gov_Active <- 1]).[Governor_Req_Pwm <- s.[Requested_Pwm]]
            .[Comm_Period4x <- wrap32 (Z.quot 51000 s.[Requested_Pwm] * 2)])
  \/ s' = governor_deactivate s
  \/ s' = s.
Proof.
  unfold calc_governor_target, governor_activate.
  destruct (truthy (P s Gov_Mode)) eqn:Hm.
  - apply truthy_true in Hm.
    destruct (Z.eqb_spec (P s Gov_Mode) 0) as [E0 | _]; [contradiction |].
    destruct (_ =? 0); [discriminate |]. intros E.
    apply Returns_inj in E. subst s'. left. split; reflexivity.
  - destruct (_ <? _); intros E; apply Returns_inj in E; subst s'; auto.
Qed.

Lemma calc_governor_target_frame (s s' : State) :
  calc_governor_target s = Returns s' ->
  (forall x, x = runState \/ x = Comm_Phase -> s'.[x] = s.[x])
  /\ P s' = P s /\ F s' = F s.
Proof.
  intros E.
  destruct (calc_governor_target_cases s s' E) as [[_ ->] | [-> | ->]];
    (split; [intros x [-> | ->] | split]; reflexivity).
Qed.

(** Walk back from the end of a routine whose states were named by
    [name_lets]: [peel_P] for a field of [P], [peel_F] for a flag,
    [peel_get] for a variable. *)
Ltac unfold_empty :=
  progress unfold initialize_all_timings, calc_next_comm_timing,
    calc_new_wait_times, check_temp_voltage_and_limit_power,
    wait_advance_timing, wait_before_zc_scan, wait_for_comm,
    evaluate_comparator_integrity, set_pwm_limit_low_rpm,
    start_adc_conversion, calc_governor_int_error, setup_comm_wait,
    wait_for_comp_out_high, wait_for_comp_out_low, switch_power_off,
    All_nFETs_off, All_pFETs_off.


Ltac peel_F :=
  repeat first
    [ rewrite F_set | rewrite F_setP | rewrite F_setDPTR | rewrite F_emit
    | rewrite F_setF_other by discriminate
    | unfold_empty
    | rewrite (proj2 (proj2 (comm1comm2_frame _))) by discriminate
    | rewrite (proj2 (proj2 (comm2comm3_frame _))) by discriminate
    | rewrite (proj2 (proj2 (comm3comm4_frame _))) by discriminate
    | rewrite (proj2 (proj2 (comm4comm5_frame _))) by discriminate
    | rewrite (proj2 (proj2 (comm5comm6_frame _))) by discriminate
    | rewrite (proj2 (proj2 (comm6comm1_frame _))) by discriminate
    | rewrite (proj2 (proj2 (calc_governor_prop_error_frame _)))
    | rewrite (proj2 (proj2 (calc_governor_prop_correction_frame _)))
    | rewrite (proj2 (proj2 (calc_governor_int_correction_frame _)))
    | match goal with |- context [F ?x] => is_var x; subst x end ].

Lemma control_var_runState : control_var runState.
Proof. unfold control_var. auto. Qed.

Lemma control_var_Comm_Phase : control_var Comm_Phase.
Proof. unfold control_var. auto. Qed.

Lemma control_var_Gov_Active : control_var Gov_Active.
Proof. unfold control_var. auto. Qed.

Ltac control_var_tac :=
  first [ exact control_var_runState | exact control_var_Comm_Phase
        | exact control_var_Gov_Active ].

Lemma decode_parameters_get (x : var) (s : State) :
  x <> Temp8 -> (decode_parameters s).[x] = s.[x].
Proof.
  intros Hx. cbv beta delta [decode_parameters]. name_lets.
  assert (H2 : s2.[x] = s1.[x]).
  { unfold s2. destruct (P s1 Direction =? 3); reflexivity. }
  destruct (truthy (P s5 Pwm_Freq));
    (change (s2.[x] = s.[x]); rewrite H2; unfold s1, s0;
     rewrite get_setF; apply get_set_other; congruence).
Qed.

Ltac peel_get :=
  repeat first
    [ rewrite get_set_same
    | rewrite get_set_other by discriminate
    | rewrite get_setF | rewrite get_setP | rewrite get_setDPTR
    | rewrite get_emit
    | unfold_empty
    | rewrite get_comm1comm2 | rewrite get_comm2comm3
    | rewrite get_comm3comm4 | rewrite get_comm4comm5
    | rewrite get_comm5comm6 | rewrite get_comm6comm1
    | rewrite decode_parameters_get by discriminate
    | rewrite (proj1 (calc_governor_prop_error_frame _)) by control_var_tac
    | rewrite (proj1 (calc_governor_prop_correction_frame _))
        by control_var_tac
    | rewrite (proj1 (calc_governor_int_correction_frame _))
        by control_var_tac
    | match goal with |- context [get _ ?x] => is_var x; subst x end ].

Lemma decode_parameters_Pwm_Freq (s : State) :
  P (decode_parameters s) Pwm_Freq = 3.
Proof. reflexivity. Qed.




Lemma decode_parameters_MOTOR_SPINNING (s : State) :
  F (decode_parameters s) MOTOR_SPINNING = F s MOTOR_SPINNING.
Proof.
  cbv beta delta [decode_parameters]. name_lets.
  assert (H2 : F s2 MOTOR_SPINNING = F s1 MOTOR_SPINNING).
  { unfold s2. destruct (P s1 Direction =? 3); reflexivity. }
  destruct (truthy (P s5 Pwm_Freq));
    (change (F s2 MOTOR_SPINNING = F s MOTOR_SPINNING); rewrite H2;
     reflexivity).
Qed.

Lemma init_start_ctl (s : State) :
  (init_start s).[runState] = run1 /\ (init_start s).[Comm_Phase] = 1.
Proof.
  split; [reflexivity |].
  cbv beta delta [init_start]. name_lets. peel_get. reflexivity.
Qed.

(** [init_start] leaves the governor inactive and reset, with the motor
    flagged as spinning. *)
Lemma init_start_governor (s : State) :
  (init_start s).[Gov_Active] = 0
  /\ (init_start s).[Gov_Integral] = 0
  /\ (init_start s).[Gov_Integral_X] = 0
  /\ (init_start s).[Gov_Target] = 0
  /\ (init_start s).[Current_Pwm] = 1
  /\ (init_start s).[Requested_Pwm] = 1
  /\ F (init_start s) MOTOR_SPINNING = true.
Proof.
  repeat split; cbv beta delta [init_start]; name_lets;
    try (peel_get; reflexivity).
  peel_F. reflexivity.
Qed.


Lemma DoHousekeeping_switch_frame (s : State) (st : startState) :
  let s' := fst (DoHousekeeping_switch s st) in
  (s'.[runState] = s.[runState] \/ s'.[runState] = run1)
  /\ s'.[Comm_Phase] = s.[Comm_Phase]
  /\ s'.[Gov_Active] = s.[Gov_Active]
  /\ P s' = P s
  /\ (st <> run_to_wait_for_power_on ->
      F s' MOTOR_SPINNING = F s MOTOR_SPINNING).
Proof.
  cbv zeta. destruct st; unfold DoHousekeeping_switch;
    flag_cases; repeat split; auto; congruence.
Qed.

Lemma call_DPTR_frame (d : FETFuncPtr) (s : State) :
  mem (call_DPTR d s) = mem s /\ P (call_DPTR d s) = P s
  /\ F (call_DPTR d s) = F s.
Proof. destruct d; repeat split; reflexivity. Qed.

Lemma t0_int_pwm_off_damped_frame (s : State) :
  (forall x, x <> A -> x <> TL1 -> (t0_int_pwm_off_damped s).[x] = s.[x])
  /\ P (t0_int_pwm_off_damped s) = P s
  /\ F (t0_int_pwm_off_damped s) = F s.
Proof.
  split; [| split; reflexivity].
  intros x Hx Hx'. unfold t0_int_pwm_off_damped, t0_int_pwm_off_exit.
  store_simpl.
  destruct (var_eq_dec TL1 x); [congruence |].
  destruct (var_eq_dec A x); [congruence | reflexivity].
Qed.

Lemma main_switch_advances (s s' : State) :
  run1 <= s.[runState] <= run6 ->
  main_switch s = Returns s' ->
  s'.[runState] = (s.[runState] + 1) mod 6
  /\ s'.[Comm_Phase] = s'.[runState] + 1.
Proof.
  unfold run1, run6. intros Hr.
  assert (Hc : s.[runState] = 0 \/ s.[runState] = 1 \/ s.[runState] = 2
               \/ s.[runState] = 3 \/ s.[runState] = 4 \/ s.[runState] = 5)
    by lia.
  cbv beta delta [main_switch].
  destruct Hc as [H | [H | [H | [H | [H | H]]]]]; rewrite H;
    cbn [Z.eqb Pos.eqb run1 run2 run3 run4 run5 run6]; cbv zeta.
  - destruct (calc_governor_target _) as [t | |] eqn:E; cbn [bind];
      intros E'; try discriminate E'.
    apply Returns_inj in E'. subst s'.
    destruct (calc_governor_target_frame _ _ E) as [E1 _].
    peel_get. rewrite (E1 runState) by auto. peel_get.
    rewrite H. split; reflexivity.
  - intros E'. apply Returns_inj in E'. subst s'.
    peel_get. rewrite H. split; reflexivity.
  - intros E'. apply Returns_inj in E'. subst s'.
    peel_get. rewrite H. split; reflexivity.
  - intros E'. apply Returns_inj in E'. subst s'.
    peel_get. rewrite H. split; reflexivity.
  - intros E'. apply Returns_inj in E'. subst s'.
    peel_get. rewrite H. split; reflexivity.
  - intros E'. apply Returns_inj in E'. subst s'.
    peel_get. split; reflexivity.
Qed.

Lemma main_switch_other (s : State) :
  ~ run1 <= s.[runState] <= run6 -> main_switch s = Returns s.
Proof.
  unfold run1, run6. intros Hr. cbv beta delta [main_switch].
  unfold run1, run2, run3, run4, run5, run6.
  destruct (Z.eqb_spec s.[runState] 0); [lia |].
  destruct (Z.eqb_spec s.[runState] 1); [lia |].
  destruct (Z.eqb_spec s.[runState] 2); [lia |].
  destruct (Z.eqb_spec s.[runState] 3); [lia |].
  destruct (Z.eqb_spec s.[runState] 4); [lia |].
  destruct (Z.eqb_spec s.[runState] 5); [lia |].
  reflexivity.
Qed.


Lemma main_switch_MOTOR_SPINNING (s s' : State) :
  main_switch s = Returns s' -> F s' MOTOR_SPINNING = F s MOTOR_SPINNING.
Proof.
  cbv beta delta [main_switch].
  destruct (s.[runState] =? run1).
  { cbv zeta. destruct (calc_governor_target _) as [t | |] eqn:E; cbn [bind];
      intros E'; try discriminate E'.
    apply Returns_inj in E'. subst s'.
    destruct (calc_governor_target_frame _ _ E) as (_ & _ & E3).
    peel_F. rewrite E3. peel_F. reflexivity. }
  destruct (s.[runState] =? run2).
  { cbv zeta. intros E'. apply Returns_inj in E'. subst s'.
    peel_F. reflexivity. }
  destruct (s.[runState] =? run3).
  { cbv zeta. intros E'. apply Returns_inj in E'. subst s'.
    peel_F. reflexivity. }
  destruct (s.[runState] =? run4).
  { cbv zeta. intros E'. apply Returns_inj in E'. subst s'.
    peel_F. reflexivity. }
  destruct (s.[runState] =? run5).
  { cbv zeta. intros E'. apply Returns_inj in E'. subst s'.
    peel_F. reflexivity. }
  destruct (s.[runState] =? run6).
  { cbv zeta. intros E'. apply Returns_inj in E'. subst s'.
    peel_F. reflexivity. }
  intros E'. apply Returns_inj in E'. subst s'. reflexivity.
Qed.

(** A turn of the [switch] that finds the governor active and leaves it
    inactive went through [governor_deactivate]. *)
Lemma main_switch_deactivation (s s' : State) :
  main_switch s = Returns s' ->
  s.[Gov_Active] <> 0 -> s'.[Gov_Active] = 0 ->
  s'.[Gov_Integral] = 0 /\ s'.[Gov_Integral_X] = 0
  /\ s'.[Current_Pwm] = s'.[Requested_Pwm].
Proof.
  cbv beta delta [main_switch]. intros E' Hon.
  destruct (s.[runState] =? run1).
  { revert E'. cbv zeta.
    destruct (calc_governor_target _) as [t | |] eqn:E; cbn [bind];
      intros E'; try discriminate E'.
    apply Returns_inj in E'. subst s'.
    destruct (calc_governor_target_cases _ _ E) as [[E1 _] | [-> | ->]].
    - peel_get. rewrite E1. discriminate.
    - intros _. repeat split; peel_get; reflexivity.
    - peel_get. intros Hoff. contradiction. }
  revert E'.
  destruct (s.[runState] =? run2).
  { cbv zeta. intros E'. apply Returns_inj in E'. subst s'.
    peel_get. intros Hoff. contradiction. }
  destruct (s.[runState] =? run3).
  { cbv zeta. intros E'. apply Returns_inj in E'. subst s'.
    peel_get. intros Hoff. contradiction. }
  destruct (s.[runState] =? run4).
  { cbv zeta. intros E'. apply Returns_inj in E'. subst s'.
    peel_get. intros Hoff. contradiction. }
  destruct (s.[runState] =? run5).
  { cbv zeta. intros E'. apply Returns_inj in E'. subst s'.
    peel_get. intros Hoff. contradiction. }
  destruct (s.[runState] =? run6).
  { cbv zeta. intros E'. apply Returns_inj in E'. subst s'.
    peel_get. intros Hoff. contradiction. }
  intros E'. apply Returns_inj in E'. subst s'. intros Hoff. contradiction.
Qed.

(** ** Invariants of the steps *)

Lemma step_runState (s s' : State) :
  step s s' -> run1 <= s.[runState] <= run6 -> run1 <= s'.[runState] <= run6.
Proof.
  intros Hstep Hr.
  destruct Hstep as [s | s | s s' E | s st | s | s | s | s].
  - rewrite (proj1 (init_start_ctl s)). unfold run1, run6. lia.
  - rewrite decode_parameters_get by discriminate. exact Hr.
  - destruct (main_switch_advances s s' Hr E) as [E1 _]. rewrite E1.
    unfold run1, run6 in *.
    pose proof (Z.mod_pos_bound (s.[runState] + 1) 6). lia.
  - destruct (DoHousekeeping_switch_frame s st) as [[E | E] _];
      rewrite E; [exact Hr | unfold run1, run6; lia].
  - exact Hr.
  - exact Hr.
  - unfold get. rewrite (proj1 (call_DPTR_frame _ s)). exact Hr.
  - rewrite (proj1 (t0_int_pwm_off_damped_frame s)) by discriminate.
    exact Hr.
Qed.

Lemma reachable_runState (s : State) :
  reachable s -> run1 <= s.[runState] <= run6.
Proof.
  induction 1 as [s H | s s' _ IH Hstep].
  - rewrite H. unfold run1, run6. lia.
  - exact (step_runState s s' Hstep IH).
Qed.

Lemma step_Comm_Phase (s s' : State) :
  step s s' -> 1 <= s.[Comm_Phase] <= 6 -> 1 <= s'.[Comm_Phase] <= 6.
Proof.
  intros Hstep Hc.
  destruct Hstep as [s | s | s s' E | s st | s | s | s | s].
  - rewrite (proj2 (init_start_ctl s)). lia.
  - rewrite decode_parameters_get by discriminate. exact Hc.
  - destruct (Z_le_dec run1 s.[runState]) as [H1 | H1];
      [destruct (Z_le_dec s.[runState] run6) as [H2 | H2] |].
    + destruct (main_switch_advances s s' (conj H1 H2) E) as [E1 E2].
      rewrite E2, E1.
      pose proof (Z.mod_pos_bound (s.[runState] + 1) 6). lia.
    + rewrite main_switch_other in E by lia.
      apply Returns_inj in E. subst s'. exact Hc.
    + rewrite main_switch_other in E by lia.
      apply Returns_inj in E. subst s'. exact Hc.
  - destruct (DoHousekeeping_switch_frame s st) as (_ & E & _).
    rewrite E. exact Hc.
  - exact Hc.
  - exact Hc.
  - unfold get. rewrite (proj1 (call_DPTR_frame _ s)). exact Hc.
  - rewrite (proj1 (t0_int_pwm_off_damped_frame s)) by discriminate.
    exact Hc.
Qed.


Lemma step_deactivation (s s' : State) :
  step s s' ->
  s.[Gov_Active] <> 0 -> s'.[Gov_Active] = 0 ->
  s'.[Gov_Integral] = 0 /\ s'.[Gov_Integral_X] = 0
  /\ s'.[Current_Pwm] = s'.[Requested_Pwm].
Proof.
  intros Hstep Hon.
  destruct Hstep as [s | s | s s' E | s st | s | s | s | s].
  - intros _. destruct (init_start_governor s) as (_ & H1 & H2 & _ & H3 & H4 & _).
    rewrite H1, H2, H3, H4. repeat split.
  - rewrite decode_parameters_get by discriminate. intros Hoff. contradiction.
  - exact (main_switch_deactivation s s' E Hon).
  - destruct (DoHousekeeping_switch_frame s st) as (_ & _ & E & _).
    rewrite E. intros Hoff. contradiction.
  - intros Hoff. contradiction.
  - intros Hoff. contradiction.
  - unfold get. rewrite (proj1 (call_DPTR_frame _ s)).
    intros Hoff. contradiction.
  - rewrite (proj1 (t0_int_pwm_off_damped_frame s)) by discriminate.
    intros Hoff. contradiction.
Qed.

(** The only step that clears the motor spinning flag is the
    [run_to_wait_for_power_on] case of the housekeeping switch. *)
Lemma step_motor_off (s s' : State) :
  step s s' ->
  F s MOTOR_SPINNING = true -> F s' MOTOR_SPINNING = false ->
  s' = motor_off s.
Proof.
  intros Hstep Hon.
  destruct Hstep as [s | s | s s' E | s st | s | s | s | s].
  - destruct (init_start_governor s) as (_ & _ & _ & _ & _ & _ & H).
    rewrite H. discriminate.
  - rewrite decode_parameters_MOTOR_SPINNING. congruence.
  - rewrite (main_switch_MOTOR_SPINNING s s' E). congruence.
  - destruct (DoHousekeeping_switch_frame s st) as (_ & _ & _ & _ & E).
    destruct st; try (rewrite E by discriminate; congruence).
    reflexivity.
  - cbn. congruence.
  - cbn. congruence.
  - rewrite (proj2 (proj2 (call_DPTR_frame _ s))). congruence.
  - rewrite (proj2 (proj2 (t0_int_pwm_off_damped_frame s))). congruence.
Qed.

(** ** Dead time *)

Ltac handover_cases :=
  intros s; unfold issued;
  cbv [comm1comm2 comm2comm3 comm3comm4 comm4comm5 comm5comm6 comm6comm1
       comm_exit];
  store_simpl; flag_cases; vm_compute; repeat constructor.

Lemma commutation_handovers : forall s,
  Forall no_dead_time (handovers (issued comm1comm2 s))
  /\ Forall no_dead_time (handovers (issued comm2comm3 s))
  /\ Forall no_dead_time (handovers (issued comm3comm4 s))
  /\ Forall no_dead_time (handovers (issued comm4comm5 s))
  /\ Forall no_dead_time (handovers (issued comm5comm6 s))
  /\ Forall no_dead_time (handovers (issued comm6comm1 s)).
Proof.
  intros s. repeat split; revert s; handover_cases.
Qed.

Lemma pwm_handovers : forall s,
  Forall (fun r => Forall no_dead_time (handovers (issued r s)))
    [pwm_noBnFET_off; pwm_aBnFET_off; pwm_bBnFET_off; pwm_cBnFET_off;
     pwm_anfet_bpBnFET_off; pwm_anfet_cpBnFET_off; pwm_bnfet_cpBnFET_off;
     pwm_bnfet_apBnFET_off; pwm_cnfet_apBnFET_off; pwm_cnfet_bpBnFET_off;
     t0_int_pwm_off_damped; t0_int_pwm_off_comm_3_4; t0_int_pwm_off_comm_5_6].
Proof.
  intros s. repeat (apply Forall_cons; [vm_compute; repeat constructor |]).
  apply Forall_nil.
Qed.

Lemma enter_phase_handovers : forall s,
  Forall (fun phase =>
            Forall (fun h => delay_iterations h = 0%nat)
              (handovers (issued (enter_phase phase) s)))
    [1; 2; 3; 4; 5; 6].
Proof.
  intros s.
  repeat (apply Forall_cons;
          [ unfold issued, enter_phase, comm_into;
            cbn [Z.eqb Pos.eqb];
            cbv [comm1comm2 comm2comm3 comm3comm4 comm4comm5 comm5comm6
                 comm6comm1 comm_exit];
            store_simpl; flag_cases; try destruct (DPTR s);
            vm_compute; repeat constructor |]).
  apply Forall_nil.
Qed.

(** C1 fails on the code: [NFETON_DELAY] and [PFETON_DELAY] are 0, so
    [FET_DELAY] runs no iteration.  In [pwm_anfet_bpBnFET_off] the A
    pfet is commanded off and the A nfet on with one [FET_DELAY] call of
    zero iterations between them; the same holds for every handover of
    every phase switching routine, in either damping mode, and entering
    any of the phases 1 to 6 and running its pwm on routine has no
    handover with a delay iteration.  In damped mode with pwm on,
    [comm6comm1] hands leg C over in this way, and so does, for leg B,
    the [comm2comm3] that follows the first turn of [main]'s switch. *)
Theorem dead_time_delay_is_zero (s : State) :
  Z.to_nat NFETON_DELAY = 0%nat /\ Z.to_nat PFETON_DELAY = 0%nat
  /\ issued pwm_anfet_bpBnFET_off s
     = [Fet LegA pFET false; Fet LegC pFET false; FetDelay 0;
        Fet LegA nFET true; Fet LegB nFET false]
  /\ handovers (issued pwm_anfet_bpBnFET_off s) = [mkHandover LegA nFET 1 0]
  /\ Forall (fun r => Forall no_dead_time (handovers (issued r s)))
       phase_switching_routines
  /\ Forall (fun phase =>
               Forall (fun h => delay_iterations h = 0%nat)
                 (handovers (issued (enter_phase phase) s)))
       [1; 2; 3; 4; 5; 6]
  /\ handovers (issued comm6comm1
                  (setF DIR_CHANGE_BRAKE false
                     (setF PWM_ON true (setF PGM_PWMOFF_DAMPED true s))))
     = [mkHandover LegC nFET 1 0]
  /\ handovers (issued comm2comm3 first_turn_exit)
     = [mkHandover LegB nFET 1 0].
Proof.
  split; [reflexivity |]. split; [reflexivity |].
  split; [reflexivity |]. split; [reflexivity |].
  split; [| split; [apply enter_phase_handovers |];
            split; [reflexivity | vm_compute; reflexivity]].
  destruct (commutation_handovers s) as (H1 & H2 & H3 & H4 & H5 & H6).
  unfold phase_switching_routines.
  repeat (apply Forall_cons; [assumption |]).
  apply pwm_handovers.
Qed.

(** ** Governor *)

Lemma governor_deactivate_effect (s : State) :
  let s' := governor_deactivate s in
  s'.[Gov_Integral] = 0 /\ s'.[Gov_Integral_X] = 0 /\ s'.[Gov_Target] = 0
  /\ s'.[Gov_Active] = 0
  /\ s'.[Current_Pwm] = s'.[Requested_Pwm]
  /\ s'.[Requested_Pwm] = s.[Requested_Pwm]
  /\ s'.[Gov_Proportional] = s.[Gov_Proportional].
Proof.
  cbv zeta. unfold governor_deactivate. repeat split; reflexivity.
Qed.

(** C2, as the code has it: every step that finds the governor active
    and leaves it inactive leaves both integral terms zero and
    [Current_Pwm] equal to [Requested_Pwm]; [governor_deactivate]
    zeroes the governor target and both integral terms, clears
    [Gov_Active] and makes [Current_Pwm] follow [Requested_Pwm], and the
    proportional term, which it does not write, keeps the value it
    had. *)
Theorem governor_deactivation_resets (s s' : State) :
  step s s' ->
  s.[Gov_Active] <> 0 ->
  s'.[Gov_Active] = 0 ->
  (s'.[Gov_Integral] = 0 /\ s'.[Gov_Integral_X] = 0
   /\ s'.[Current_Pwm] = s'.[Requested_Pwm])
  /\ (forall t,
        (governor_deactivate t).[Gov_Integral] = 0
        /\ (governor_deactivate t).[Gov_Integral_X] = 0
        /\ (governor_deactivate t).[Gov_Target] = 0
        /\ (governor_deactivate t).[Gov_Active] = 0
        /\ (governor_deactivate t).[Current_Pwm]
           = (governor_deactivate t).[Requested_Pwm]
        /\ (governor_deactivate t).[Requested_Pwm] = t.[Requested_Pwm]
        /\ (governor_deactivate t).[Gov_Proportional] = t.[Gov_Proportional]).
Proof.
  intros Hstep Hon Hoff.
  split; [exact (step_deactivation s s' Hstep Hon Hoff) |].
  intros t. exact (governor_deactivate_effect t).
Qed.

Lemma governor_deactivation_resets_witness :
  step first_turn_exit (init_start first_turn_exit)
  /\ first_turn_exit.[Gov_Active] <> 0
  /\ (init_start first_turn_exit).[Gov_Active] = 0
  /\ (init_start first_turn_exit).[Gov_Integral] = 0
  /\ (init_start first_turn_exit).[Gov_Integral_X] = 0
  /\ (init_start first_turn_exit).[Current_Pwm]
     = (init_start first_turn_exit).[Requested_Pwm].
Proof.
  assert (Hon : first_turn_exit.[Gov_Active] <> 0)
    by (vm_compute; discriminate).
  assert (Hoff : (init_start first_turn_exit).[Gov_Active] = 0)
    by (vm_compute; reflexivity).
  split; [apply step_init_start |].
  split; [exact Hon |]. split; [exact Hoff |].
  exact (proj1 (governor_deactivation_resets first_turn_exit
                  (init_start first_turn_exit)
                  (step_init_start first_turn_exit) Hon Hoff)).
Defined.

(** C2 as stated fails.  Input: the state after the first turn of the
    [switch] and the proportional error routine of the second, where
    the governor is active and the proportional error is 1; it is still
    1 after [governor_deactivate]. *)
Lemma governor_deactivate_keeps_proportional :
  let s := calc_governor_prop_error first_turn_exit in
  s.[Gov_Active] = 1
  /\ ~ ((governor_deactivate s).[Gov_Integral] = 0
        /\ (governor_deactivate s).[Gov_Integral_X] = 0
        /\ (governor_deactivate s).[Gov_Proportional] = 0
        /\ (governor_deactivate s).[Current_Pwm]
           = (governor_deactivate s).[Requested_Pwm]).
Proof.
  cbv zeta. split; [vm_compute; reflexivity |].
  intros (_ & _ & H & _). vm_compute in H. discriminate.
Qed.

(** While the governor is inactive the proportional error routine
    changes nothing, and once it is active again the routine computes
    the error afresh, never reading the value left behind. *)
Lemma calc_governor_prop_error_inactive (s : State) :
  s.[Gov_Active] = 0 -> calc_governor_prop_error s = s.
Proof.
  intros H. unfold calc_governor_prop_error. rewrite H. reflexivity.
Qed.

Lemma calc_governor_prop_error_recomputes (s : State) :
  s.[Gov_Active] <> 0 ->
  (calc_governor_prop_error s).[Gov_Proportional]
  = wrap32 (s.[Governor_Req_Pwm] - s.[Gov_Target]).
Proof.
  intros H. unfold calc_governor_prop_error.
  apply truthy_true in H. rewrite H. reflexivity.
Qed.

(** [governor_activate] is defined exactly when the divisor is not
    zero, and then switches the governor on for any non-zero mode. *)
Lemma governor_activate_defined (s : State) :
  s.[Requested_Pwm] <> 0 ->
  exists s', governor_activate s = Returns s'
             /\ s'.[Gov_Active] = Zbool (negb (P s Gov_Mode =? 0))
             /\ s'.[Governor_Req_Pwm] = s.[Requested_Pwm]
             /\ s'.[Comm_Period4x] = wrap32 (Z.quot 51000 s.[Requested_Pwm] * 2).
Proof.
  intros H. unfold governor_activate.
  change ((s.[Gov_Active <- _]).[Governor_Req_Pwm <- _]).[Requested_Pwm]
    with s.[Requested_Pwm].
  destruct (Z.eqb_spec s.[Requested_Pwm] 0) as [E | _]; [contradiction |].
  eexists. split; [reflexivity |]. repeat split.
Qed.

Lemma governor_activate_undefined (s : State) :
  governor_activate s = Undefined <-> s.[Requested_Pwm] = 0.
Proof.
  unfold governor_activate.
  change ((s.[Gov_Active <- _]).[Governor_Req_Pwm <- _]).[Requested_Pwm]
    with s.[Requested_Pwm].
  destruct (Z.eqb_spec s.[Requested_Pwm] 0) as [E | N]; split; intros H;
    try reflexivity; try assumption; try discriminate; contradiction.
Qed.

(** C3 fails on the code.  Input: the state [main] hands to its first
    pass through [run1] with the default multi parameters, whose
    governor mode is 4, "Off".  The startup phase flag is set, the
    throttle is the start value 1 and the period is the slowest one,
    [0x7F00]; [calc_governor_target] still returns with the governor
    active. *)
Theorem calc_governor_target_activates_in_startup :
  let s := wait_for_comp_out_high first_turn_entry in
  P s Gov_Mode = 4 /\ F s STARTUP_PHASE = true
  /\ s.[Requested_Pwm] = 1 /\ s.[Comm_Period4x] = 0x7F00
  /\ s.[Gov_Active] = 0
  /\ exists s', calc_governor_target s = Returns s' /\ s'.[Gov_Active] = 1.
Proof.
  cbv zeta. repeat split.
  eexists. split; [vm_compute; reflexivity | reflexivity].
Qed.

(** What the code does instead: the governor mode is the only thing
    [calc_governor_target] looks at before it activates. *)
Lemma calc_governor_target_mode_only (s : State) :
  P s Gov_Mode <> 0 -> s.[Requested_Pwm] <> 0 ->
  exists s', calc_governor_target s = Returns s' /\ s'.[Gov_Active] = 1.
Proof.
  intros Hm Hr. unfold calc_governor_target.
  apply truthy_true in Hm as Ht. rewrite Ht.
  destruct (governor_activate_defined s Hr) as (s' & E & Ha & _).
  exists s'. split; [exact E |]. rewrite Ha.
  destruct (Z.eqb_spec (P s Gov_Mode) 0); [contradiction | reflexivity].
Qed.



(** ** Comparator readings *)

Lemma set_comparator_readings_Temp1 (s : State) :
  (set_comparator_readings s).[Temp1]
  = if s.[Comm_Period4x] >? 0x0500
    then if s.[Comm_Period4x] >? 0x0a00 then 3 else 2
    else 30.
Proof.
  unfold set_comparator_readings, get, set. cbn.
  destruct (mem s Comm_Period4x >? 1280); [| reflexivity].
  cbn. destruct (mem s Comm_Period4x >? 2560); [| reflexivity].
  cbn. destruct (mem s Comm_Period4x >? 3840); reflexivity.
Qed.

(** C4 fails on the code: with a period of [0x0500]
    [wait_for_comp_out_not_timed_out] asks for 30 OK readings, with the
    next longer period, [0x0501], for 2. *)
Theorem comparator_readings_drop_at_0x0500 :
  let fast := default_state.[Comm_Period4x <- 0x0500] in
  let slow := default_state.[Comm_Period4x <- 0x0501] in
  fast.[Comm_Period4x] < slow.[Comm_Period4x]
  /\ (exists s, wait_for_comp_out_not_timed_out fast = Returns s
                /\ s.[Temp1] = 30)
  /\ (exists s, wait_for_comp_out_not_timed_out slow = Returns s
                /\ s.[Temp1] = 2).
Proof.
  cbv zeta. split; [reflexivity |].
  split; eexists; (split; [vm_compute; reflexivity | reflexivity]).
Qed.

(** Above [0x0500] the count does grow with the period. *)
Lemma comparator_readings_monotone_above_0x0500 (s t : State) :
  0x0500 < s.[Comm_Period4x] <= t.[Comm_Period4x] ->
  (set_comparator_readings s).[Temp1] <= (set_comparator_readings t).[Temp1].
Proof.
  intros H. rewrite !set_comparator_readings_Temp1.
  destruct (Z.gtb_spec s.[Comm_Period4x] 0x0500);
    destruct (Z.gtb_spec t.[Comm_Period4x] 0x0500);
    destruct (Z.gtb_spec s.[Comm_Period4x] 0x0a00);
    destruct (Z.gtb_spec t.[Comm_Period4x] 0x0a00); lia.
Qed.

(** ** Housekeeping *)

Lemma DoHousekeeping_switch_initialState (s : State) :
  DoHousekeeping_switch s initialState = (s, initialState).
Proof. reflexivity. Qed.

Lemma DoHousekeeping_loop_initialState (fuel : nat) (s : State) :
  DoHousekeeping_loop fuel s initialState = None.
Proof.
  induction fuel as [| fuel IH]; [reflexivity |].
  cbn [DoHousekeeping_loop]. rewrite DoHousekeeping_switch_initialState.
  cbn. exact IH.
Qed.

(** C9 fails on the code: entered with [startState = initialState], the
    loop of [DoHousekeeping] is not left after any number of passes,
    from any state; each pass leaves the state and [startState] as they
    were. *)
Theorem DoHousekeeping_never_returns (fuel : nat) (s : State) :
  DoHousekeeping fuel s = None
  /\ DoHousekeeping_switch s initialState = (s, initialState)
  /\ startState_eqb initialState finished_startup = false.
Proof.
  split; [apply DoHousekeeping_loop_initialState |].
  split; reflexivity.
Qed.

(** So no turn of the loop in [main] comes back from housekeeping. *)
Lemma main_loop_body_never_returns (fuel : nat) (s s' : State) :
  main_loop_body fuel s <> Returns s'.
Proof.
  unfold main_loop_body. cbv zeta.
  destruct (main_switch _) as [t | |]; cbn [bind]; try discriminate.
  unfold DoHousekeeping. rewrite DoHousekeeping_loop_initialState.
  discriminate.
Qed.

Lemma fets_after_app (lv : fet_levels) (cs ds : list Cmd) :
  fets_after lv (cs ++ ds) = fets_after (fets_after lv cs) ds.
Proof. unfold fets_after. apply fold_left_app. Qed.

Lemma port_motor_off (s : State) :
  port (motor_off s)
  = port s ++ [AllFets nFET false; AllFets pFET false; Delay1uS 1000;
               AllFets nFET false; AllFets pFET false].
Proof.
  unfold motor_off. cbn. repeat rewrite <- app_assoc. reflexivity.
Qed.

Lemma motor_off_effect (s : State) (lv : fet_levels) :
  (forall l sd, fets_after lv (port (motor_off s)) l sd = false)
  /\ (motor_off s).[Requested_Pwm] = 0
  /\ (motor_off s).[Governor_Req_Pwm] = 0
  /\ (motor_off s).[Current_Pwm] = 0
  /\ (motor_off s).[Current_Pwm_Limited] = 0
  /\ (motor_off s).[Pwm_Motor_Idle] = 0
  /\ F (motor_off s) MOTOR_SPINNING = false
  /\ (motor_off s).[Gov_Target] = s.[Gov_Target]
  /\ (motor_off s).[Pwm_Limit] = s.[Pwm_Limit]
  /\ (motor_off s).[Pwm_Limit_Spoolup] = s.[Pwm_Limit_Spoolup]
  /\ (motor_off s).[Pwm_Limit_Low_Rpm] = s.[Pwm_Limit_Low_Rpm].
Proof.
  split.
  - intros l sd. rewrite port_motor_off, fets_after_app.
    destruct l, sd; reflexivity.
  - repeat split.
Qed.

(** C6, as the code has it: the step that finds the motor spinning and
    leaves it flagged as stopped is the [run_to_wait_for_power_on]
    case.  It commands every FET off, whatever the pins were before,
    and zeroes [Requested_Pwm], [Governor_Req_Pwm], [Current_Pwm],
    [Current_Pwm_Limited] and [Pwm_Motor_Idle]; the governor target and
    the three pwm limits are not written and keep their values. *)
Theorem run_to_wait_for_power_on_zeroes (s s' : State) (lv : fet_levels) :
  step s s' ->
  F s MOTOR_SPINNING = true ->
  F s' MOTOR_SPINNING = false ->
  s' = motor_off s
  /\ (forall l sd, fets_after lv (port s') l sd = false)
  /\ s'.[Requested_Pwm] = 0 /\ s'.[Governor_Req_Pwm] = 0
  /\ s'.[Current_Pwm] = 0 /\ s'.[Current_Pwm_Limited] = 0
  /\ s'.[Pwm_Motor_Idle] = 0
  /\ s'.[Gov_Target] = s.[Gov_Target]
  /\ s'.[Pwm_Limit] = s.[Pwm_Limit]
  /\ s'.[Pwm_Limit_Spoolup] = s.[Pwm_Limit_Spoolup]
  /\ s'.[Pwm_Limit_Low_Rpm] = s.[Pwm_Limit_Low_Rpm].
Proof.
  intros Hstep Hon Hoff.
  pose proof (step_motor_off s s' Hstep Hon Hoff) as E. subst s'.
  destruct (motor_off_effect s lv)
    as (H0 & H1 & H2 & H3 & H4 & H5 & _ & H6 & H7 & H8 & H9).
  repeat split; assumption.
Qed.

Lemma run_to_wait_for_power_on_zeroes_witness :
  let s := main_entry default_state in
  step s (motor_off s)
  /\ F s MOTOR_SPINNING = true
  /\ F (motor_off s) MOTOR_SPINNING = false
  /\ (forall l sd, fets_after (fun _ _ => true) (port (motor_off s)) l sd = false)
  /\ (motor_off s).[Requested_Pwm] = 0.
Proof.
  cbv zeta.
  assert (Hstep : step (main_entry default_state)
                    (motor_off (main_entry default_state)))
    by (apply step_housekeeping).
  split; [exact Hstep |]. split; [reflexivity |]. split; [reflexivity |].
  pose proof (run_to_wait_for_power_on_zeroes (main_entry default_state)
                (motor_off (main_entry default_state)) (fun _ _ => true)
                Hstep eq_refl eq_refl) as (_ & H0 & H1 & _).
  split; [exact H0 | exact H1].
Defined.

(** C6 as stated fails.  Input: the state after [main]'s start up and
    the [normal_run_checks] case, which sets [Pwm_Limit] to [0xFF]; the
    motor-off case leaves the limit at 255. *)
Lemma run_to_wait_for_power_on_keeps_limit :
  let s := fst (DoHousekeeping_switch (main_entry default_state) normal_run_checks) in
  ~ ((motor_off s).[Requested_Pwm] = 0 /\ (motor_off s).[Governor_Req_Pwm] = 0
     /\ (motor_off s).[Current_Pwm] = 0 /\ (motor_off s).[Current_Pwm_Limited] = 0
     /\ (motor_off s).[Gov_Target] = 0
     /\ (motor_off s).[Pwm_Limit] = 0 /\ (motor_off s).[Pwm_Limit_Spoolup] = 0
     /\ (motor_off s).[Pwm_Limit_Low_Rpm] = 0).
Proof.
  cbv zeta. intros (_ & _ & _ & _ & _ & H & _).
  vm_compute in H. discriminate.
Qed.

(** ** Commutation state *)

(** C7: in every state the program reaches [runState] is one of
    [run1 .. run6]; a turn of the [switch] in [main] moves it one step
    on in the cycle run1, run2, ..., run6, run1 and leaves [Comm_Phase]
    at the sector of the new [runState]; each commutation routine sets
    [Comm_Phase] to its own sector; and no step of the program takes
    [Comm_Phase] out of [1 .. 6]. *)
Theorem runState_cycles (s s' : State) :
  reachable s ->
  main_switch s = Returns s' ->
  run1 <= s.[runState] <= run6
  /\ run1 <= s'.[runState] <= run6
  /\ s'.[runState] = (s.[runState] + 1) mod 6
  /\ s'.[Comm_Phase] = s'.[runState] + 1
  /\ (forall t, (comm1comm2 t).[Comm_Phase] = 2
                /\ (comm2comm3 t).[Comm_Phase] = 3
                /\ (comm3comm4 t).[Comm_Phase] = 4
                /\ (comm4comm5 t).[Comm_Phase] = 5
                /\ (comm5comm6 t).[Comm_Phase] = 6
                /\ (comm6comm1 t).[Comm_Phase] = 1)
  /\ (forall t t', step t t' ->
                   1 <= t.[Comm_Phase] <= 6 -> 1 <= t'.[Comm_Phase] <= 6).
Proof.
  intros Hreach E.
  pose proof (reachable_runState s Hreach) as Hr.
  destruct (main_switch_advances s s' Hr E) as [E1 E2].
  split; [exact Hr |].
  split; [exact (step_runState s s' (step_main_switch s s' E) Hr) |].
  split; [exact E1 |]. split; [exact E2 |].
  split; [| exact step_Comm_Phase].
  intros t. rewrite get_comm1comm2, get_comm2comm3, get_comm3comm4,
    get_comm4comm5, get_comm5comm6, get_comm6comm1.
  repeat split.
Qed.

Lemma first_turn_entry_reachable : reachable first_turn_entry.
Proof.
  unfold first_turn_entry, main_entry, evaluate_comparator_integrity.
  eapply reachable_step; [| apply step_setup_comm_wait].
  eapply reachable_step; [| apply step_init_start].
  eapply reachable_step; [| apply step_decode_parameters].
  eapply reachable_step; [| apply step_switch_power_off].
  apply reachable_power_on. reflexivity.
Qed.

Lemma first_turn_returns :
  main_switch first_turn_entry = Returns first_turn_exit.
Proof. vm_compute. reflexivity. Qed.

Lemma runState_cycles_witness :
  reachable first_turn_entry
  /\ main_switch first_turn_entry = Returns first_turn_exit
  /\ first_turn_exit.[runState] = (first_turn_entry.[runState] + 1) mod 6
  /\ first_turn_exit.[Comm_Phase] = first_turn_exit.[runState] + 1.
Proof.
  split; [exact first_turn_entry_reachable |].
  split; [exact first_turn_returns |].
  pose proof (runState_cycles first_turn_entry first_turn_exit
                first_turn_entry_reachable first_turn_returns)
    as (_ & _ & H1 & H2 & _).
  split; [exact H1 | exact H2].
Defined.

(** ** The parameter struct *)




(** * Further properties of the core *)

(** ** Commutation routines *)

Lemma comm_into_cases (phase : Z) :
  1 <= phase <= 6 ->
  (phase = 1 /\ comm_into phase = comm6comm1)
  \/ (phase = 2 /\ comm_into phase = comm1comm2)
  \/ (phase = 3 /\ comm_into phase = comm2comm3)
  \/ (phase = 4 /\ comm_into phase = comm3comm4)
  \/ (phase = 5 /\ comm_into phase = comm4comm5)
  \/ (phase = 6 /\ comm_into phase = comm5comm6).
Proof.
  intros H.
  assert (Hc : phase = 1 \/ phase = 2 \/ phase = 3 \/ phase = 4
               \/ phase = 5 \/ phase = 6) by lia.
  destruct Hc as [-> | [-> | [-> | [-> | [-> | ->]]]]]; tauto.
Qed.

(** Runs the commutation and pwm routines of the goal, down to the
    tests of the flags; [run_routines] also runs the appends of the
    command sequence. *)
Ltac run_routines_on_port :=
  unfold issued;
  cbv [comm1comm2 comm2comm3 comm3comm4 comm4comm5 comm5comm6 comm6comm1
       comm_exit switch_power_off call_DPTR
       pwm_aBnFET_off pwm_bBnFET_off pwm_cBnFET_off
       pwm_anfet_bpBnFET_off pwm_anfet_cpBnFET_off pwm_bnfet_cpBnFET_off
       pwm_bnfet_apBnFET_off pwm_cnfet_apBnFET_off pwm_cnfet_bpBnFET_off
       t0_int_pwm_on_exit
       FET_DELAY NFETON_DELAY PFETON_DELAY
       All_nFETs_on All_nFETs_off All_pFETs_on All_pFETs_off
       AnFET_on AnFET_off ApFET_on ApFET_off
       BnFET_on BnFET_off BpFET_on BpFET_off
       CnFET_on CnFET_off CpFET_on CpFET_off
       Set_Comp_Phase_A Set_Comp_Phase_B Set_Comp_Phase_C
       Set_RPM_Out Clear_RPM_Out
       mem F P DPTR port get set setF setP setDPTR emit negb].

Ltac run_routines := run_routines_on_port; cbv [app].

(** X1: what a commutation routine writes.  Of the [int32] globals it
    writes [Comm_Phase] alone, which it sets to the phase it enters; of
    the flags [DEMAG_CUT_POWER] alone, which it clears; [P] is left as
    it was.  It also assigns [DPTR], the pointer to the pwm on routine:
    in three of the twelve combinations of phase and damping flag the
    pointer is left as it was, in the others it is set to the routine
    of the phase.  The pin commands it sends are added to those sent
    before. *)
Theorem commutation_frame (phase : Z) (s : State) :
  1 <= phase <= 6 ->
  (comm_into phase s).[Comm_Phase] = phase
  /\ (forall x, x <> Comm_Phase -> (comm_into phase s).[x] = s.[x])
  /\ P (comm_into phase s) = P s
  /\ F (comm_into phase s) DEMAG_CUT_POWER = false
  /\ (forall f, f <> DEMAG_CUT_POWER -> F (comm_into phase s) f = F s f)
  /\ DPTR (comm_into phase s)
     = DPTR_entering phase (F s PGM_PWMOFF_DAMPED) (DPTR s)
  /\ port (comm_into phase s) = port s ++ issued (comm_into phase) s.
Proof.
  intros H.
  assert (Hrest : DPTR (comm_into phase s)
                  = DPTR_entering phase (F s PGM_PWMOFF_DAMPED) (DPTR s)
                  /\ port (comm_into phase s)
                     = port s ++ issued (comm_into phase) s).
  { destruct (comm_into_cases phase H)
      as [[-> ->] | [[-> ->] | [[-> ->] | [[-> ->] | [[-> ->] | [-> ->]]]]]];
      destruct s as [m f p d po]; split; run_routines_on_port;
      destruct (f PGM_PWMOFF_DAMPED), (f PWM_ON), (f DIR_CHANGE_BRAKE);
      cbn [app]; repeat rewrite <- app_assoc; reflexivity. }
  destruct Hrest as [Hd Hport].
  assert (Hframe : (comm_into phase s).[Comm_Phase] = phase
                   /\ (forall x, x <> Comm_Phase ->
                                 (comm_into phase s).[x] = s.[x])
                   /\ P (comm_into phase s) = P s
                   /\ F (comm_into phase s) DEMAG_CUT_POWER = false
                   /\ (forall f, f <> DEMAG_CUT_POWER ->
                                 F (comm_into phase s) f = F s f)).
  { clear Hd Hport.
    destruct (comm_into_cases phase H)
      as [[-> ->] | [[-> ->] | [[-> ->] | [[-> ->] | [[-> ->] | [-> ->]]]]]].
    - destruct (comm6comm1_frame s) as (Hm & Hp & Hf).
      repeat split; try assumption; try reflexivity.
      + rewrite get_comm6comm1. apply get_set_same.
      + intros x Hx. rewrite get_comm6comm1. apply get_set_other. congruence.
    - destruct (comm1comm2_frame s) as (Hm & Hp & Hf).
      repeat split; try assumption; try reflexivity.
      + rewrite get_comm1comm2. apply get_set_same.
      + intros x Hx. rewrite get_comm1comm2. apply get_set_other. congruence.
    - destruct (comm2comm3_frame s) as (Hm & Hp & Hf).
      repeat split; try assumption; try reflexivity.
      + rewrite get_comm2comm3. apply get_set_same.
      + intros x Hx. rewrite get_comm2comm3. apply get_set_other. congruence.
    - destruct (comm3comm4_frame s) as (Hm & Hp & Hf).
      repeat split; try assumption; try reflexivity.
      + rewrite get_comm3comm4. apply get_set_same.
      + intros x Hx. rewrite get_comm3comm4. apply get_set_other. congruence.
    - destruct (comm4comm5_frame s) as (Hm & Hp & Hf).
      repeat split; try assumption; try reflexivity.
      + rewrite get_comm4comm5. apply get_set_same.
      + intros x Hx. rewrite get_comm4comm5. apply get_set_other. congruence.
    - destruct (comm5comm6_frame s) as (Hm & Hp & Hf).
      repeat split; try assumption; try reflexivity.
      + rewrite get_comm5comm6. apply get_set_same.
      + intros x Hx. rewrite get_comm5comm6. apply get_set_other. congruence. }
  destruct Hframe as (H1 & H2 & H3 & H4 & H5).
  repeat split; assumption.
Qed.

Lemma commutation_frame_witness :
  1 <= 3 <= 6
  /\ (comm_into 3 default_state).[Comm_Phase] = 3
  /\ P (comm_into 3 default_state) = P default_state
  /\ DPTR (comm_into 3 default_state) = pwm_bnfet_apBnFET_off_ptr.
Proof.
  assert (H : 1 <= 3 <= 6) by lia.
  split; [exact H |].
  pose proof (commutation_frame 3 default_state H)
    as (H1 & _ & H2 & _ & _ & H3 & _).
  split; [exact H1 |]. split; [exact H2 | exact H3].
Defined.

(** X2: while [F.DIR_CHANGE_BRAKE] is set every commutation routine
    ends in the brake configuration, all low side switches off and all
    high side switches on, whatever the pins were before and whatever
    the damping and pwm flags say; with the flag clear [comm_exit]
    sends no command at all. *)
Theorem commutation_under_brake
  (phase : Z) (s : State) (lv : fet_levels) (l : leg) :
  1 <= phase <= 6 ->
  F s DIR_CHANGE_BRAKE = true ->
  fets_after lv (issued (comm_into phase) s) l nFET = false
  /\ fets_after lv (issued (comm_into phase) s) l pFET = true
  /\ (forall t, F t DIR_CHANGE_BRAKE = false -> issued comm_exit t = []).
Proof.
  intros H Hb.
  assert (Hoff : forall t, F t DIR_CHANGE_BRAKE = false ->
                           issued comm_exit t = []).
  { intros t Ht. unfold issued, comm_exit. store_simpl. rewrite Ht.
    reflexivity. }
  destruct (comm_into_cases phase H)
    as [[-> ->] | [[-> ->] | [[-> ->] | [[-> ->] | [[-> ->] | [-> ->]]]]]];
    (split; [| split; [| exact Hoff]]);
    destruct s as [m f p d po]; cbn [F] in Hb; run_routines;
    destruct (f PGM_PWMOFF_DAMPED), (f PWM_ON); rewrite ?Hb;
    destruct l; reflexivity.
Qed.

Lemma commutation_under_brake_witness :
  let s := setF DIR_CHANGE_BRAKE true default_state in
  1 <= 2 <= 6 /\ F s DIR_CHANGE_BRAKE = true
  /\ fets_after (fun _ _ => true) (issued (comm_into 2) s) LegA nFET = false
  /\ fets_after (fun _ _ => false) (issued (comm_into 2) s) LegC pFET = true.
Proof.
  cbv zeta.
  assert (H : 1 <= 2 <= 6) by lia.
  split; [exact H |]. split; [reflexivity |].
  split.
  - exact (proj1 (commutation_under_brake 2
                    (setF DIR_CHANGE_BRAKE true default_state)
                    (fun _ _ => true) LegA H eq_refl)).
  - exact (proj1 (proj2 (commutation_under_brake 2
                    (setF DIR_CHANGE_BRAKE true default_state)
                    (fun _ _ => false) LegC H eq_refl))).
Defined.

(** ** Pwm routines *)

(** X3: the pwm on routines [DPTR] can point to switch on exactly one
    FET, a low side one, and the damped pwm off routines switch on
    exactly one high side FET and no low side one: the pwm is applied
    to the low side, and only the pwm off routines of the damped mode
    touch the high side.  The routines that end a pwm cycle by cutting
    switches, and [switch_power_off], switch nothing on. *)
Theorem pwm_routines_polarity (d : FETFuncPtr) (s : State) :
  Forall (fun sw => snd sw = nFET) (switched_on (issued (call_DPTR d) s))
  /\ length (switched_on (issued (call_DPTR d) s))
     = match d with NULL => 0%nat | _ => 1%nat end
  /\ Forall (fun r => exists l, switched_on (issued r s) = [(l, pFET)])
       [t0_int_pwm_off_damped; t0_int_pwm_off_comm_3_4;
        t0_int_pwm_off_comm_5_6]
  /\ Forall (fun r => switched_on (issued r s) = [])
       [t0_int_pfets_off_comm_1_6; t0_int_pfets_off_comm_4_5_6;
        t0_int_pfets_off_comm_2_3; t0_int_pwm_off_exit_nfets_off;
        t0_int_pwm_on_exit_pfets_off; pwm_noBnFET_off; switch_power_off].
Proof.
  split; [| split; [| split]].
  - destruct d; vm_compute; repeat constructor.
  - destruct d; reflexivity.
  - repeat (apply Forall_cons; [eexists; vm_compute; reflexivity |]).
    apply Forall_nil.
  - repeat (apply Forall_cons; [reflexivity |]). apply Forall_nil.
Qed.



(** ** Housekeeping state machine *)

Lemma dead_end_closed (s : State) (st : startState) :
  dead_end st = true ->
  dead_end (snd (DoHousekeeping_switch s st)) = true.
Proof.
  destruct st; try discriminate; intros _;
    unfold DoHousekeeping_switch; flag_cases; reflexivity.
Qed.

Lemma dead_end_not_finished (st : startState) :
  dead_end st = true -> startState_eqb st finished_startup = false.
Proof. destruct st; try discriminate; reflexivity. Qed.

Lemma dead_end_loop (fuel : nat) :
  forall s st, dead_end st = true -> DoHousekeeping_loop fuel s st = None.
Proof.
  induction fuel as [| fuel IH]; intros s st Hd; [reflexivity |].
  cbn [DoHousekeeping_loop].
  pose proof (dead_end_closed s st Hd) as Hc.
  destruct (DoHousekeeping_switch s st) as [s1 st1]. cbn [snd] in Hc.
  rewrite (dead_end_not_finished st1 Hc). apply IH. exact Hc.
Qed.

(** X5: twelve of the nineteen values of [startState] are dead ends of
    the housekeeping loop: the values with no [case] in the switch, the
    two motor-off cases, which lead to [wait_for_power_on], and
    [direct_start_check_rcp], which stays where it is or goes to the
    motor-off case.  Entered with one of them the loop is not left after
    any number of passes, from any state; entered with any of the seven
    others it can be left. *)
Theorem housekeeping_dead_ends (st : startState) :
  if dead_end st
  then forall fuel s, DoHousekeeping_loop fuel s st = None
  else exists s s', DoHousekeeping_loop 5 s st = Some s'.
Proof.
  destruct (dead_end st) eqn:Hd.
  - intros fuel s. apply dead_end_loop. exact Hd.
  - exists (setF INITIAL_RUN_PHASE true power_on_state).
    destruct st; try discriminate Hd; eexists; vm_compute; reflexivity.
Qed.

(** What one pass of the switch that does not take the motor-off case
    leaves alone. *)
Lemma DoHousekeeping_switch_keeps (s : State) (st : startState) :
  st <> run_to_wait_for_power_on ->
  let s' := fst (DoHousekeeping_switch s st) in
  port s' = port s /\ P s' = P s /\ DPTR s' = DPTR s
  /\ (forall f, f <> INITIAL_RUN_PHASE -> F s' f = F s f)
  /\ (forall x, x <> runState -> x <> Temp1 -> x <> Pwm_Limit ->
                x <> Pwm_Limit_Spoolup -> x <> Spoolup_Limit_Cnt ->
                x <> Spoolup_Limit_Skip -> s'.[x] = s.[x]).
Proof.
  intros Hst. cbv zeta.
  destruct st; try congruence; unfold DoHousekeeping_switch;
    flag_cases; cbn [fst]; repeat split; try reflexivity;
    intros; repeat rewrite get_set_other by congruence;
    rewrite ?F_set; try rewrite F_setF_other by congruence; reflexivity.
Qed.

(** X6: when the housekeeping loop, entered anywhere but at
    [finished_startup], is left, it has set [runState] back to [run1]
    and has not touched the power stage: no command was sent to the
    pins, no flag and no field of [P] has changed, and [DPTR] and every
    variable but [runState], [Temp1] and the three spoolup variables
    are as they were.  A pass that reaches the motor-off case never
    comes back. *)
Theorem DoHousekeeping_loop_exit
  (fuel : nat) (s s' : State) (st : startState) :
  st <> finished_startup ->
  DoHousekeeping_loop fuel s st = Some s' ->
  s'.[runState] = run1
  /\ port s' = port s /\ F s' = F s /\ P s' = P s /\ DPTR s' = DPTR s
  /\ (forall x, x <> runState -> x <> Temp1 ->
                x <> Pwm_Limit_Spoolup -> x <> Spoolup_Limit_Cnt ->
                x <> Spoolup_Limit_Skip -> s'.[x] = s.[x]).
Proof.
  revert s s' st.
  induction fuel as [| fuel IH]; intros s s' st Hst E; [discriminate E |].
  cbn [DoHousekeeping_loop] in E.
  destruct (dead_end st) eqn:Hd.
  { pose proof (dead_end_loop (S fuel) s st Hd) as N.
    cbn [DoHousekeeping_loop] in N. rewrite N in E. discriminate E. }
  destruct st; try discriminate Hd; try congruence;
    unfold DoHousekeeping_switch in E.
  - (* initial_run_phase_done *)
    cbn [startState_eqb] in E.
    match type of E with DoHousekeeping_loop _ ?t _ = _ =>
      destruct (IH t s' run6_check_rcp_stop_count ltac:(discriminate) E) as (H1 & H2 & H3 & H4 & H5 & H6)
    end.
    split; [exact H1 |].
    destruct (s.[Rcp_Stop_Cnt] =? 0);
      (split; [exact H2 |]; split; [exact H3 |]; split; [exact H4 |];
       split; [exact H5 |]);
      intros x X1 X2 X3 X4 X5; rewrite (H6 x X1 X2 X3 X4 X5);
      repeat rewrite get_set_other by congruence; reflexivity.
  - (* run6_check_speed *)
    destruct (F s DIR_CHANGE_BRAKE);
      match type of E with context [if ?c then _ else _] => destruct c end;
      cbn [startState_eqb] in E;
      try (rewrite dead_end_loop in E by reflexivity; discriminate E);
      injection E as <-;
      (split; [reflexivity |]; split; [reflexivity |];
       split; [reflexivity |]; split; [reflexivity |];
       split; [reflexivity |]);
      intros x X1 X2 X3 X4 X5;
      repeat rewrite get_set_other by congruence; reflexivity.
  - (* run6_check_rcp_stop_count *)
    destruct (s.[Rcp_Stop_Cnt] >? RCP_STOP_LIMIT); cbn [startState_eqb] in E.
    + rewrite dead_end_loop in E by reflexivity. discriminate E.
    + exact (IH s s' run6_check_rcp_timeout ltac:(discriminate) E).
  - (* run6_check_rcp_timeout *)
    destruct (negb (F s RCP_PPM)); [| destruct (s.[Rcp_Timeout_Cnt] =? 0)];
      cbn [startState_eqb] in E.
    + exact (IH s s' run6_check_speed ltac:(discriminate) E).
    + rewrite dead_end_loop in E by reflexivity. discriminate E.
    + exact (IH s s' run6_check_rcp_timeout ltac:(discriminate) E).
  - (* normal_run_check_startup_rot *)
    destruct (s.[New_Rcp] <? s.[Startup_Rot_Cnt]); cbn [startState_eqb] in E.
    + rewrite dead_end_loop in E by reflexivity. discriminate E.
    + injection E as <-.
      split; [reflexivity |]. split; [reflexivity |].
      split; [reflexivity |]. split; [reflexivity |].
      split; [reflexivity |].
      intros x X1 X2 X3 X4 X5.
      repeat rewrite get_set_other by congruence. reflexivity.
  - (* normal_run_checks *)
    destruct (F s DIR_CHANGE_BRAKE || F s INITIAL_RUN_PHASE);
      [| destruct (s.[Startup_Rot_Cnt] >? 0)]; cbn [startState_eqb] in E.
    + exact (IH s s' initial_run_phase_done ltac:(discriminate) E).
    + exact (IH s s' normal_run_check_startup_rot ltac:(discriminate) E).
    + rewrite dead_end_loop in E by reflexivity. discriminate E.
Qed.

Lemma DoHousekeeping_loop_exit_witness :
  let s := (setF INITIAL_RUN_PHASE true (main_entry default_state))
             .[runState <- run4] in
  normal_run_checks <> finished_startup
  /\ exists s', DoHousekeeping_loop 5 s normal_run_checks = Some s'
                /\ s'.[runState] = run1 /\ port s' = port s.
Proof.
  cbv zeta.
  assert (Hst : normal_run_checks <> finished_startup) by discriminate.
  split; [exact Hst |].
  eexists. split; [vm_compute; reflexivity |].
  match goal with |- get _ ?t = _ /\ port _ = port ?u =>
    pose proof (DoHousekeeping_loop_exit 5 u t normal_run_checks Hst
                  ltac:(vm_compute; reflexivity)) as (H1 & H2 & _)
  end.
  split; [exact H1 | exact H2].
Defined.

Lemma run6_check_speed_returns (fuel : nat) (s s' : State) :
  DoHousekeeping_loop fuel s run6_check_speed = Some s' ->
  s.[Comm_Period4x] <= run6_speed_limit s.
Proof.
  destruct fuel as [| fuel]; [discriminate |].
  cbn [DoHousekeeping_loop]. unfold DoHousekeeping_switch, run6_speed_limit.
  destruct (F s DIR_CHANGE_BRAKE);
    rewrite get_set_other by discriminate; rewrite get_set_same;
    match goal with |- context [?a >? ?b] => destruct (Z.gtb_spec a b) end;
    cbn [startState_eqb]; intros E; try lia;
    rewrite dead_end_loop in E by reflexivity; discriminate E.
Qed.

Lemma run6_check_speed_leaves (s : State) :
  s.[Comm_Period4x] <= run6_speed_limit s ->
  exists s', DoHousekeeping_loop 1 s run6_check_speed = Some s'.
Proof.
  cbn [DoHousekeeping_loop]. unfold DoHousekeeping_switch, run6_speed_limit.
  destruct (F s DIR_CHANGE_BRAKE);
    rewrite get_set_other by discriminate; rewrite get_set_same;
    match goal with |- context [?a >? ?b] => destruct (Z.gtb_spec a b) end;
    cbn [startState_eqb]; intros E; try lia; eexists; reflexivity.
Qed.

Lemma run6_check_rcp_timeout_returns (fuel : nat) (s s' : State) :
  DoHousekeeping_loop fuel s run6_check_rcp_timeout = Some s' ->
  F s RCP_PPM = false /\ s.[Comm_Period4x] <= run6_speed_limit s.
Proof.
  induction fuel as [| fuel IH]; [discriminate |].
  cbn [DoHousekeeping_loop]. unfold DoHousekeeping_switch.
  destruct (F s RCP_PPM); cbn [negb].
  - destruct (s.[Rcp_Timeout_Cnt] =? 0); cbn [startState_eqb]; intros E.
    + rewrite dead_end_loop in E by reflexivity. discriminate E.
    + destruct (IH E) as [N _]. discriminate N.
  - cbn [startState_eqb]. intros E. split; [reflexivity |].
    exact (run6_check_speed_returns fuel s s' E).
Qed.

Lemma run6_check_rcp_stop_count_returns (fuel : nat) (s s' : State) :
  DoHousekeeping_loop fuel s run6_check_rcp_stop_count = Some s' ->
  s.[Rcp_Stop_Cnt] <= RCP_STOP_LIMIT
  /\ F s RCP_PPM = false /\ s.[Comm_Period4x] <= run6_speed_limit s.
Proof.
  destruct fuel as [| fuel]; [discriminate |].
  cbn [DoHousekeeping_loop]. unfold DoHousekeeping_switch.
  destruct (Z.gtb_spec s.[Rcp_Stop_Cnt] RCP_STOP_LIMIT);
    cbn [startState_eqb]; intros E.
  - rewrite dead_end_loop in E by reflexivity. discriminate E.
  - split; [lia |]. exact (run6_check_rcp_timeout_returns fuel s s' E).
Qed.

Lemma run6_check_rcp_stop_count_leaves (s : State) :
  s.[Rcp_Stop_Cnt] <= RCP_STOP_LIMIT ->
  F s RCP_PPM = false ->
  s.[Comm_Period4x] <= run6_speed_limit s ->
  exists s', DoHousekeeping_loop 3 s run6_check_rcp_stop_count = Some s'.
Proof.
  intros H1 H2 H3.
  change (DoHousekeeping_loop 3 s run6_check_rcp_stop_count)
    with (let '(s1, st) := DoHousekeeping_switch s run6_check_rcp_stop_count in
          if startState_eqb st finished_startup then Some s1
          else DoHousekeeping_loop 2 s1 st).
  unfold DoHousekeeping_switch at 1.
  destruct (Z.gtb_spec s.[Rcp_Stop_Cnt] RCP_STOP_LIMIT); [lia |].
  cbn [startState_eqb].
  change (DoHousekeeping_loop 2 s run6_check_rcp_timeout)
    with (let '(s1, st) := DoHousekeeping_switch s run6_check_rcp_timeout in
          if startState_eqb st finished_startup then Some s1
          else DoHousekeeping_loop 1 s1 st).
  unfold DoHousekeeping_switch at 1. rewrite H2. cbn [negb startState_eqb].
  exact (run6_check_speed_leaves s H3).
Qed.

(** X7: the normal run checks of the housekeeping loop, taken as a
    whole.  Entered at [normal_run_checks] the loop is left, after some
    number of passes, exactly in two situations: under a direction
    change brake or in the initial run phase, when the RC pulse stop
    count is within [RCP_STOP_LIMIT], the input is not PPM and the
    commutation period is within the speed limit; and otherwise, when
    the startup rotation count is positive and not above [New_Rcp].  In
    every other situation the motor is switched off or the loop hangs
    in a value with no case. *)
Theorem normal_run_checks_return_iff (s : State) :
  (exists fuel s', DoHousekeeping_loop fuel s normal_run_checks = Some s')
  <->
  (F s DIR_CHANGE_BRAKE || F s INITIAL_RUN_PHASE = true
   /\ s.[Rcp_Stop_Cnt] <= RCP_STOP_LIMIT
   /\ F s RCP_PPM = false
   /\ s.[Comm_Period4x] <= run6_speed_limit s)
  \/ (F s DIR_CHANGE_BRAKE || F s INITIAL_RUN_PHASE = false
      /\ 0 < s.[Startup_Rot_Cnt] <= s.[New_Rcp]).
Proof.
  split.
  - intros (fuel & s' & E).
    destruct fuel as [| fuel]; [discriminate E |].
    cbn [DoHousekeeping_loop] in E. unfold DoHousekeeping_switch in E.
    destruct (F s DIR_CHANGE_BRAKE || F s INITIAL_RUN_PHASE) eqn:Hb.
    + left. split; [reflexivity |].
      cbn [startState_eqb] in E.
      destruct fuel as [| fuel]; [discriminate E |].
      cbn [DoHousekeeping_loop] in E. unfold DoHousekeeping_switch in E.
      cbn [startState_eqb] in E.
      apply run6_check_rcp_stop_count_returns in E.
      destruct (s.[Rcp_Stop_Cnt] =? 0); exact E.
    + right. split; [reflexivity |].
      destruct (Z.gtb_spec s.[Startup_Rot_Cnt] 0) as [G | G];
        cbn [startState_eqb] in E.
      * destruct fuel as [| fuel]; [discriminate E |].
        cbn [DoHousekeeping_loop] in E. unfold DoHousekeeping_switch in E.
        destruct (Z.ltb_spec s.[New_Rcp] s.[Startup_Rot_Cnt]);
          cbn [startState_eqb] in E; [| lia].
        rewrite dead_end_loop in E by reflexivity. discriminate E.
      * rewrite dead_end_loop in E by reflexivity. discriminate E.
  - intros [(Hb & H1 & H2 & H3) | (Hb & H1)].
    + pose (t := if s.[Rcp_Stop_Cnt] =? 0
                 then ((s.[Pwm_Limit_Spoolup <- s.[Pwm_Spoolup_Beg]])
                         .[Spoolup_Limit_Cnt <- s.[Auto_Bailout_Armed]])
                         .[Spoolup_Limit_Skip <- 1]
                 else s).
      assert (Ht : t.[Rcp_Stop_Cnt] <= RCP_STOP_LIMIT
                   /\ F t RCP_PPM = false
                   /\ t.[Comm_Period4x] <= run6_speed_limit t).
      { unfold t. destruct (s.[Rcp_Stop_Cnt] =? 0); auto. }
      destruct Ht as (T1 & T2 & T3).
      destruct (run6_check_rcp_stop_count_leaves t T1 T2 T3) as (s' & E).
      exists 5%nat, s'.
      change (DoHousekeeping_loop 5 s normal_run_checks)
        with (let '(s1, st) := DoHousekeeping_switch s normal_run_checks in
              if startState_eqb st finished_startup then Some s1
              else DoHousekeeping_loop 4 s1 st).
      unfold DoHousekeeping_switch at 1. rewrite Hb. cbn [startState_eqb].
      change (DoHousekeeping_loop 4 s initial_run_phase_done)
        with (let '(s1, st) := DoHousekeeping_switch s initial_run_phase_done in
              if startState_eqb st finished_startup then Some s1
              else DoHousekeeping_loop 3 s1 st).
      unfold DoHousekeeping_switch at 1. cbn [startState_eqb].
      exact E.
    + exists 2%nat. cbn [DoHousekeeping_loop]. unfold DoHousekeeping_switch.
      rewrite Hb.
      destruct (Z.gtb_spec s.[Startup_Rot_Cnt] 0); [| lia].
      cbn [startState_eqb].
      destruct (Z.ltb_spec s.[New_Rcp] s.[Startup_Rot_Cnt]); [lia |].
      cbn [startState_eqb]. eexists. reflexivity.
Qed.

Lemma switched_on_app (cs ds : list Cmd) :
  switched_on (cs ++ ds) = switched_on cs ++ switched_on ds.
Proof. unfold switched_on. apply flat_map_app. Qed.

Lemma DoHousekeeping_switch_port (s : State) (st : startState) :
  exists cs, port (fst (DoHousekeeping_switch s st)) = port s ++ cs
             /\ switched_on cs = [].
Proof.
  destruct (startState_eqb st run_to_wait_for_power_on) eqn:Hst.
  - destruct st; try discriminate Hst.
    eexists. split; [exact (port_motor_off s) | reflexivity].
  - exists []. split; [| reflexivity]. rewrite app_nil_r.
    apply DoHousekeeping_switch_keeps. intros ->. discriminate Hst.
Qed.

Lemma DoHousekeeping_passes_port (n : nat) :
  forall s st,
    exists cs, port (fst (DoHousekeeping_passes n s st)) = port s ++ cs
               /\ switched_on cs = [].
Proof.
  induction n as [| n IH]; intros s st.
  - exists []. split; [symmetry; apply app_nil_r | reflexivity].
  - cbn [DoHousekeeping_passes].
    destruct (DoHousekeeping_switch_port s st) as (cs & E1 & N1).
    destruct (DoHousekeeping_switch s st) as [s1 st1]. cbn [fst] in E1.
    destruct (IH s1 st1) as (ds & E2 & N2).
    exists (cs ++ ds). split.
    + rewrite E2, E1. symmetry. apply app_assoc.
    + rewrite switched_on_app, N1, N2. reflexivity.
Qed.

(** X8: the housekeeping switch never commands a FET on.  Whatever
    value of [startState] it is entered with and however many passes it
    makes, from any state, no command it sends to the pins switches a
    FET on: it only ever cuts power. *)
Theorem housekeeping_never_switches_on
  (n : nat) (s : State) (st : startState) :
  switched_on (issued (fun t => fst (DoHousekeeping_passes n t st)) s) = [].
Proof.
  unfold issued.
  destruct (DoHousekeeping_passes_port n
              (mkState (mem s) (F s) (P s) (DPTR s) []) st) as (cs & E & N).
  rewrite E. exact N.
Qed.

(** X9: the motor-off case is final.  After the pass through
    [run_to_wait_for_power_on] the loop sits in [wait_for_power_on],
    which has no case: every further pass leaves the state, with all
    FETs commanded off and the duty variables zero, exactly as the
    motor-off case left it, and the loop is never left. *)
Theorem motor_off_is_final (n fuel : nat) (s : State) (lv : fet_levels) :
  DoHousekeeping_passes (S n) s run_to_wait_for_power_on
  = (motor_off s, wait_for_power_on)
  /\ DoHousekeeping_loop fuel s run_to_wait_for_power_on = None
  /\ (forall l sd,
        fets_after lv (port (fst (DoHousekeeping_passes (S n) s
                                    run_to_wait_for_power_on))) l sd = false)
  /\ (fst (DoHousekeeping_passes (S n) s run_to_wait_for_power_on))
       .[Requested_Pwm] = 0.
Proof.
  assert (E : DoHousekeeping_passes (S n) s run_to_wait_for_power_on
              = (motor_off s, wait_for_power_on)).
  { change (DoHousekeeping_passes (S n) s run_to_wait_for_power_on)
      with (DoHousekeeping_passes n (motor_off s) wait_for_power_on).
    generalize (motor_off s). intros t.
    induction n as [| n IH]; [reflexivity | exact IH]. }
  split; [exact E |].
  split; [apply dead_end_loop; reflexivity |].
  rewrite E. cbn [fst].
  split; [apply motor_off_effect | reflexivity].
Qed.

(** ** Governor *)

Lemma calc_governor_prop_correction_inactive (s : State) :
  s.[Gov_Active] = 0 -> calc_governor_prop_correction s = s.
Proof.
  intros H. unfold calc_governor_prop_correction. rewrite H. reflexivity.
Qed.

Lemma calc_governor_int_correction_inactive (s : State) :
  s.[Gov_Active] = 0 -> calc_governor_int_correction s = s.
Proof.
  intros H. unfold calc_governor_int_correction. rewrite H. reflexivity.
Qed.

(** X10: an inactive governor is transparent.  While [Gov_Active] is
    zero the proportional error, proportional correction and integral
    correction routines change nothing at all, so after
    [governor_deactivate] a whole round of them leaves [Current_Pwm]
    equal to [Requested_Pwm] and the error terms as the deactivation
    left them. *)
Theorem inactive_governor_is_transparent (s : State) :
  s.[Gov_Active] = 0 ->
  calc_governor_prop_error s = s
  /\ calc_governor_prop_correction s = s
  /\ calc_governor_int_correction s = s
  /\ (forall t,
        calc_governor_int_correction
          (calc_governor_prop_correction
             (calc_governor_prop_error (governor_deactivate t)))
        = governor_deactivate t).
Proof.
  intros H.
  split; [exact (calc_governor_prop_error_inactive s H) |].
  split; [exact (calc_governor_prop_correction_inactive s H) |].
  split; [exact (calc_governor_int_correction_inactive s H) |].
  intros t.
  rewrite (calc_governor_prop_error_inactive (governor_deactivate t))
    by reflexivity.
  rewrite (calc_governor_prop_correction_inactive (governor_deactivate t))
    by reflexivity.
  apply calc_governor_int_correction_inactive. reflexivity.
Qed.

Lemma inactive_governor_is_transparent_witness :
  (main_entry default_state).[Gov_Active] = 0
  /\ calc_governor_prop_error (main_entry default_state)
     = main_entry default_state.
Proof.
  assert (H : (main_entry default_state).[Gov_Active] = 0)
    by (vm_compute; reflexivity).
  split; [exact H |].
  exact (proj1 (inactive_governor_is_transparent (main_entry default_state) H)).
Defined.

Lemma wrap32_small (z : Z) : - 2 ^ 31 <= z < 2 ^ 31 -> wrap32 z = z.
Proof.
  intros H. unfold wrap32.
  rewrite Z.mod_small by lia. lia.
Qed.

Lemma governor_activate_returns (s : State) :
  s.[Requested_Pwm] <> 0 ->
  governor_activate s
  = Returns (((s.[Gov_Active <- Zbool (negb (P s Gov_Mode =? 0))])
                .[Governor_Req_Pwm <- s.[Requested_Pwm]])
                .[Comm_Period4x <- wrap32 (Z.quot 51000 s.[Requested_Pwm] * 2)]).
Proof.
  intros H. unfold governor_activate.
  change ((s.[Gov_Active <- _]).[Governor_Req_Pwm <- _]).[Requested_Pwm]
    with s.[Requested_Pwm].
  destruct (Z.eqb_spec s.[Requested_Pwm] 0) as [E | _]; [contradiction |].
  reflexivity.
Qed.

(** X11: for a throttle in the pwm range, [1 <= Requested_Pwm <= 255],
    [governor_activate] returns, copies the throttle into
    [Governor_Req_Pwm] and overwrites the measured commutation period
    with twice the quotient [51000 / Requested_Pwm], without wrap
    around: a value between 400 and 102000 that does not depend on the
    period measured before and never grows when the throttle grows. *)
Theorem governor_activate_period (s t : State) :
  1 <= s.[Requested_Pwm] <= t.[Requested_Pwm] ->
  t.[Requested_Pwm] <= 255 ->
  exists s' t',
    governor_activate s = Returns s'
    /\ governor_activate t = Returns t'
    /\ s'.[Governor_Req_Pwm] = s.[Requested_Pwm]
    /\ s'.[Comm_Period4x] = 2 * (51000 / s.[Requested_Pwm])
    /\ 400 <= s'.[Comm_Period4x] <= 102000
    /\ t'.[Comm_Period4x] <= s'.[Comm_Period4x].
Proof.
  intros Hs Ht.
  assert (Hq : forall r, 1 <= r <= 255 ->
                 wrap32 (Z.quot 51000 r * 2) = 2 * (51000 / r)
                 /\ 200 <= 51000 / r <= 51000).
  { intros r Hr. rewrite Z.quot_div_nonneg by lia.
    assert (B : 200 <= 51000 / r <= 51000).
    { split.
      - apply Z.div_le_lower_bound; lia.
      - apply Z.div_le_upper_bound; lia. }
    split; [| exact B]. rewrite wrap32_small by lia. lia. }
  rewrite (governor_activate_returns s) by lia.
  rewrite (governor_activate_returns t) by lia.
  eexists. eexists. split; [reflexivity |]. split; [reflexivity |].
  split; [reflexivity |].
  rewrite !get_set_same.
  destruct (Hq s.[Requested_Pwm]) as [E1 B1]; [lia |].
  destruct (Hq t.[Requested_Pwm]) as [E2 B2]; [lia |].
  rewrite E1, E2. split; [reflexivity |]. split; [lia |].
  assert (51000 / t.[Requested_Pwm] <= 51000 / s.[Requested_Pwm])
    by (apply Z.div_le_compat_l; lia).
  lia.
Qed.

Lemma governor_activate_period_witness :
  1 <= first_turn_entry.[Requested_Pwm]
    <= (first_turn_entry.[Requested_Pwm <- 255]).[Requested_Pwm]
  /\ (first_turn_entry.[Requested_Pwm <- 255]).[Requested_Pwm] <= 255
  /\ exists s' t',
       governor_activate first_turn_entry = Returns s'
       /\ governor_activate first_turn_entry.[Requested_Pwm <- 255] = Returns t'
       /\ t'.[Comm_Period4x] <= s'.[Comm_Period4x].
Proof.
  assert (H1 : 1 <= first_turn_entry.[Requested_Pwm]
               <= (first_turn_entry.[Requested_Pwm <- 255]).[Requested_Pwm])
    by (vm_compute; split; discriminate).
  assert (H2 : (first_turn_entry.[Requested_Pwm <- 255]).[Requested_Pwm] <= 255)
    by (vm_compute; discriminate).
  split; [exact H1 |]. split; [exact H2 |].
  destruct (governor_activate_period first_turn_entry
              first_turn_entry.[Requested_Pwm <- 255] H1 H2)
    as (s' & t' & E1 & E2 & _ & _ & _ & H).
  exists s', t'. split; [exact E1 |]. split; [exact E2 | exact H].
Defined.

(** X12: with governor mode 0 [calc_governor_target] never divides: it
    always returns, it deactivates the governor when the RC pulse is
    below [RCP_STOP] and changes nothing otherwise, and it never turns
    the governor on. *)
Theorem calc_governor_target_mode_zero (s : State) :
  P s Gov_Mode = 0 ->
  exists s',
    calc_governor_target s = Returns s'
    /\ (s.[New_Rcp] < RCP_STOP -> s' = governor_deactivate s)
    /\ (RCP_STOP <= s.[New_Rcp] -> s' = s)
    /\ (s'.[Gov_Active] = 0 \/ s'.[Gov_Active] = s.[Gov_Active])
    /\ s'.[Comm_Period4x] = s.[Comm_Period4x].
Proof.
  intros Hm. unfold calc_governor_target. rewrite Hm. cbn [truthy Z.eqb negb].
  destruct (Z.ltb_spec s.[New_Rcp] RCP_STOP) as [L | L]; eexists;
    (split; [reflexivity |]); (split; [| split; [| split]]);
    try reflexivity; try (intros; lia); auto.
Qed.

Lemma calc_governor_target_mode_zero_witness :
  let s := setP Gov_Mode 0 first_turn_exit in
  P s Gov_Mode = 0
  /\ exists s', calc_governor_target s = Returns s'
                /\ s'.[Comm_Period4x] = s.[Comm_Period4x].
Proof.
  cbv zeta.
  assert (H : P (setP Gov_Mode 0 first_turn_exit) Gov_Mode = 0)
    by reflexivity.
  split; [exact H |].
  destruct (calc_governor_target_mode_zero (setP Gov_Mode 0 first_turn_exit) H)
    as (s' & E & _ & _ & _ & Hc).
  exists s'. split; [exact E | exact Hc].
Defined.

(** ** The switch of the commutation loop *)

(** X13: a turn of the [switch] in [main] never hangs, and it runs into
    the undefined division in exactly one situation: in [run1], with a
    non-zero governor mode and [Requested_Pwm] zero.  In every other
    state it returns. *)
Theorem main_switch_undefined_iff (s : State) :
  (main_switch s = Undefined
   <-> s.[runState] = run1 /\ P s Gov_Mode <> 0 /\ s.[Requested_Pwm] = 0)
  /\ main_switch s <> Diverges.
Proof.
  cbv beta delta [main_switch].
  destruct (Z.eqb_spec s.[runState] run1) as [E1 | N1].
  { cbv zeta.
    assert (Hc : calc_governor_target (wait_for_comp_out_high s)
                 = if truthy (P s Gov_Mode)
                   then if s.[Requested_Pwm] =? 0 then Undefined
                        else calc_governor_target (wait_for_comp_out_high s)
                   else calc_governor_target (wait_for_comp_out_high s)).
    { destruct (truthy (P s Gov_Mode)) eqn:Ht; [| reflexivity].
      destruct (Z.eqb_spec s.[Requested_Pwm] 0) as [E | N]; [| reflexivity].
      unfold calc_governor_target.
      change (P (wait_for_comp_out_high s) Gov_Mode) with (P s Gov_Mode).
      rewrite Ht. apply governor_activate_undefined. exact E. }
    destruct (calc_governor_target (wait_for_comp_out_high s))
      as [t | |] eqn:E; cbn [bind].
    - split; [| discriminate]. split; [discriminate |].
      intros (_ & Hm & Hr). apply truthy_true in Hm.
      rewrite Hm, Hr in Hc. discriminate Hc.
    - split; [| discriminate]. split; [| reflexivity]. intros _.
      split; [exact E1 |].
      unfold calc_governor_target in E.
      change (P (wait_for_comp_out_high s) Gov_Mode) with (P s Gov_Mode) in E.
      destruct (truthy (P s Gov_Mode)) eqn:Ht.
      + split; [apply truthy_true; exact Ht |].
        apply governor_activate_undefined in E. exact E.
      + destruct (_ <? _); discriminate E.
    - exfalso. unfold calc_governor_target in E.
      destruct (truthy _).
      + unfold governor_activate in E.
        match type of E with (if ?c then _ else _) = _ => destruct c end;
          discriminate E.
      + destruct (_ <? _); discriminate E. }
  assert (Hn : forall o : outcome State,
             (exists t, o = Returns t) ->
             (o = Undefined
              <-> s.[runState] = run1 /\ P s Gov_Mode <> 0
                  /\ s.[Requested_Pwm] = 0)
             /\ o <> Diverges).
  { intros o (t & ->). split; [| discriminate].
    split; [discriminate |]. intros (E & _). contradiction. }
  destruct (s.[runState] =? run2); [apply Hn; eexists; reflexivity |].
  destruct (s.[runState] =? run3); [apply Hn; eexists; reflexivity |].
  destruct (s.[runState] =? run4); [apply Hn; eexists; reflexivity |].
  destruct (s.[runState] =? run5); [apply Hn; eexists; reflexivity |].
  destruct (s.[runState] =? run6); [apply Hn; eexists; reflexivity |].
  apply Hn. eexists. reflexivity.
Qed.

(** ** Parameters *)

Lemma decode_parameters_eq (s : State) :
  decode_parameters s
  = let s1 := setF PGM_PWMOFF_DAMPED false s.[Temp8 <- P s Pwm_Freq] in
    let s2 := if P s Direction =? 3 then s1
              else setF PGM_DIR_REV true (setF PGM_DIR_REV false s1) in
    setF PGM_PWM_HIGH_FREQ false
      (setP Pwm_Freq 3
         (setF PGM_RCP_PWM_POL (flag_of_int32 (P s Input_Pol))
            (setF PGM_RCP_PWM_POL false s2))).
Proof.
  unfold decode_parameters. cbv zeta.
  change (P (setF PGM_PWMOFF_DAMPED false s.[Temp8 <- P s Pwm_Freq]) Direction)
    with (P s Direction).
  destruct (P s Direction =? 3); reflexivity.
Qed.

Lemma decode_parameters_F (s : State) (f : flag) :
  f <> PGM_PWMOFF_DAMPED -> f <> PGM_DIR_REV -> f <> PGM_RCP_PWM_POL ->
  f <> PGM_PWM_HIGH_FREQ ->
  F (decode_parameters s) f = F s f.
Proof.
  intros H1 H2 H3 H4. rewrite decode_parameters_eq. cbv zeta.
  rewrite F_setF_other by congruence. rewrite F_setP.
  rewrite !F_setF_other by congruence.
  destruct (P s Direction =? 3);
    rewrite ?F_setF_other by congruence; reflexivity.
Qed.

Lemma decode_parameters_clears (s : State) :
  F (decode_parameters s) PGM_PWMOFF_DAMPED = false
  /\ F (decode_parameters s) PGM_PWM_HIGH_FREQ = false.
Proof.
  rewrite decode_parameters_eq. cbv zeta.
  destruct (P s Direction =? 3); split; reflexivity.
Qed.

Lemma decode_parameters_port (s : State) :
  port (decode_parameters s) = port s /\ DPTR (decode_parameters s) = DPTR s.
Proof.
  rewrite decode_parameters_eq. cbv zeta.
  destruct (P s Direction =? 3); split; reflexivity.
Qed.

(** X14: what [decode_parameters] decodes.  Whatever [P.Pwm_Freq]
    holds, the routine leaves the damped pwm flag and the high pwm
    frequency flag clear and [P.Pwm_Freq] at 3; the decoded flags do not
    depend on [P.Pwm_Freq] at all.  The direction flag is set unless
    [P.Direction] is 3, in which case it is left as it was.  No other
    flag than the four programmed ones is written. *)
Theorem decode_parameters_flags (s : State) :
  F (decode_parameters s) PGM_PWMOFF_DAMPED = false
  /\ F (decode_parameters s) PGM_PWM_HIGH_FREQ = false
  /\ P (decode_parameters s) Pwm_Freq = 3
  /\ F (decode_parameters s) PGM_DIR_REV
     = (if P s Direction =? 3 then F s PGM_DIR_REV else true)
  /\ (forall v f, F (decode_parameters (setP Pwm_Freq v s)) f
                  = F (decode_parameters s) f)
  /\ (forall f, f <> PGM_PWMOFF_DAMPED -> f <> PGM_DIR_REV ->
                f <> PGM_RCP_PWM_POL -> f <> PGM_PWM_HIGH_FREQ ->
                F (decode_parameters s) f = F s f).
Proof.
  destruct (decode_parameters_clears s) as [H1 H2].
  split; [exact H1 |]. split; [exact H2 |]. split; [reflexivity |].
  split; [| split].
  - rewrite decode_parameters_eq. cbv zeta.
    destruct (P s Direction =? 3); reflexivity.
  - intros v f. rewrite !decode_parameters_eq. cbv zeta.
    change (P (setP Pwm_Freq v s) Direction) with (P s Direction).
    change (P (setP Pwm_Freq v s) Input_Pol) with (P s Input_Pol).
    destruct (P s Direction =? 3); cbn [F setF setP set];
      repeat match goal with
             | |- context [flag_eq_dec ?a f] => destruct (flag_eq_dec a f)
             end; reflexivity.
  - exact (decode_parameters_F s).
Qed.

(** X15: [set_default_parameters] assigns every field of [P] except
    the name: the value a field has afterwards does not depend on what
    [P] held before, the name is left as it was, and nothing outside
    [P] is touched. *)
Theorem set_default_parameters_overrides (s t : State) (p : param) :
  (forall i, p <> Name i) ->
  P (set_default_parameters s) p = P (set_default_parameters t) p
  /\ (forall i, P (set_default_parameters s) (Name i) = P s (Name i))
  /\ mem (set_default_parameters s) = mem s
  /\ F (set_default_parameters s) = F s
  /\ port (set_default_parameters s) = port s.
Proof.
  intros Hp. split; [| repeat split].
  destruct p; try reflexivity. exfalso. exact (Hp i eq_refl).
Qed.

Lemma set_default_parameters_overrides_witness :
  (forall i, Gov_Mode <> Name i)
  /\ P (set_default_parameters (setP Gov_Mode 0 power_on_state)) Gov_Mode
     = P (set_default_parameters power_on_state) Gov_Mode.
Proof.
  assert (H : forall i, Gov_Mode <> Name i) by (intros i; discriminate).
  split; [exact H |].
  exact (proj1 (set_default_parameters_overrides
                  (setP Gov_Mode 0 power_on_state) power_on_state Gov_Mode H)).
Defined.

(** ** Flags *)

(** [peel_F] for a flag that is only known by what it differs from. *)
Ltac peel_flag :=
  repeat first
    [ rewrite F_set | rewrite F_setP | rewrite F_setDPTR | rewrite F_emit
    | rewrite F_setF_other by congruence
    | unfold_empty
    | rewrite (proj2 (proj2 (comm1comm2_frame _))) by congruence
    | rewrite (proj2 (proj2 (comm2comm3_frame _))) by congruence
    | rewrite (proj2 (proj2 (comm3comm4_frame _))) by congruence
    | rewrite (proj2 (proj2 (comm4comm5_frame _))) by congruence
    | rewrite (proj2 (proj2 (comm5comm6_frame _))) by congruence
    | rewrite (proj2 (proj2 (comm6comm1_frame _))) by congruence
    | rewrite (proj2 (proj2 (calc_governor_prop_error_frame _)))
    | rewrite (proj2 (proj2 (calc_governor_prop_correction_frame _)))
    | rewrite (proj2 (proj2 (calc_governor_int_correction_frame _)))
    | rewrite decode_parameters_F by congruence
    | match goal with |- context [F ?x] => is_var x; subst x end ].

Lemma init_start_F (s : State) (f : flag) :
  f <> MOTOR_SPINNING -> f <> STARTUP_PHASE -> f <> DEMAG_CUT_POWER ->
  f <> PGM_PWMOFF_DAMPED -> f <> PGM_DIR_REV -> f <> PGM_RCP_PWM_POL ->
  f <> PGM_PWM_HIGH_FREQ ->
  F (init_start s) f = F s f.
Proof.
  intros H1 H2 H3 H4 H5 H6 H7.
  cbv beta delta [init_start]. name_lets. peel_flag. reflexivity.
Qed.

Lemma init_start_clears (s : State) :
  F (init_start s) DEMAG_CUT_POWER = false
  /\ F (init_start s) PGM_PWMOFF_DAMPED = false
  /\ F (init_start s) PGM_PWM_HIGH_FREQ = false.
Proof.
  split; [reflexivity |].
  split; cbv beta delta [init_start]; name_lets; peel_F;
    apply decode_parameters_clears.
Qed.

Lemma main_switch_F (s s' : State) (f : flag) :
  main_switch s = Returns s' ->
  f <> DEMAG_CUT_POWER -> f <> DEMAG_DETECTED ->
  F s' f = F s f.
Proof.
  intros E' H1 H2. revert E'. cbv beta delta [main_switch].
  destruct (s.[runState] =? run1).
  { cbv zeta. destruct (calc_governor_target _) as [t | |] eqn:E; cbn [bind];
      intros E'; try discriminate E'.
    apply Returns_inj in E'. subst s'.
    destruct (calc_governor_target_frame _ _ E) as (_ & _ & E3).
    peel_flag. rewrite E3. peel_flag. reflexivity. }
  destruct (s.[runState] =? run2).
  { cbv zeta. intros E'. apply Returns_inj in E'. subst s'.
    peel_flag. reflexivity. }
  destruct (s.[runState] =? run3).
  { cbv zeta. intros E'. apply Returns_inj in E'. subst s'.
    peel_flag. reflexivity. }
  destruct (s.[runState] =? run4).
  { cbv zeta. intros E'. apply Returns_inj in E'. subst s'.
    peel_flag. reflexivity. }
  destruct (s.[runState] =? run5).
  { cbv zeta. intros E'. apply Returns_inj in E'. subst s'.
    peel_flag. reflexivity. }
  destruct (s.[runState] =? run6).
  { cbv zeta. intros E'. apply Returns_inj in E'. subst s'.
    peel_flag. reflexivity. }
  intros E'. apply Returns_inj in E'. subst s'. reflexivity.
Qed.

Lemma main_switch_DEMAG_CUT_POWER (s s' : State) :
  main_switch s = Returns s' ->
  F s DEMAG_CUT_POWER = false -> F s' DEMAG_CUT_POWER = false.
Proof.
  intros E' H. revert E'. cbv beta delta [main_switch].
  destruct (s.[runState] =? run1).
  { cbv zeta. destruct (calc_governor_target _) as [t | |] eqn:E; cbn [bind];
      intros E'; try discriminate E'.
    apply Returns_inj in E'. subst s'. reflexivity. }
  destruct (s.[runState] =? run2).
  { cbv zeta. intros E'. apply Returns_inj in E'. subst s'. reflexivity. }
  destruct (s.[runState] =? run3).
  { cbv zeta. intros E'. apply Returns_inj in E'. subst s'. reflexivity. }
  destruct (s.[runState] =? run4).
  { cbv zeta. intros E'. apply Returns_inj in E'. subst s'. reflexivity. }
  destruct (s.[runState] =? run5).
  { cbv zeta. intros E'. apply Returns_inj in E'. subst s'. reflexivity. }
  destruct (s.[runState] =? run6).
  { cbv zeta. intros E'. apply Returns_inj in E'. subst s'. reflexivity. }
  intros E'. apply Returns_inj in E'. subst s'. exact H.
Qed.

Lemma DoHousekeeping_switch_keeps_clear
  (s : State) (st : startState) (f : flag) :
  F s f = false -> F (fst (DoHousekeeping_switch s st)) f = false.
Proof.
  intros H.
  destruct st; unfold DoHousekeeping_switch; flag_cases; cbn [fst];
    store_simpl;
    repeat match goal with
           | |- context [flag_eq_dec ?a f] => destruct (flag_eq_dec a f)
           end; try reflexivity; exact H.
Qed.

Lemma step_keeps_clear (s s' : State) (f : flag) :
  step s s' -> In f never_set -> F s f = false -> F s' f = false.
Proof.
  intros Hstep Hin H.
  destruct Hstep as [s | s | s s' E | s st | s | s | s | s].
  - destruct (init_start_clears s) as (C1 & C2 & C3).
    cbn [In never_set] in Hin.
    destruct Hin as [<- | [<- | [<- | [<- | [<- | [<- | [<- | []]]]]]]];
      try assumption; rewrite init_start_F by discriminate; exact H.
  - destruct (decode_parameters_clears s) as (C1 & C2).
    cbn [In never_set] in Hin.
    destruct Hin as [<- | [<- | [<- | [<- | [<- | [<- | [<- | []]]]]]]];
      try assumption; rewrite decode_parameters_F by discriminate; exact H.
  - cbn [In never_set] in Hin.
    destruct Hin as [<- | [<- | [<- | [<- | [<- | [<- | [<- | []]]]]]]];
      try (rewrite (main_switch_F s s' _ E) by discriminate; exact H).
    exact (main_switch_DEMAG_CUT_POWER s s' E H).
  - apply DoHousekeeping_switch_keeps_clear. exact H.
  - exact H.
  - exact H.
  - rewrite (proj2 (proj2 (call_DPTR_frame _ s))). exact H.
  - rewrite (proj2 (proj2 (t0_int_pwm_off_damped_frame s))). exact H.
Qed.

(** X16: no step of the program sets [PWM_ON], [DEMAG_CUT_POWER],
    [INITIAL_RUN_PHASE], [DIR_CHANGE_BRAKE], [PGM_PWMOFF_DAMPED],
    [PGM_PWM_HIGH_FREQ] or [RCP_PPM]: if one of these flags is clear it
    is still clear after any number of steps.  The branches of the
    commutation routines, of [comm_exit] and of the housekeeping cases
    that test them are entered only if the flag was set before the
    program ran. *)
Theorem flags_never_set (s s' : State) (f : flag) :
  steps s s' ->
  In f never_set ->
  F s f = false ->
  F s' f = false.
Proof.
  intros Hsteps Hin H.
  induction Hsteps as [s | s t u _ IH Hstep]; [exact H |].
  exact (step_keeps_clear t u f Hstep Hin (IH H)).
Qed.

Lemma flags_never_set_witness :
  steps default_state (main_entry default_state)
  /\ In DIR_CHANGE_BRAKE never_set
  /\ F default_state DIR_CHANGE_BRAKE = false
  /\ F (main_entry default_state) DIR_CHANGE_BRAKE = false.
Proof.
  assert (Hs : steps default_state (main_entry default_state)).
  { unfold main_entry.
    eapply steps_step; [| apply step_init_start].
    eapply steps_step; [| apply step_decode_parameters].
    eapply steps_step; [| apply step_switch_power_off].
    apply steps_refl. }
  assert (Hin : In DIR_CHANGE_BRAKE never_set)
    by (cbn; tauto).
  split; [exact Hs |]. split; [exact Hin |]. split; [reflexivity |].
  exact (flags_never_set default_state (main_entry default_state)
           DIR_CHANGE_BRAKE Hs Hin eq_refl).
Defined.

(** ** Start entry point *)

(** X17: the start conditions [init_start] sets up, from any state.
    The requested and the current pwm are 1, the governor request is 0,
    the commutation period is [0x7F00], the phase is 1 and [runState]
    is [run1], and the motor is flagged as spinning and in its startup
    phase, in non-damped mode.  The three pwm limits are 0: the maximum
    [0xff] written to [Pwm_Limit] is overwritten at once with
    [Requested_Pwm], which was zeroed at the top of the routine, so the
    pwm the routine leaves is above its own limits. *)
Theorem init_start_start_conditions (s : State) :
  (init_start s).[Requested_Pwm] = 1
  /\ (init_start s).[Current_Pwm] = 1
  /\ (init_start s).[Current_Pwm_Limited] = 1
  /\ (init_start s).[Governor_Req_Pwm] = 0
  /\ (init_start s).[Pwm_Limit] = 0
  /\ (init_start s).[Pwm_Limit_Spoolup] = 0
  /\ (init_start s).[Pwm_Limit_Low_Rpm] = 0
  /\ (init_start s).[Comm_Period4x] = 0x7F00
  /\ (init_start s).[Comm_Phase] = 1
  /\ (init_start s).[runState] = run1
  /\ (init_start s).[Spoolup_Limit_Cnt] = s.[Auto_Bailout_Armed]
  /\ (init_start s).[Spoolup_Limit_Skip] = 1
  /\ (init_start s).[Startup_Ok_Cnt] = 0
  /\ F (init_start s) MOTOR_SPINNING = true
  /\ F (init_start s) STARTUP_PHASE = true
  /\ F (init_start s) PGM_PWMOFF_DAMPED = false.
Proof.
  repeat split; cbv beta delta [init_start]; name_lets;
    try (peel_get; reflexivity);
    try (peel_F; reflexivity).
  peel_F. apply decode_parameters_clears.
Qed.

(** ** The bridge *)

Lemma fets_after_ext (cs : list Cmd) :
  forall lv lv' : fet_levels,
    (forall l sd, lv l sd = lv' l sd) ->
    forall l sd, fets_after lv cs l sd = fets_after lv' cs l sd.
Proof.
  induction cs as [| c cs IH]; intros lv lv' H; [exact H |].
  apply IH. intros l sd.
  destruct c; cbn [fet_after]; try apply H;
    match goal with |- context [if ?b then _ else _] => destruct b end;
    try reflexivity; apply H.
Qed.

Lemma leg_shorted_ext (lv lv' : fet_levels) :
  (forall l sd, lv l sd = lv' l sd) -> leg_shorted lv = leg_shorted lv'.
Proof. intros H. unfold leg_shorted. rewrite !H. reflexivity. Qed.

Lemma shorted_during_ext (cs : list Cmd) :
  forall lv lv' : fet_levels,
    (forall l sd, lv l sd = lv' l sd) ->
    shorted_during lv cs = shorted_during lv' cs.
Proof.
  induction cs as [| c cs IH]; intros lv lv' H; [reflexivity |].
  cbn [shorted_during].
  assert (H' : forall l sd, fet_after lv c l sd = fet_after lv' c l sd)
    by exact (fets_after_ext [c] lv lv' H).
  rewrite (leg_shorted_ext _ _ H'), (IH _ _ H'). reflexivity.
Qed.

Lemma shorted_during_app (cs ds : list Cmd) :
  forall lv,
    shorted_during lv (cs ++ ds)
    = shorted_during lv cs || shorted_during (fets_after lv cs) ds.
Proof.
  induction cs as [| c cs IH]; intros lv; [reflexivity |].
  cbn [app shorted_during]. rewrite IH, orb_assoc. reflexivity.
Qed.

(** The commutation routines only add to what was sent before. *)
Lemma commutation_port (s : State) :
  port (comm1comm2 s) = port s ++ issued comm1comm2 s
  /\ port (comm2comm3 s) = port s ++ issued comm2comm3 s
  /\ port (comm3comm4 s) = port s ++ issued comm3comm4 s
  /\ port (comm4comm5 s) = port s ++ issued comm4comm5 s
  /\ port (comm5comm6 s) = port s ++ issued comm5comm6 s
  /\ port (comm6comm1 s) = port s ++ issued comm6comm1 s.
Proof.
  destruct s as [m f p d po]. repeat split; run_routines_on_port;
    destruct (f PGM_PWMOFF_DAMPED), (f PWM_ON), (f DIR_CHANGE_BRAKE);
    cbn [app]; repeat rewrite <- app_assoc; reflexivity.
Qed.

(** What the commutation routines send in non-damped mode without
    brake. *)
Lemma commutation_nondamped (s : State) :
  F s PGM_PWMOFF_DAMPED = false ->
  F s DIR_CHANGE_BRAKE = false ->
  issued comm1comm2 s
  = [RpmOut true; AllFets pFET false; FetDelay 0; Fet LegA pFET true;
     SetCompPhase LegB]
  /\ issued comm2comm3 s
     = [RpmOut false; Fet LegC nFET false; Fet LegB pFET false;
        Fet LegC pFET false; FetDelay 0]
       ++ (if F s PWM_ON then [] else [Fet LegB nFET true])
       ++ [SetCompPhase LegC]
  /\ issued comm3comm4 s
     = [AllFets pFET false; Fet LegC pFET true; SetCompPhase LegA]
  /\ issued comm4comm5 s
     = [Fet LegB nFET false]
       ++ (if F s PWM_ON then [Fet LegA nFET true] else [])
       ++ [SetCompPhase LegB]
  /\ issued comm5comm6 s
     = [AllFets pFET false; Fet LegB pFET true; SetCompPhase LegC]
  /\ issued comm6comm1 s
     = [Fet LegA nFET false]
       ++ (if F s PWM_ON then [Fet LegC nFET true] else [])
       ++ [SetCompPhase LegA].
Proof.
  intros Hd Hb. destruct s as [m f p d po]. cbn [F] in Hd, Hb.
  repeat split; run_routines; rewrite ?Hd, ?Hb;
    destruct (f PWM_ON); rewrite ?Hb; reflexivity.
Qed.
(** ** What [main] sends to the pins *)

Lemma port_set (x : var) (v : Z) (s : State) : port s.[x <- v] = port s.
Proof. reflexivity. Qed.

Lemma port_setF (f : flag) (b : bool) (s : State) : port (setF f b s) = port s.
Proof. reflexivity. Qed.

Lemma port_setP (p : param) (v : Z) (s : State) : port (setP p v s) = port s.
Proof. reflexivity. Qed.

Lemma port_setDPTR (d : FETFuncPtr) (s : State) :
  port (setDPTR d s) = port s.
Proof. reflexivity. Qed.

Lemma port_emit (c : Cmd) (s : State) : port (emit c s) = port s ++ [c].
Proof. reflexivity. Qed.

Ltac peel_port :=
  repeat first
    [ rewrite port_set | rewrite port_setF | rewrite port_setP
    | rewrite port_setDPTR | rewrite port_emit
    | unfold_empty
    | rewrite (proj1 (decode_parameters_port _))
    | match goal with |- context [port ?x] => is_var x; subst x end ].

Lemma init_start_port (s : State) :
  F s DIR_CHANGE_BRAKE = false ->
  port (init_start s)
  = port s
    ++ [AllFets nFET false; AllFets pFET false;
        AllFets pFET false; Fet LegB pFET true; SetCompPhase LegC;
        Fet LegA nFET false]
    ++ (if F s PWM_ON then [Fet LegC nFET true] else [])
    ++ [SetCompPhase LegA].
Proof.
  intros Hb. cbv beta delta [init_start]. name_lets.
  assert (D31 : F s31 PGM_PWMOFF_DAMPED = false)
    by (peel_F; apply decode_parameters_clears).
  assert (B31 : F s31 DIR_CHANGE_BRAKE = false)
    by (peel_flag; exact Hb).
  assert (D32 : F s32 PGM_PWMOFF_DAMPED = false)
    by (peel_F; apply decode_parameters_clears).
  assert (B32 : F s32 DIR_CHANGE_BRAKE = false)
    by (peel_flag; exact Hb).
  assert (W32 : F s32 PWM_ON = F s PWM_ON)
    by (peel_flag; reflexivity).
  assert (E33 : port s33 = port s32 ++ issued comm6comm1 s32)
    by exact (proj2 (proj2 (proj2 (proj2 (proj2 (commutation_port s32)))))).
  assert (E32 : port s32 = port s31 ++ issued comm5comm6 s31)
    by exact (proj1 (proj2 (proj2 (proj2 (proj2 (commutation_port s31)))))).
  destruct (commutation_nondamped s31 D31 B31) as (_ & _ & _ & _ & C5 & _).
  destruct (commutation_nondamped s32 D32 B32) as (_ & _ & _ & _ & _ & C6).
  rewrite C5 in E32. rewrite C6, W32 in E33.
  clearbody s33. clearbody s32.
  peel_port. rewrite E33, E32. peel_port.
  repeat rewrite <- app_assoc. reflexivity.
Qed.

Lemma governor_routines_keep (s : State) :
  (port (calc_governor_prop_error s) = port s
   /\ (calc_governor_prop_error s).[Requested_Pwm] = s.[Requested_Pwm])
  /\ (port (calc_governor_prop_correction s) = port s
      /\ (calc_governor_prop_correction s).[Requested_Pwm] = s.[Requested_Pwm])
  /\ (port (calc_governor_int_correction s) = port s
      /\ (calc_governor_int_correction s).[Requested_Pwm] = s.[Requested_Pwm]).
Proof.
  unfold calc_governor_prop_error, calc_governor_prop_correction,
    calc_governor_int_correction.
  destruct (truthy s.[Gov_Active]); repeat split.
Qed.

Lemma calc_governor_target_keeps (s s' : State) :
  calc_governor_target s = Returns s' ->
  port s' = port s /\ s'.[Requested_Pwm] = s.[Requested_Pwm].
Proof.
  intros E.
  destruct (calc_governor_target_cases s s' E) as [[_ ->] | [-> | ->]];
    split; reflexivity.
Qed.

Ltac peel_turn :=
  repeat first
    [ rewrite port_set | rewrite port_setF | rewrite port_setP
    | rewrite port_setDPTR | rewrite port_emit
    | rewrite get_set_other by discriminate
    | rewrite get_setF | rewrite get_emit
    | rewrite get_comm1comm2 | rewrite get_comm2comm3
    | rewrite get_comm3comm4 | rewrite get_comm4comm5
    | rewrite get_comm5comm6 | rewrite get_comm6comm1
    | unfold_empty
    | rewrite (proj1 (proj1 (governor_routines_keep _)))
    | rewrite (proj2 (proj1 (governor_routines_keep _)))
    | rewrite (proj1 (proj1 (proj2 (governor_routines_keep _))))
    | rewrite (proj2 (proj1 (proj2 (governor_routines_keep _))))
    | rewrite (proj1 (proj2 (proj2 (governor_routines_keep _))))
    | rewrite (proj2 (proj2 (proj2 (governor_routines_keep _)))) ].

Lemma issued_nondamped (s t : State) :
  F s PGM_PWMOFF_DAMPED = false ->
  F s DIR_CHANGE_BRAKE = false ->
  (forall f, f <> DEMAG_DETECTED -> F t f = F s f) ->
  issued comm1comm2 t = issued comm1comm2 s
  /\ issued comm2comm3 t = issued comm2comm3 s
  /\ issued comm3comm4 t = issued comm3comm4 s
  /\ issued comm4comm5 t = issued comm4comm5 s
  /\ issued comm5comm6 t = issued comm5comm6 s
  /\ issued comm6comm1 t = issued comm6comm1 s.
Proof.
  intros Hd Hb Hf.
  assert (Hd' : F t PGM_PWMOFF_DAMPED = false)
    by (rewrite Hf by discriminate; exact Hd).
  assert (Hb' : F t DIR_CHANGE_BRAKE = false)
    by (rewrite Hf by discriminate; exact Hb).
  destruct (commutation_nondamped s Hd Hb) as (S1 & S2 & S3 & S4 & S5 & S6).
  destruct (commutation_nondamped t Hd' Hb') as (T1 & T2 & T3 & T4 & T5 & T6).
  rewrite S1, S2, S3, S4, S5, S6, T1, T2, T3, T4, T5, T6.
  rewrite (Hf PWM_ON) by discriminate. repeat split.
Qed.

Lemma main_switch_turn (s s' : State) :
  run1 <= s.[runState] <= run6 ->
  F s PGM_PWMOFF_DAMPED = false ->
  F s DIR_CHANGE_BRAKE = false ->
  main_switch s = Returns s' ->
  s'.[Requested_Pwm] = s.[Requested_Pwm]
  /\ port s'
     = port s
       ++ (if (s.[runState] =? run4) || (s.[runState] =? run6)
           then [Delay1uS s.[Wt_Comm]] else [])
       ++ issued (comm_into ((s.[runState] + 1) mod 6 + 1)) s.
Proof.
  unfold run1, run6. intros Hr Hd Hb.
  assert (Hc : s.[runState] = 0 \/ s.[runState] = 1 \/ s.[runState] = 2
               \/ s.[runState] = 3 \/ s.[runState] = 4 \/ s.[runState] = 5)
    by lia.
  cbv beta delta [main_switch].
  destruct Hc as [H | [H | [H | [H | [H | H]]]]]; rewrite H;
    cbn [Z.eqb Pos.eqb run1 run2 run3 run4 run5 run6 orb];
    change (comm_into ((0 + 1) mod 6 + 1)) with comm1comm2;
    change (comm_into ((1 + 1) mod 6 + 1)) with comm2comm3;
    change (comm_into ((2 + 1) mod 6 + 1)) with comm3comm4;
    change (comm_into ((3 + 1) mod 6 + 1)) with comm4comm5;
    change (comm_into ((4 + 1) mod 6 + 1)) with comm5comm6;
    change (comm_into ((5 + 1) mod 6 + 1)) with comm6comm1;
    cbv zeta.
  - destruct (calc_governor_target _) as [t | |] eqn:E; cbn [bind];
      intros E'; try discriminate E'.
    apply Returns_inj in E'. subst s'.
    destruct (calc_governor_target_keeps _ _ E) as [K1 K2].
    destruct (calc_governor_target_frame _ _ E) as (_ & _ & K3).
    assert (Hf : forall f, f <> DEMAG_DETECTED -> F (wait_for_comm t) f = F s f).
    { intros f Hf. unfold wait_for_comm. rewrite K3. peel_flag. reflexivity. }
    destruct (issued_nondamped s (wait_for_comm t) Hd Hb Hf) as (I & _).
    rewrite <- I. clear I Hf.
    split.
    + peel_turn. rewrite K2. peel_turn. reflexivity.
    + rewrite port_set. rewrite (proj1 (commutation_port _)).
      peel_turn. rewrite K1. peel_turn. cbn [app]. reflexivity.
  - intros E'. apply Returns_inj in E'. subst s'.
    match goal with |- context [comm2comm3 ?t] =>
      assert (Hf : forall f, f <> DEMAG_DETECTED -> F t f = F s f)
        by (intros f Hf; peel_flag; reflexivity);
      destruct (issued_nondamped s t Hd Hb Hf) as (_ & I & _)
    end.
    rewrite <- I. clear I Hf.
    split; [peel_turn; reflexivity |].
    rewrite port_set. rewrite (proj1 (proj2 (commutation_port _))).
    peel_turn. cbn [app]. reflexivity.
  - intros E'. apply Returns_inj in E'. subst s'.
    match goal with |- context [comm3comm4 ?t] =>
      assert (Hf : forall f, f <> DEMAG_DETECTED -> F t f = F s f)
        by (intros f Hf; peel_flag; reflexivity);
      destruct (issued_nondamped s t Hd Hb Hf) as (_ & _ & I & _)
    end.
    rewrite <- I. clear I Hf.
    split; [peel_turn; reflexivity |].
    rewrite port_set. rewrite (proj1 (proj2 (proj2 (commutation_port _)))).
    peel_turn. cbn [app]. reflexivity.
  - intros E'. apply Returns_inj in E'. subst s'.
    match goal with |- context [comm4comm5 ?t] =>
      assert (Hf : forall f, f <> DEMAG_DETECTED -> F t f = F s f)
        by (intros f Hf; peel_flag; reflexivity);
      destruct (issued_nondamped s t Hd Hb Hf) as (_ & _ & _ & I & _)
    end.
    rewrite <- I. clear I Hf.
    split; [peel_turn; reflexivity |].
    rewrite port_set.
    rewrite (proj1 (proj2 (proj2 (proj2 (commutation_port _))))).
    peel_turn. rewrite <- app_assoc. cbn [app]. reflexivity.
  - intros E'. apply Returns_inj in E'. subst s'.
    match goal with |- context [comm5comm6 ?t] =>
      assert (Hf : forall f, f <> DEMAG_DETECTED -> F t f = F s f)
        by (intros f Hf; peel_flag; reflexivity);
      destruct (issued_nondamped s t Hd Hb Hf) as (_ & _ & _ & _ & I & _)
    end.
    rewrite <- I. clear I Hf.
    split; [peel_turn; reflexivity |].
    rewrite port_set.
    rewrite (proj1 (proj2 (proj2 (proj2 (proj2 (commutation_port _)))))).
    peel_turn. cbn [app]. reflexivity.
  - intros E'. apply Returns_inj in E'. subst s'.
    match goal with |- context [comm6comm1 ?t] =>
      assert (Hf : forall f, f <> DEMAG_DETECTED -> F t f = F s f)
        by (intros f Hf; peel_flag; reflexivity);
      destruct (issued_nondamped s t Hd Hb Hf) as (_ & _ & _ & _ & _ & I)
    end.
    rewrite <- I. clear I Hf.
    split; [peel_turn; reflexivity |].
    rewrite port_set.
    rewrite (proj2 (proj2 (proj2 (proj2 (proj2 (commutation_port _)))))).
    peel_turn. rewrite <- app_assoc. cbn [app]. reflexivity.
Qed.

Lemma main_switch_defined (s : State) :
  s.[Requested_Pwm] <> 0 -> exists s', main_switch s = Returns s'.
Proof.
  intros Hr. cbv beta delta [main_switch].
  destruct (s.[runState] =? run1).
  { cbv zeta. unfold calc_governor_target.
    destruct (truthy _).
    - rewrite governor_activate_returns by exact Hr. cbn [bind].
      eexists. reflexivity.
    - destruct (_ <? _); cbn [bind]; eexists; reflexivity. }
  destruct (s.[runState] =? run2); [eexists; reflexivity |].
  destruct (s.[runState] =? run3); [eexists; reflexivity |].
  destruct (s.[runState] =? run4); [eexists; reflexivity |].
  destruct (s.[runState] =? run5); [eexists; reflexivity |].
  destruct (s.[runState] =? run6); eexists; reflexivity.
Qed.

Lemma main_switch_Requested_Pwm (s s' : State) :
  main_switch s = Returns s' -> s'.[Requested_Pwm] = s.[Requested_Pwm].
Proof.
  cbv beta delta [main_switch].
  destruct (s.[runState] =? run1).
  { cbv zeta. destruct (calc_governor_target _) as [t | |] eqn:E; cbn [bind];
      intros E'; try discriminate E'.
    apply Returns_inj in E'. subst s'.
    destruct (calc_governor_target_keeps _ _ E) as [_ K2].
    peel_turn. rewrite K2. peel_turn. reflexivity. }
  destruct (s.[runState] =? run2).
  { cbv zeta. intros E'. apply Returns_inj in E'. subst s'.
    peel_turn. reflexivity. }
  destruct (s.[runState] =? run3).
  { cbv zeta. intros E'. apply Returns_inj in E'. subst s'.
    peel_turn. reflexivity. }
  destruct (s.[runState] =? run4).
  { cbv zeta. intros E'. apply Returns_inj in E'. subst s'.
    peel_turn. reflexivity. }
  destruct (s.[runState] =? run5).
  { cbv zeta. intros E'. apply Returns_inj in E'. subst s'.
    peel_turn. reflexivity. }
  destruct (s.[runState] =? run6).
  { cbv zeta. intros E'. apply Returns_inj in E'. subst s'.
    peel_turn. reflexivity. }
  intros E'. apply Returns_inj in E'. subst s'. reflexivity.
Qed.

Lemma main_turn_switch (s : State) :
  main_turn s = main_switch (setup_comm_wait s).
Proof.
  unfold main_turn. cbv zeta.
  unfold evaluate_comparator_integrity, calc_next_comm_timing,
    wait_advance_timing, calc_new_wait_times, wait_before_zc_scan.
  destruct (main_switch (setup_comm_wait s)); reflexivity.
Qed.

Lemma setup_comm_wait_keeps (s : State) :
  mem (setup_comm_wait s) = mem s /\ F (setup_comm_wait s) = F s
  /\ port (setup_comm_wait s) = port s ++ [Delay1uS s.[Wt_Comm]].
Proof. repeat split. Qed.

Lemma main_turns_defined (n : nat) :
  forall s,
    run1 <= s.[runState] <= run6 ->
    s.[Requested_Pwm] <> 0 ->
    s.[Comm_Phase] = s.[runState] + 1 ->
    exists s',
      main_turns n s = Returns s'
      /\ s'.[runState] = (s.[runState] + Z.of_nat n) mod 6
      /\ s'.[Comm_Phase] = s'.[runState] + 1
      /\ s'.[Requested_Pwm] = s.[Requested_Pwm].
Proof.
  induction n as [| n IH]; intros s Hr Hq Hc.
  - exists s. split; [reflexivity |].
    split; [| split; [exact Hc | reflexivity]].
    unfold run1, run6 in Hr. rewrite Z.add_0_r, Z.mod_small by lia.
    reflexivity.
  - destruct (setup_comm_wait_keeps s) as (Um & _ & _).
    revert Um. generalize (main_turn_switch s).
    generalize (setup_comm_wait s). intros u Eu Um.
    assert (Hru : run1 <= u.[runState] <= run6)
      by (unfold get; rewrite Um; exact Hr).
    assert (Hqu : u.[Requested_Pwm] <> 0)
      by (unfold get; rewrite Um; exact Hq).
    destruct (main_switch_defined u Hqu) as (s1 & E1).
    destruct (main_switch_advances u s1 Hru E1) as [A1 A2].
    pose proof (main_switch_Requested_Pwm u s1 E1) as A3.
    unfold get in A1 at 2. unfold get in A3 at 2. rewrite Um in A1, A3.
    change (s1.[runState] = (s.[runState] + 1) mod 6) in A1.
    change (s1.[Requested_Pwm] = s.[Requested_Pwm]) in A3.
    assert (Hr1 : run1 <= s1.[runState] <= run6).
    { rewrite A1. unfold run1, run6.
      pose proof (Z.mod_pos_bound (s.[runState] + 1) 6). lia. }
    destruct (IH s1 Hr1 ltac:(congruence) A2) as (s' & E & B1 & B2 & B3).
    exists s'. cbn [main_turns]. rewrite Eu, E1. cbn [bind].
    split; [exact E |]. split; [| split; [exact B2 | congruence]].
    rewrite B1, A1, Zplus_mod_idemp_l. f_equal. lia.
Qed.

Lemma turn_safe (s : State) (lv : fet_levels) :
  run1 <= s.[runState] <= run6 ->
  F s PGM_PWMOFF_DAMPED = false ->
  F s DIR_CHANGE_BRAKE = false ->
  (forall l sd, lv l sd = bridge_at (F s PWM_ON) s.[runState] l sd) ->
  let cs := (if (s.[runState] =? run4) || (s.[runState] =? run6)
             then [Delay1uS s.[Wt_Comm]] else [])
            ++ issued (comm_into ((s.[runState] + 1) mod 6 + 1)) s in
  leg_shorted lv = false
  /\ shorted_during lv cs = false
  /\ (forall l sd,
        fets_after lv cs l sd
        = bridge_at (F s PWM_ON) ((s.[runState] + 1) mod 6) l sd).
Proof.
  unfold run1, run6. intros Hr Hd Hb Hlv.
  assert (Hc : s.[runState] = 0 \/ s.[runState] = 1 \/ s.[runState] = 2
               \/ s.[runState] = 3 \/ s.[runState] = 4 \/ s.[runState] = 5)
    by lia.
  destruct (commutation_nondamped s Hd Hb) as (C1 & C2 & C3 & C4 & C5 & C6).
  cbv zeta.
  destruct Hc as [H | [H | [H | [H | [H | H]]]]]; rewrite H in *;
    cbn [Z.eqb Pos.eqb run1 run2 run3 run4 run5 run6 orb];
    change (comm_into ((0 + 1) mod 6 + 1)) with comm1comm2;
    change (comm_into ((1 + 1) mod 6 + 1)) with comm2comm3;
    change (comm_into ((2 + 1) mod 6 + 1)) with comm3comm4;
    change (comm_into ((3 + 1) mod 6 + 1)) with comm4comm5;
    change (comm_into ((4 + 1) mod 6 + 1)) with comm5comm6;
    change (comm_into ((5 + 1) mod 6 + 1)) with comm6comm1;
    rewrite ?C1, ?C2, ?C3, ?C4, ?C5, ?C6;
    (split;
     [ rewrite (leg_shorted_ext _ _ Hlv)
     | split;
       [ rewrite (shorted_during_ext _ _ _ Hlv)
       | intros l sd; rewrite (fets_after_ext _ _ _ Hlv) ] ]);
    destruct (F s PWM_ON); try destruct l, sd; reflexivity.
Qed.

Lemma main_turns_safe (n : nat) :
  forall s lv,
    run1 <= s.[runState] <= run6 ->
    s.[Requested_Pwm] <> 0 ->
    F s PGM_PWMOFF_DAMPED = false ->
    F s DIR_CHANGE_BRAKE = false ->
    (forall l sd, lv l sd = bridge_at (F s PWM_ON) s.[runState] l sd) ->
    exists s' cs,
      main_turns n s = Returns s'
      /\ port s' = port s ++ cs
      /\ shorted_during lv cs = false
      /\ (forall l sd,
            fets_after lv cs l sd = bridge_at (F s PWM_ON) s'.[runState] l sd).
Proof.
  induction n as [| n IH]; intros s lv Hr Hq Hd Hb Hlv.
  - exists s, []. split; [reflexivity |].
    split; [symmetry; apply app_nil_r |]. split; [reflexivity | exact Hlv].
  - destruct (setup_comm_wait_keeps s) as (Um & Uf & Up).
    revert Um Uf Up. generalize (main_turn_switch s).
    generalize (setup_comm_wait s). intros u Eu Um Uf Up.
    assert (Ug : forall x, u.[x] = s.[x])
      by (intros x; unfold get; rewrite Um; reflexivity).
    assert (Hru : run1 <= u.[runState] <= run6) by (rewrite Ug; exact Hr).
    assert (Hqu : u.[Requested_Pwm] <> 0) by (rewrite Ug; exact Hq).
    assert (Hdu : F u PGM_PWMOFF_DAMPED = false) by (rewrite Uf; exact Hd).
    assert (Hbu : F u DIR_CHANGE_BRAKE = false) by (rewrite Uf; exact Hb).
    assert (Hlvu : forall l sd,
               lv l sd = bridge_at (F u PWM_ON) u.[runState] l sd)
      by (intros l sd; rewrite Uf, Ug; apply Hlv).
    destruct (main_switch_defined u Hqu) as (s1 & E1).
    destruct (main_switch_advances u s1 Hru E1) as [A1 _].
    pose proof (main_switch_Requested_Pwm u s1 E1) as A3.
    destruct (main_switch_turn u s1 Hru Hdu Hbu E1) as [_ A4].
    destruct (turn_safe u lv Hru Hdu Hbu Hlvu) as (T0 & T1 & T2).
    assert (Hr1 : run1 <= s1.[runState] <= run6).
    { rewrite A1. unfold run1, run6.
      pose proof (Z.mod_pos_bound (u.[runState] + 1) 6). lia. }
    assert (Hd1 : F s1 PGM_PWMOFF_DAMPED = false)
      by (rewrite (main_switch_F u s1 _ E1) by discriminate; exact Hdu).
    assert (Hb1 : F s1 DIR_CHANGE_BRAKE = false)
      by (rewrite (main_switch_F u s1 _ E1) by discriminate; exact Hbu).
    assert (Hw1 : F s1 PWM_ON = F s PWM_ON).
    { rewrite (main_switch_F u s1 _ E1) by discriminate.
      rewrite Uf. reflexivity. }
    match type of A4 with _ = _ ++ ?c => set (cs1 := c) in * end.
    assert (Hlv1 : forall l sd,
               fets_after (fets_after lv [Delay1uS s.[Wt_Comm]]) cs1 l sd
               = bridge_at (F s1 PWM_ON) s1.[runState] l sd).
    { intros l sd. rewrite Hw1, A1, <- Uf. apply T2. }
    destruct (IH s1 _ Hr1 ltac:(congruence) Hd1 Hb1 Hlv1)
      as (s' & cs & E & B1 & B2 & B3).
    exists s', ([Delay1uS s.[Wt_Comm]] ++ cs1 ++ cs).
    cbn [main_turns]. rewrite Eu, E1. cbn [bind].
    split; [exact E |]. split; [| split].
    + rewrite B1, A4, Up. repeat rewrite <- app_assoc. reflexivity.
    + rewrite shorted_during_app. cbn [shorted_during fet_after orb].
      rewrite T0. cbn [orb].
      rewrite shorted_during_app.
      change (fets_after lv [Delay1uS s.[Wt_Comm]]) with lv in *.
      rewrite T1, B2. reflexivity.
    + intros l sd. rewrite !fets_after_app, B3, Hw1. reflexivity.
Qed.

(** X18: the pins after [init_start].  Without a direction change brake
    [init_start], run from any pin levels, never has both switches of a
    leg on, and it leaves the bridge aligned for the first commutation:
    the B high side switch on, the C low side switch on exactly if
    [F.PWM_ON] is set, every other switch off. *)
Theorem init_start_pins (s : State) (lv : fet_levels) :
  F s DIR_CHANGE_BRAKE = false ->
  shorted_during lv (issued init_start s) = false
  /\ (forall l sd,
        fets_after lv (issued init_start s) l sd
        = match l, sd with
          | LegB, pFET => true
          | LegC, nFET => F s PWM_ON
          | _, _ => false
          end).
Proof.
  intros Hb. unfold issued.
  rewrite init_start_port by exact Hb.
  cbn [port F app].
  destruct (F s PWM_ON); split;
    try (intros l sd; destruct l, sd; reflexivity);
    cbv [shorted_during leg_shorted fet_after side_eqb leg_eqb andb orb app];
    destruct (lv LegA pFET), (lv LegB pFET), (lv LegC pFET); reflexivity.
Qed.

Lemma init_start_pins_witness :
  F default_state DIR_CHANGE_BRAKE = false
  /\ shorted_during (fun _ _ => true) (issued init_start default_state) = false
  /\ fets_after (fun _ _ => true) (issued init_start default_state) LegB pFET
     = true.
Proof.
  split; [reflexivity |].
  pose proof (init_start_pins default_state (fun _ _ => true) eq_refl)
    as [H1 H2].
  split; [exact H1 | exact (H2 LegB pFET)].
Defined.

(** ** The commutation loop *)

Lemma main_entry_start (s : State) :
  run1 <= (main_entry s).[runState] <= run6
  /\ (main_entry s).[runState] = 0
  /\ (main_entry s).[Requested_Pwm] = 1
  /\ (main_entry s).[Comm_Phase] = (main_entry s).[runState] + 1.
Proof.
  unfold main_entry. cbv zeta.
  match goal with |- context [init_start ?u] =>
    destruct (init_start_ctl u) as [C1 C2];
    destruct (init_start_governor u) as (_ & _ & _ & _ & _ & C3 & _)
  end.
  rewrite C1, C2, C3. unfold run1, run6. repeat split; lia.
Qed.

(** X19: taken without the call of [DoHousekeeping], the commutation
    loop [main] starts never runs into the undefined division of
    [governor_activate], whatever the parameters and the state at power
    on: any number [n] of turns returns.  After them [runState] is
    [n mod 6], [Comm_Phase] is the sector of [runState], and
    [Requested_Pwm] still holds the 1 [init_start] gave it. *)
Theorem commutation_loop_defined (n : nat) (s : State) :
  exists s',
    main_turns n (main_entry s) = Returns s'
    /\ s'.[runState] = Z.of_nat n mod 6
    /\ s'.[Comm_Phase] = s'.[runState] + 1
    /\ s'.[Requested_Pwm] = 1.
Proof.
  destruct (main_entry_start s) as (Hr & H0 & Hq & Hc).
  destruct (main_turns_defined n (main_entry s) Hr ltac:(rewrite Hq; discriminate) Hc)
    as (s' & E & B1 & B2 & B3).
  exists s'. split; [exact E |].
  split; [rewrite B1, H0; reflexivity |].
  split; [exact B2 | congruence].
Qed.

(** X20: the commutation loop never shorts a leg.  Without a direction
    change brake, the commands that [main]'s start up and any number
    [n] of turns of its loop, taken without the call of
    [DoHousekeeping], send to the pins, run from any pin levels, never
    leave both switches of a leg on, and after them the bridge is in
    the six step pattern of [runState] [n mod 6]: one high side switch
    on, and at most one low side switch, of another leg. *)
Theorem commutation_loop_never_shorts
  (n : nat) (s : State) (lv : fet_levels) :
  F s DIR_CHANGE_BRAKE = false ->
  exists s' cs,
    main_turns n (main_entry s) = Returns s'
    /\ port s' = port s ++ cs
    /\ shorted_during lv cs = false
    /\ (forall l sd,
          fets_after lv cs l sd
          = bridge_at (F s PWM_ON) (Z.of_nat n mod 6) l sd).
Proof.
  intros Hb.
  destruct (main_entry_start s) as (Hr & H0 & Hq & Hc).
  destruct (main_turns_defined n (main_entry s) Hr ltac:(rewrite Hq; discriminate) Hc)
    as (s1 & E1 & R1 & _).
  assert (Hflags : F (main_entry s) PGM_PWMOFF_DAMPED = false
                   /\ F (main_entry s) DIR_CHANGE_BRAKE = false
                   /\ F (main_entry s) PWM_ON = F s PWM_ON).
  { unfold main_entry. cbv zeta.
    split; [exact (proj1 (proj2 (init_start_clears _))) |].
    rewrite !init_start_F by discriminate.
    rewrite !decode_parameters_F by discriminate.
    split; [exact Hb | reflexivity]. }
  destruct Hflags as (Hd & Hb' & Hw).
  assert (Hport : port (main_entry s)
                  = port s
                    ++ [AllFets nFET false; AllFets pFET false;
                        AllFets nFET false; AllFets pFET false;
                        AllFets pFET false; Fet LegB pFET true;
                        SetCompPhase LegC; Fet LegA nFET false]
                    ++ (if F s PWM_ON then [Fet LegC nFET true] else [])
                    ++ [SetCompPhase LegA]).
  { unfold main_entry. cbv zeta.
    rewrite init_start_port
      by (rewrite decode_parameters_F by discriminate; exact Hb).
    rewrite (proj1 (decode_parameters_port _)).
    rewrite decode_parameters_F by discriminate.
    cbn [switch_power_off All_nFETs_off All_pFETs_off emit port F].
    repeat rewrite <- app_assoc. reflexivity. }
  match type of Hport with _ = _ ++ ?c => set (cs0 := c) in * end.
  assert (S0 : shorted_during lv cs0 = false).
  { unfold cs0. destruct (F s PWM_ON);
      cbv [shorted_during leg_shorted fet_after side_eqb leg_eqb andb orb app];
      destruct (lv LegA pFET), (lv LegB pFET), (lv LegC pFET); reflexivity. }
  assert (L0 : forall l sd,
             fets_after lv cs0 l sd
             = bridge_at (F (main_entry s) PWM_ON) (main_entry s).[runState] l sd).
  { intros l sd. rewrite Hw, H0. unfold cs0.
    destruct (F s PWM_ON), l, sd; reflexivity. }
  destruct (main_turns_safe n (main_entry s) (fets_after lv cs0) Hr
              ltac:(rewrite Hq; discriminate) Hd Hb' L0)
    as (s' & cs & E & B1 & B2 & B3).
  assert (Es : s' = s1) by (rewrite E in E1; exact (Returns_inj _ _ E1)).
  subst s1.
  exists s', (cs0 ++ cs). split; [exact E |]. split; [| split].
  - rewrite B1, Hport. symmetry. apply app_assoc.
  - rewrite shorted_during_app, S0, B2. reflexivity.
  - intros l sd. rewrite fets_after_app, B3, Hw, R1, H0. reflexivity.
Qed.

Lemma commutation_loop_never_shorts_witness :
  F default_state DIR_CHANGE_BRAKE = false
  /\ exists s' cs,
       main_turns 7 (main_entry default_state) = Returns s'
       /\ port s' = port default_state ++ cs
       /\ shorted_during (fun _ _ => true) cs = false.
Proof.
  split; [reflexivity |].
  destruct (commutation_loop_never_shorts 7 default_state (fun _ _ => true)
              eq_refl) as (s' & cs & E & H1 & H2 & _).
  exists s', cs. split; [exact E |]. split; [exact H1 | exact H2].
Defined.

(** X21: the first turn of the loop in [main] hangs in the
    housekeeping.  From any state at power on, [main]'s start up and
    the first turn of the [switch] return, and the call of
    [DoHousekeeping] that follows is never left: the firmware makes one
    commutation, into phase 2, and no more. *)
Theorem main_first_turn_hangs (fuel : nat) (s : State) :
  main_loop_body fuel (main_entry s) = Diverges
  /\ exists s',
       main_switch
         (setup_comm_wait (evaluate_comparator_integrity (main_entry s)))
       = Returns s'
       /\ s'.[Comm_Phase] = 2 /\ s'.[runState] = run2.
Proof.
  destruct (main_entry_start s) as (Hr & H0 & Hq & _).
  revert Hr H0 Hq. generalize (main_entry s). intros t Hr H0 Hq.
  pose (u := setup_comm_wait (evaluate_comparator_integrity t)).
  assert (Hu : u.[runState] = t.[runState]
               /\ u.[Requested_Pwm] = t.[Requested_Pwm])
    by (split; reflexivity).
  destruct Hu as [U1 U2].
  assert (Hq' : u.[Requested_Pwm] <> 0) by (rewrite U2, Hq; discriminate).
  assert (Hr' : run1 <= u.[runState] <= run6) by (rewrite U1; exact Hr).
  destruct (main_switch_defined u Hq') as (s' & E).
  destruct (main_switch_advances u s' Hr' E) as [A1 A2].
  rewrite U1, H0 in A1.
  split.
  - unfold main_loop_body. cbv zeta. fold u. rewrite E. cbn [bind].
    unfold DoHousekeeping. rewrite DoHousekeeping_loop_initialState.
    reflexivity.
  - exists s'. fold u. split; [exact E |].
    rewrite A2, A1. split; reflexivity.
Qed.

(** ** Comparator readings *)

Lemma set_comparator_readings_Temp3 (s : State) :
  (set_comparator_readings s).[Temp3]
  = if s.[Comm_Period4x] >? 0x0500
    then if s.[Comm_Period4x] >? 0x0f00 then 3 else 2
    else 1.
Proof.
  unfold set_comparator_readings.
  repeat rewrite get_set_other by discriminate.
  destruct (Z.gtb_spec s.[Comm_Period4x] 0x0500) as [G1 | G1];
    [| reflexivity].
  repeat rewrite get_set_other by discriminate.
  destruct (Z.gtb_spec s.[Comm_Period4x] 0x0a00) as [G2 | G2].
  - repeat rewrite get_set_other by discriminate.
    destruct (Z.gtb_spec s.[Comm_Period4x] 0x0f00); reflexivity.
  - destruct (Z.gtb_spec s.[Comm_Period4x] 0x0f00); [lia | reflexivity].
Qed.

Lemma wait_for_comp_out_not_timed_out_readings (s s' : State) :
  wait_for_comp_out_not_timed_out s = Returns s' ->
  s' = set_comparator_readings s.
Proof.
  unfold wait_for_comp_out_not_timed_out. cbv zeta.
  destruct (_ && _); [discriminate |].
  intros E. apply Returns_inj in E. symmetry. exact E.
Qed.

(** X22: above a commutation period of [0x0500] the comparator reading
    counts of [wait_for_comp_out_not_timed_out] follow the speed as its
    comment says: between two periods above [0x0500] the longer one
    never asks for fewer OK readings ([Temp1]) or fewer fast
    consecutive readings ([Temp3]), and both counts are 2 or 3. *)
Theorem comparator_readings_monotone (s t s' t' : State) :
  0x0500 < s.[Comm_Period4x] <= t.[Comm_Period4x] ->
  wait_for_comp_out_not_timed_out s = Returns s' ->
  wait_for_comp_out_not_timed_out t = Returns t' ->
  s'.[Temp1] <= t'.[Temp1] /\ s'.[Temp3] <= t'.[Temp3]
  /\ 2 <= s'.[Temp1] <= 3 /\ 2 <= s'.[Temp3] <= 3.
Proof.
  intros H Es Et.
  apply wait_for_comp_out_not_timed_out_readings in Es, Et. subst s' t'.
  rewrite !set_comparator_readings_Temp1, !set_comparator_readings_Temp3.
  destruct (Z.gtb_spec s.[Comm_Period4x] 0x0500);
    destruct (Z.gtb_spec t.[Comm_Period4x] 0x0500);
    destruct (Z.gtb_spec s.[Comm_Period4x] 0x0a00);
    destruct (Z.gtb_spec t.[Comm_Period4x] 0x0a00);
    destruct (Z.gtb_spec s.[Comm_Period4x] 0x0f00);
    destruct (Z.gtb_spec t.[Comm_Period4x] 0x0f00); lia.
Qed.

Lemma comparator_readings_monotone_witness :
  let s := default_state.[Comm_Period4x <- 0x0501] in
  let t := default_state.[Comm_Period4x <- 0x7F00] in
  0x0500 < s.[Comm_Period4x] <= t.[Comm_Period4x]
  /\ exists s' t',
       wait_for_comp_out_not_timed_out s = Returns s'
       /\ wait_for_comp_out_not_timed_out t = Returns t'
       /\ s'.[Temp1] <= t'.[Temp1] /\ s'.[Temp3] <= t'.[Temp3].
Proof.
  cbv zeta.
  assert (H : 0x0500 < (default_state.[Comm_Period4x <- 0x0501]).[Comm_Period4x]
              <= (default_state.[Comm_Period4x <- 0x7F00]).[Comm_Period4x])
    by (vm_compute; split; [reflexivity | discriminate]).
  split; [exact H |].
  eexists. eexists.
  split; [vm_compute; reflexivity |]. split; [vm_compute; reflexivity |].
  match goal with |- get _ ?a <= get _ ?b /\ _ =>
    pose proof (comparator_readings_monotone
                  default_state.[Comm_Period4x <- 0x0501]
                  default_state.[Comm_Period4x <- 0x7F00] a b H
                  ltac:(vm_compute; reflexivity) ltac:(vm_compute; reflexivity))
      as (H1 & H2 & _)
  end.
  split; [exact H1 | exact H2].
Defined.

(** ** The run checks of the housekeeping loop *)












